(* ===== verification/_CoqProject ===== *)
-Q . S2P
Prelude.v
Geometry.v
Domain.v
Formation.v
SlotAction.v
Playback.v
Persistence.v
Schema.v
League.v
Training.v
Chemistry.v
Auth.v
Forms.v
Navigation.v
Views.v
Contexts.v
Field.v
Screen.v
