(* ===== verification/Prelude.v ===== *)
(** * Astral Turf: a verification development of the tactics core

    This library models, in shallow embedding, the tactics and playbook core
    of the Astral Turf soccer tactics planner (TypeScript/React sources under
    [src/]) and proves the properties that make it correct.

    ** The program and its parts

    The application keeps one immutable root state [{auth, tactics,
    franchise, ui}] ([src/types.ts], [RootState]) in a React [useReducer]
    ([src/context/AppContext.tsx], [AppProvider]).  UI event handlers
    translate drag-and-drop and clicks into tagged actions
    ([src/components/SoccerField.tsx]); the reducer produces the next state;
    two effects of [AppProvider] react to the new state: the playback timer
    (one [setTimeout] per step, cancelled by the effect's cleanup) and the
    persistence effect (which normalises the state with [cleanStateForSaving]
    and writes it to [localStorage]).  The reducer itself
    ([rootReducer]) and the chemistry service are not part of [src/]: the
    operations of theirs that the core needs are modelled from the
    specification and marked as such in the manifest.

    ** Files and what they model

    - [Prelude] (this file): the nullish default [x ?? d] in [turf_scope],
      JavaScript truthiness of nullable strings, folds that build records
      the way [Array.prototype.reduce] does, [fold_left_ind] (a loop
      invariant), the [turf] hint databases and the shared tactics
      ([decide_key] decides a closed proposition by evaluation).
    - [Geometry]: positions in percentage space, [mirrorPosition]
      ([SoccerField.tsx] line 89) on integers, and the adjacency test of [getChemistryLinks].
    - [Domain]: the records, enums and the tagged [Action] union of
      [src/types.ts]; the seed data of [src/constants.ts].  UI and franchise
      fields the core never reads are kept as a JSON object ([ui_rest],
      [franchise_rest]) so that persistence can delete them by key.
    - [Formation]: the reducer's assignment, bench, swap and free move
      (spec-modelled) and the slot-exclusivity invariant.
    - [SlotAction]: [handleSlotDrop], [handleFieldDrop] and
      [handleActionBubbleClick] of [SoccerField.tsx], and the slot-action
      menu of the reducer refined against the idle/menuOpen machine of the
      specification ([resolver_step]).
    - [Playback]: the animation effect of [AppProvider] (lines 76-92) as a
      runtime of events ([rt_step]: a dispatch, the timer firing, the
      effect's dispatch being processed) with React's dependency comparison
      and cleanup; the reducer is any instance of the [PlaybackReducer]
      laws, which the spec-modelled [reducePlayback] satisfies.
    - [Persistence]: [cleanStateForSaving] (lines 12-47), the mount-time
      restore with its version check (59-72), the save effect (94-111) over
      a storage map, and [LOAD_STATE] (spec-modelled) with decoders.
    - [Chemistry]: [getChemistryLinks], [chemistryLinks] and
      [FormationStrengthOverlay] of [SoccerField.tsx]; the score service is
      the class [ChemistryScore].
    - [Auth]: the validation of the login and signup forms
      ([validateForm]), the email pattern as an executable matcher, the
      route table of [App.tsx] and [ProtectedRoute].
    - [Views]: the keyboard handler of [Layout.tsx] and the drag, select
      and status indicators of [PlayerToken.tsx], composed with the drop
      handlers of [SlotAction].
    - [Contexts]: the four providers of [AppProvider] and the hooks of
      [src/hooks/].
    - [Schema]: the interfaces of [src/types.ts] that [UIState] refers to,
      as a typing judgement [has_type] on JSON with a checker [typecheck]
      proved to decide it, and lemmas on what [JSON.stringify],
      [cleanStateForSaving] and [LOAD_STATE] do with typed UI state, which
      [League] uses for the season; the file states no property of its own.
    - [Forms]: [LoginPage] and [SignupPage] as components: one step
      function [pageStep] over form data, errors, [isLoading] and the
      awaited service call or admin timer, and what the JSX shows.
    - [Field]: which tokens and drop zones [renderTeam] draws and where
      their drops go, the drag-over highlight with React's event bubbling
      and batched updates, and the layers of the pitch.
    - [Screen]: [Layout]'s theme effect, [MODAL_MAP], its children and the
      lineup export effect as a runtime of dispatches and image jobs in
      flight ([exportStep]); the panels of [TacticsBoardPage]; the face of
      [PlayerToken] from [PLAYER_ROLES].
    - [League]: the seed league and the first season of [constants.ts]:
      [generateFixtures] (nested loops, a shuffle taken as any permutation,
      week numbers by position, the stable sort by week), the league table
      built by [reduce], and the [Season] interface with its JSON encoding.
    - [Training]: [TRAINING_DRILLS], the default week both teams start with
      and the two plan templates, with the interfaces of [types.ts]: the
      franchise's starting data, transcribed; no code under [src/] reads it
      and the file carries no theorem.
    - [Navigation]: the links of the public pages, their [auth-bg] body
      class effect, and the screen after link clicks, navigations and
      authentication actions, composed with the route table of [Auth] and
      the handlers of [Forms].

    The components interact through the reducer's actions: the handlers of
    [SlotAction], [Views], [Forms] and [Screen] produce actions, the
    runtimes of [Playback], [Persistence] and [Screen] react to the new
    state.  Where a runtime needs the reducer it takes any instance of a
    class of laws ([PlaybackReducer], [ExportReducer], [ChemistryScore])
    and the theorems are proved against the class.

    ** What is proved

    - The fixture list: whatever order the shuffle leaves, every ordered
      pair of two teams is a fixture exactly once, the 2m(2m-1) fixtures
      fill weeks 1 .. 2(2m-1) with m each, in order, and the final sort is
      a no-op; the weeks are positions, not rounds, so a team can play all
      fixtures of a week.
    - Invariants: slot exclusivity (no player in two slots of a formation)
      is kept by assignment, bench, swap and every menu decision; a pending
      playback timer is always for the next step of a running, unpaused
      animation, along any sequence of events; chemistry link keys are
      unique; a login or signup page keeps no error while a request is in
      flight and calls the service at most once at a time; the body has
      [auth-bg] exactly while a public page is shown.
    - Refinement: the menu actions of the reducer follow the specification's
      state machine; the chemistry links are exactly the qualifying pairs
      (sound and complete, under unique dash-free slot ids and a symmetric
      score).
    - Handlers: the authentication service is called only with form data
      that passes validation (a well-formed email, a password of six
      characters or more and, on signup, a matching confirmation); a drop on
      a slot held by another player opens the slot-action menu, a drop on a
      free slot assigns the player (or, in free mode, moves it onto the
      slot's position), a drop on the pitch in free mode moves the player
      within 0..100; clicking a token's action bubble
      on the pitch opens the slot-action menu for its own slot and throws
      when the token has no slot; a token dropped on a token assigns its
      player; every route of an authenticated user ends in the layout.
    - Termination and liveness: an animation of N >= 1 steps shows
      0..N-1 and stops within N + 1 events; every route settles within
      three evaluations; an undisturbed export ends with one download
      and one notification.
    - Round trips: [load (cleanStateForSaving s)] restores every persisted
      field, resets the transient ones and keeps the baked step; a save
      followed by a restore loads that snapshot; the email matcher equals
      its declarative meaning.
    - Error behaviour: stale references are no-ops, an old snapshot
      version is discarded, a failed request shows its error, and the
      places where the code misbehaves are proved as such (see the findings
      of the manifest): the drag-over highlight is never shown, a lineup
      change during an export downloads the sheet twice, resuming a
      playback whose item was deleted crashes, a corrupt slot index blocks
      the autosave, and [SoccerField] runs its hooks in the same order on
      every render only while both formations exist.

    ** Bounds and fuel

    Coordinates and scores are integers ([Z]): the stored positions and the
    seed data are integers.  A free-mode drop computes its position by
    float division, which the model floors ([handleFieldDrop]), and the
    binary64 rounding of mirroring ([100 - (100 - x)] is not [x] for
    fractional [x]) is not represented.  [run] takes
    fuel: [length steps + 1] events suffice, one per step plus the reset.
    [resolve] follows at most two [Navigate]s, so fuel 3 suffices.  Week
    numbers [Math.floor(index / (n / 2)) + 1] are the integer quotient
    [2 index / n + 1], exact in binary64 for fewer than 2^26 teams; the
    drills' injury risks are the rationals their decimal literals denote.

    ** Not modelled

    The reducer ([rootReducer]), the chemistry service, [authService] and
    the context modules are not under [src/]: what the core needs of them is
    modelled from the specification (marked [spec_modelled]) or taken as a
    parameter.  Rendering is modelled as what is shown (widgets, layers,
    messages, the token's face), not as markup: styles, the kit SVG, the
    trail and drawing canvases and the ghost drag image are left out, as are
    the image pipeline of the export ([toPng]: a job settles with a data URL
    or an error) and [LandingPage] (static markup) are not modelled; the
    staff, finance, inbox, transfer, youth and AI interfaces of
    [src/types.ts] are typed only where [UIState] refers to them: no code
    under [src/] operates on them.  The 24 pages inside [Layout] other than
    [TacticsBoardPage] are imported by [App] but not part of the
    repository; the model routes to them and stops there.  React Router's path
    normalisation (case-insensitive matching, trailing slashes) is taken as given: paths
    are lists of lower-case segments.  [\s] of the email pattern is ASCII
    white space.  The [LOGIN_SUCCESS] dispatch of the mount effect depends
    on [authService] and is not modelled. 
*)

From stdpp Require Export base list gmap strings.
From Stdlib Require Export ZArith Lia.

Declare Scope turf_scope.
Delimit Scope turf_scope with turf.
Open Scope Z_scope.

(** [x ?? d]: JavaScript's nullish default, the value when present. *)
Notation "x ?? d" := (default d x) (at level 50, left associativity) : turf_scope.
Open Scope turf_scope.

(** [zseq a k = [a; a + 1; ...; a + k - 1]]. *)
Fixpoint zseq (a : Z) (k : nat) : list Z :=
  match k with O => [] | S k' => a :: zseq (a + 1) k' end.

(** ** JavaScript truthiness of nullable strings

    [if (x)], [x && ...] and [.filter(s => s.playerId)] on a [string | null]
    accept a value only when it is present and non-empty. *)
Definition truthy (o : option string) : bool :=
  match o with
  | Some s => negb (String.eqb s "")
  | None => false
  end.

(** ** Records built by [Array.prototype.reduce]

    [xs.reduce((acc, x) => { acc[k x] = v x; return acc }, {})] inserts from
    left to right, so the last element with a given key wins. *)
Definition reduce_into {A V} (k : A -> string) (v : A -> V) (xs : list A)
    : gmap string V :=
  fold_left (fun acc x => <[k x := v x]> acc) xs ∅.

Lemma truthy_Some (o : option string) :
  truthy o = true -> exists s, o = Some s /\ s <> "".
Proof.
  destruct o as [s|]; simpl; [|discriminate].
  destruct (String.eqb_spec s ""); simpl; [discriminate|eauto].
Qed.

Lemma truthy_nonempty (s : string) : s <> "" -> truthy (Some s) = true.
Proof. intros Hs. simpl. by destruct (String.eqb_spec s ""). Qed.

(** A property kept by every step of a [fold_left] holds at its end. *)
Lemma fold_left_ind {A S} (I : S -> Prop) (f : S -> A -> S) (l : list A) (s : S) :
  I s -> (forall s x, x ∈ l -> I s -> I (f s x)) -> I (fold_left f l s).
Proof.
  revert s. induction l as [|x l IH]; intros s Hs Hf; simpl; [done|].
  apply IH; [apply Hf; [left|done]|]. intros s' y Hy. apply Hf. by right.
Qed.

Lemma NoDup_map_filter {A B} (g : A -> B) (P : A -> Prop) `{forall x, Decision (P x)} l :
  NoDup (map g l) -> NoDup (map g (filter P l)).
Proof.
  induction l as [|x l IH]; intros Hnd; [done|]. simpl in Hnd.
  apply NoDup_cons in Hnd as [Hx Hnd]. rewrite filter_cons.
  case_decide; simpl; [|by apply IH]. constructor; [|by apply IH].
  intros Hin. apply Hx. apply list_elem_of_fmap in Hin as (y & -> & Hy).
  apply list_elem_of_fmap. exists y. split; [done|]. by apply list_elem_of_filter in Hy as [_ ?].
Qed.

Lemma fold_insert_lookup_notin {A V} (k : A -> string) (v : A -> V)
    (xs : list A) (m : gmap string V) (key : string) :
  Forall (fun x => k x <> key) xs ->
  fold_left (fun acc x => <[k x := v x]> acc) xs m !! key = m !! key.
Proof.
  revert m. induction xs as [|x xs IH]; intros m Hall; simpl; [done|].
  inversion Hall; subst. rewrite IH by done. by rewrite lookup_insert_ne.
Qed.

Lemma fold_insert_lookup_in {A V} (k : A -> string) (v : A -> V)
    (xs : list A) (m : gmap string V) (x : A) :
  NoDup (map k xs) -> x ∈ xs ->
  fold_left (fun acc y => <[k y := v y]> acc) xs m !! k x = Some (v x).
Proof.
  revert m. induction xs as [|y xs IH]; intros m Hnd Hin; simpl.
  - by apply not_elem_of_nil in Hin.
  - apply NoDup_cons in Hnd as [Hy Hnd].
    apply elem_of_cons in Hin as [->|Hin]; [|by apply IH].
    rewrite fold_insert_lookup_notin; [by rewrite lookup_insert_eq|].
    apply Forall_forall. intros z Hz Heq. apply Hy. rewrite <- Heq.
    by apply list_elem_of_fmap_2.
Qed.

(** ** The [turf] hint database and shared tactics *)
Create HintDb turf.
Create Rewrite HintDb turf_rw.
#[export] Hint Resolve truthy_nonempty : turf.

(** [invc H]: invert a hypothesis and clean up. *)
Ltac invc H := inversion H; subst; clear H.

(** [case_bool]: split on the first boolean test of the goal. *)
Ltac case_bool :=
  match goal with
  | |- context [if ?b then _ else _] => destruct b eqn:?
  end.

(** [decide_key]: a decidable proposition about closed data, by evaluation. *)
Ltac decide_key := apply (bool_decide_unpack _); vm_compute; reflexivity.

(** ** Lists *)

Lemma omap_map_compose {A B C} (g : B -> option C) (k : A -> B) (l : list A) :
  omap g (map k l) = omap (fun a => g (k a)) l.
Proof.
  induction l as [|a l IH]; [done|]. simpl.
  destruct (g (k a)); [f_equal|]; exact IH.
Qed.

Lemma zseq_snoc (a : Z) (k : nat) : zseq a (S k) = zseq a k ++ [a + Z.of_nat k].
Proof.
  revert a. induction k as [|k IH]; intros a.
  - simpl. by rewrite Z.add_0_r.
  - change (zseq a (S (S k))) with (a :: zseq (a + 1) (S k)).
    rewrite IH. change (zseq a (S k)) with (a :: zseq (a + 1) k). simpl.
    do 3 f_equal. lia.
Qed.

Lemma elem_of_zseq (a j : Z) (k : nat) : j ∈ zseq a k <-> a <= j < a + Z.of_nat k.
Proof.
  revert a. induction k as [|k IH]; intros a; simpl.
  - rewrite elem_of_nil. lia.
  - rewrite elem_of_cons, IH. lia.
Qed.

(** How many of [0 .. len - 1] lie in [[a, b)]. *)
Lemma zseq_filter_interval (a b : Z) (len : nat) :
  0 <= a <= b ->
  Z.of_nat (length (filter (fun j => a <= j < b) (zseq 0 len))) =
  Z.max 0 (Z.min b (Z.of_nat len) - a).
Proof.
  intros Hab. induction len as [|len IH]; [simpl; lia|].
  rewrite zseq_snoc, filter_app, length_app, Nat2Z.inj_add, IH, filter_cons.
  simpl. case_decide; simpl; lia.
Qed.

(** The integer quotient as an interval. *)
Lemma Z_div_eq_iff (j m w : Z) : 0 < m -> j / m = w <-> w * m <= j < (w + 1) * m.
Proof.
  intros Hm. split.
  - intros <-. pose proof (Z.div_mod j m) as Hd. pose proof (Z.mod_pos_bound j m Hm). nia.
  - intros Hj. symmetry. apply (Z.div_unique j m w (j - w * m)); lia.
Qed.

(** Filtering on a conjunction whose first part every element satisfies. *)
Lemma filter_and_Forall {A} (P Q : A -> Prop) `{forall x, Decision (P x)}
    `{forall x, Decision (Q x)} (l : list A) :
  Forall P l -> filter (fun x => P x /\ Q x) l = filter Q l.
Proof.
  induction l as [|x l IH]; intros Hl; [done|]. apply Forall_cons in Hl as [Hx Hl].
  rewrite !filter_cons, IH by done. by repeat case_decide; naive_solver.
Qed.

Lemma filter_Forall_not {A} (P : A -> Prop) `{forall x, Decision (P x)} (l : list A) :
  Forall (fun x => ~ P x) l -> filter P l = [].
Proof.
  induction l as [|x l IH]; intros Hl; [done|]. apply Forall_cons in Hl as [Hx Hl].
  rewrite filter_cons, IH by done. by case_decide.
Qed.
