(* ===== verification/Geometry.v ===== *)
(** * Geometry: positions, mirroring and adjacency

    Positions are percentages of the pitch ([{x, y}] in [src/types.ts]).
    [mirrorPosition] is the away-side transform of
    [src/components/SoccerField.tsx] (line 89).  Stored coordinates and the
    formation seed data are integers, so positions are modelled on [Z]:
    on the binary64 numbers JavaScript uses, [100 - (100 - x)] differs
    from [x] for fractional [x] (for [0.1] it is [0.09999999999999432]),
    which the model does not represent.  [slotDistanceOk] is the adjacency
    test of [getChemistryLinks]. *)

From S2P Require Import Prelude.

Record Position := mkPos { px : Z; py : Z }.

#[export] Instance Position_eq_dec : EqDecision Position.
Proof. solve_decision. Defined.

(** [const mirrorPosition = (pos) => ({ x: 100 - pos.x, y: 100 - pos.y })] *)
Definition mirrorPosition (pos : Position) : Position :=
  mkPos (100 - px pos) (100 - py pos).

(** The rendering contract: both coordinates in [[0,100]]. *)
Definition in_pitch (p : Position) : bool :=
  (0 <=? px p) && (px p <=? 100) && (0 <=? py p) && (py p <=? 100).

(** Squared straight-line distance of two positions. *)
Definition dist2 (a b : Position) : Z :=
  (px a - px b) ^ 2 + (py a - py b) ^ 2.

(** [Math.sqrt(Math.pow(dx, 2) + Math.pow(dy, 2)) < 30]: the adjacency
    threshold of [getChemistryLinks].  On integers the floor square root
    compares with 30 exactly as the real one does. *)
Definition slotDistanceOk (a b : Position) : bool :=
  Z.sqrt (dist2 a b) <? 30.

(** ** Lemmas *)

Lemma mirrorPosition_px p : px (mirrorPosition p) = 100 - px p.
Proof. reflexivity. Qed.

Lemma mirrorPosition_py p : py (mirrorPosition p) = 100 - py p.
Proof. reflexivity. Qed.

#[export] Hint Rewrite mirrorPosition_px mirrorPosition_py : turf_rw.

Lemma dist2_nonneg a b : 0 <= dist2 a b.
Proof. unfold dist2. nia. Qed.

Lemma dist2_sym a b : dist2 a b = dist2 b a.
Proof. unfold dist2. nia. Qed.

(** ** Mirroring *)

(** Mirroring twice gives back the position, exactly,
    on the integer coordinates of the model. *)
Theorem mirrorPosition_involutive (p : Position) :
  mirrorPosition (mirrorPosition p) = p.
Proof. destruct p as [x y]. unfold mirrorPosition; simpl. f_equal; lia. Qed.

(** Mirroring keeps a position on the pitch, and only positions on the pitch
    are mirrored onto it. *)
Theorem mirrorPosition_in_pitch (p : Position) :
  in_pitch (mirrorPosition p) = in_pitch p.
Proof.
  destruct p as [x y]. unfold in_pitch, mirrorPosition; simpl.
  destruct (0 <=? x) eqn:?, (x <=? 100) eqn:?, (0 <=? y) eqn:?, (y <=? 100) eqn:?;
    simpl; repeat (rewrite ?Z.leb_le, ?Z.leb_gt in *); lia.
Qed.

(** Mirroring is an isometry: distances between mirrored positions are the
    distances between the stored ones, so adjacency does not depend on the
    side a formation is drawn on. *)
Lemma mirrorPosition_dist2 (a b : Position) :
  dist2 (mirrorPosition a) (mirrorPosition b) = dist2 a b.
Proof. unfold dist2, mirrorPosition; simpl. nia. Qed.

(** The adjacency test accepts exactly the pairs at squared distance below
    [30 * 30]. *)
Lemma slotDistanceOk_iff (a b : Position) :
  slotDistanceOk a b = true <-> dist2 a b < 900.
Proof.
  unfold slotDistanceOk. rewrite Z.ltb_lt. pose proof (dist2_nonneg a b).
  split; intros H0.
  - destruct (Z.lt_ge_cases (dist2 a b) 900) as [|Hge]; [done|].
    assert (30 <= Z.sqrt (dist2 a b)); [|lia].
    change 30 with (Z.sqrt (30 * 30)). apply Z.sqrt_le_mono. lia.
  - apply Z.sqrt_lt_square; lia.
Qed.

Lemma slotDistanceOk_mirror (a b : Position) :
  slotDistanceOk (mirrorPosition a) (mirrorPosition b) = slotDistanceOk a b.
Proof. unfold slotDistanceOk. by rewrite mirrorPosition_dist2. Qed.
