(* ===== verification/Domain.v ===== *)
(** * Domain: the data model of [src/types.ts] and the seed state

    The records and variants below are those of [src/types.ts] restricted to
    the fields the tactics core reads or writes; string-literal unions are
    inductive types with one constructor per literal, [T | null] is
    [option T], [Record<string, T>] is [gmap string T], arrays are lists.
    UI fields that the core never reads are kept as an untyped JSON object
    ([ui_rest]), so that persistence can still strip them by key.
    The seed formations, players and UI of [src/constants.ts]
    ([INITIAL_STATE]) close the file. *)

From S2P Require Import Prelude Geometry.

(** ** JSON values, for the fields kept untyped *)
Inductive jval :=
| JNull
| JBool (b : bool)
| JNum (n : Z)
| JStr (s : string)
| JArr (l : list jval)
| JObj (l : list (string * jval)).

(** [o[k]] on a parsed JSON object; [JSON.parse] keeps the last binding of
    a repeated key. *)
Definition jlookup (k : string) (l : list (string * jval)) : option jval :=
  fold_left (fun acc kv => if String.eqb kv.1 k then Some kv.2 else acc) l None.

(** ** Players, slots and formations *)

Inductive Team := home | away.
Inductive TeamView := view_home | view_away | view_both.
Inductive PositionRole := GK | DF | MF | FW.

#[export] Instance Team_eq_dec : EqDecision Team.
Proof. solve_decision. Defined.
#[export] Instance TeamView_eq_dec : EqDecision TeamView.
Proof. solve_decision. Defined.

Inductive PlayerAvailabilityStatus :=
| Available | MinorInjury | MajorInjury | Suspended | InternationalDuty.

Inductive PlayerMorale := Excellent | Good | Okay | Poor | VeryPoor.

Record Player := mkPlayer {
  player_id : string;
  jerseyNumber : Z;
  roleId : string;
  team : Team;
  position : Position;
  availability : PlayerAvailabilityStatus;
  morale : PlayerMorale;
  stamina : Z;
}.

(** A value per side, as [{ home: T; away: T }]. *)
Record PerTeam (A : Type) := mkPerTeam { at_home : A; at_away : A }.
Arguments mkPerTeam {A} _ _.
Arguments at_home {A} _.
Arguments at_away {A} _.

Definition forTeam {A} (t : Team) (r : PerTeam A) : A :=
  match t with home => at_home r | away => at_away r end.

Definition setForTeam {A} (t : Team) (v : A) (r : PerTeam A) : PerTeam A :=
  match t with
  | home => mkPerTeam v (at_away r)
  | away => mkPerTeam (at_home r) v
  end.

Record FormationSlot := mkSlot {
  slot_id : string;
  slot_role : PositionRole;
  defaultPosition : Position;
  slot_playerId : option string;
}.

Record Formation := mkFormation {
  formation_id : string;
  formation_name : string;
  slots : list FormationSlot;
  isCustom : bool;
}.

(** Decidable equality of the lineup data, so that changes of it can be
    detected as React's dependency comparison detects them. *)
#[export] Instance PositionRole_eq_dec : EqDecision PositionRole.
Proof. solve_decision. Defined.
#[export] Instance PlayerAvailabilityStatus_eq_dec : EqDecision PlayerAvailabilityStatus.
Proof. solve_decision. Defined.
#[export] Instance PlayerMorale_eq_dec : EqDecision PlayerMorale.
Proof. solve_decision. Defined.
#[export] Instance Player_eq_dec : EqDecision Player.
Proof. solve_decision. Defined.
#[export] Instance PerTeam_eq_dec {A} `{EqDecision A} : EqDecision (PerTeam A).
Proof. solve_decision. Defined.
#[export] Instance FormationSlot_eq_dec : EqDecision FormationSlot.
Proof. solve_decision. Defined.
#[export] Instance Formation_eq_dec : EqDecision Formation.
Proof. solve_decision. Defined.

(** ** Drawings and the playbook *)

Inductive DrawingTool := select | arrow | zone | pen | line | text.

#[export] Instance DrawingTool_eq_dec : EqDecision DrawingTool.
Proof. solve_decision. Defined.

Record DrawingShape := mkShape {
  shape_id : string;
  tool : DrawingTool;
  color : string;
  points : list Position;
  shape_text : option string;
}.

Inductive PlayCategory :=
| General | AttackingCorner | DefendingCorner
| AttackingFreeKick | DefendingFreeKick | ThrowIn.

Inductive PlaybookEventType := Goal | YellowCard | RedCard.

Record PlaybookEvent := mkEvent {
  event_type : PlaybookEventType;
  event_description : string;
}.

Record PlaybookStep := mkStep {
  step_id : string;
  playerPositions : gmap string Position;
  step_drawings : list DrawingShape;
  event : option PlaybookEvent;
  playerRuns : list (string * list Position);
  ballPath : option (list Position);
}.

Record PlaybookItem := mkItem {
  item_id : string;
  item_name : string;
  category : PlayCategory;
  item_formationId : string;
  steps : list PlaybookStep;
}.

(** ** The slot-action menu and the UI state the core reads *)

Inductive SlotActionMenuTrigger := click | drag.

Record SlotActionMenuData := mkMenu {
  sourcePlayerId : string;
  targetSlotId : string;
  targetPlayerId : option string;
  trigger : SlotActionMenuTrigger;
  menu_position : Position;
}.

Inductive ModalType :=
| editPlayer | comparePlayer | slotActionMenu | chat | customFormationEditor
| loadProject | matchSimulator | postMatchReport | contractNegotiation
| pressConference | aiSubSuggestion | playerConversation
| interactiveTutorial | scouting | sponsorships | teamTalk
| seasonEndSummary | playbookLibrary.

#[export] Instance ModalType_eq_dec : EqDecision ModalType.
Proof. solve_decision. Defined.

Inductive PositioningMode := free | snap.

#[export] Instance PositioningMode_eq_dec : EqDecision PositioningMode.
Proof. solve_decision. Defined.

Record AnimationTrail := mkTrail {
  trail_playerId : string;
  trail_points : list Position;
  trail_color : string;
}.

Record UIState := mkUI {
  activeTeamContext : TeamView;
  activeModal : option ModalType;
  slotActionMenuData : option SlotActionMenuData;
  selectedPlayerId : option string;
  drawingTool : DrawingTool;
  positioningMode : PositioningMode;
  activePlaybookItemId : option string;
  activeStepIndex : option Z;
  isAnimating : bool;
  isPaused : bool;
  animationTrails : option (list AnimationTrail);
  isPresentationMode : bool;
  activeSaveSlotId : option string;
  ui_rest : gmap string jval;
}.

(** A boolean field of the untyped part of the UI state, read as the code
    reads [uiState.flag] in a condition. *)
Definition uiFlag (u : UIState) (k : string) : bool :=
  match ui_rest u !! k with Some (JBool true) => true | _ => false end.

(** ** Tactics, franchise, auth and the root state *)

Record TacticsState := mkTactics {
  players : list Player;
  formations : gmap string Formation;
  playbook : gmap string PlaybookItem;
  activeFormationIds : PerTeam string;
  teamTactics : jval;
  tactics_drawings : list DrawingShape;
  tacticalFamiliarity : gmap string Z;
  chemistry : gmap string (gmap string Z);
  captainIds : PerTeam (option string);
  setPieceTakers : jval;
}.

Inductive PlayerRelationshipType := friendship | rivalry.

Record MentoringGroup := mkMentoring {
  mentorId : string;
  menteeIds : list string;
}.

Record FranchiseState := mkFranchise {
  mentoringGroups : PerTeam (list MentoringGroup);
  relationships : gmap string (gmap string PlayerRelationshipType);
  franchise_rest : gmap string jval;
}.

Inductive UserRole := coach | player.

Record User := mkUser {
  user_id : string;
  email : string;
  role : UserRole;
  user_playerId : option string;
}.

Record AuthState := mkAuth {
  isAuthenticated : bool;
  user : option User;
  auth_error : option string;
}.

Record RootState := mkRoot {
  auth : AuthState;
  tactics : TacticsState;
  franchise : FranchiseState;
  ui : UIState;
}.

(** ** The action channel

    The [Action] union of [src/types.ts], one constructor per [type] tag.
    The payloads the tactics core reads are typed; the payloads of the
    franchise, AI and filtering actions, which the core never reads, are
    kept as their JSON value. *)

Inductive SlotDecision := swap | replace | bench | captain | loan.

Inductive Action :=
| LOGIN_SUCCESS (payload : User)
| LOGIN_FAILURE (payload : string)
| LOGOUT
| SIGNUP_SUCCESS (payload : User)
| SIGNUP_FAILURE (payload : string)
| LOAD_STATE (payload : RootState)
| RESET_STATE
| SOFT_RESET_APP
(* Player Actions *)
| ADD_PLAYER (payload : jval)
| UPDATE_PLAYER (payload : jval)
| UPDATE_PLAYERS (payload : jval)
| SELECT_PLAYER (payload : option string)
| SET_CAPTAIN (payload : string)
| BENCH_PLAYER (playerId : string)
| BENCH_ALL_PLAYERS (t : Team)
| ASSIGN_PLAYER_TEAM (playerId : string) (t : Team)
| ADD_DEVELOPMENT_LOG (payload : jval)
| SET_INDIVIDUAL_TRAINING_FOCUS (payload : jval)
| ADD_CONTRACT_CLAUSE (payload : jval)
| UPDATE_CONTRACT_CLAUSE (payload : jval)
| REMOVE_CONTRACT_CLAUSE (payload : jval)
| TERMINATE_PLAYER_CONTRACT (payload : jval)
| ADD_COMMUNICATION_LOG (payload : jval)
| UPDATE_PLAYER_CHALLENGE_COMPLETION (payload : jval)
(* Formation & Tactics Actions *)
| SET_ACTIVE_FORMATION (formationId : string) (t : Team)
| CLEAR_FORMATION
| ASSIGN_PLAYER_TO_SLOT (slotId : string) (playerId : string) (t : Team)
| UPDATE_PLAYER_POSITION (playerId : string) (pos : Position)
| SET_TEAM_TACTIC (payload : jval)
| SAVE_CUSTOM_FORMATION (payload : jval)
| DELETE_CUSTOM_FORMATION (payload : jval)
| UPDATE_TACTICAL_FAMILIARITY (payload : jval)
| SET_SET_PIECE_TAKER (payload : jval)
| APPLY_TEAM_TALK_EFFECT (payload : jval)
| CLEAR_MORALE_BOOSTS (payload : jval)
(* UI Actions *)
| SET_ACTIVE_TEAM_CONTEXT (payload : TeamView)
| OPEN_MODAL (payload : option ModalType)
| CLOSE_MODAL
| SET_EDITING_PLAYER_ID (payload : jval)
| SET_COMPARE_PLAYER_ID (payload : jval)
| OPEN_SLOT_ACTION_MENU (payload : SlotActionMenuData)
| CLOSE_SLOT_ACTION_MENU
| RESOLVE_SLOT_ACTION (decision : SlotDecision)
| SWAP_PLAYERS (sourcePlayerId targetPlayerId : string)
| TOGGLE_GRID_VISIBILITY
| TOGGLE_FORMATION_STRENGTH_VISIBILITY
| TOGGLE_THEME
| SET_TEAM_KIT (payload : jval)
| ADD_NOTIFICATION (payload : jval)
| REMOVE_NOTIFICATION (payload : jval)
| START_TUTORIAL
| END_TUTORIAL
| SET_TUTORIAL_STEP (payload : jval)
| ENTER_SET_PIECE_EDITOR (payload : jval)
| EXIT_SET_PIECE_EDITOR
| SET_SET_PIECE_TOOL (payload : jval)
| SET_SET_PIECE_PLAYER (payload : jval)
(* Drawing & Playbook Actions *)
| SET_DRAWING_TOOL (payload : DrawingTool)
| SET_DRAWING_COLOR (payload : jval)
| SET_POSITIONING_MODE (payload : PositioningMode)
| ADD_DRAWING (payload : DrawingShape)
| UNDO_LAST_DRAWING
| CLEAR_DRAWINGS
| CREATE_PLAYBOOK_ITEM (name : string) (cat : PlayCategory)
| LOAD_PLAYBOOK_ITEM (payload : string)
| DELETE_PLAYBOOK_ITEM (payload : string)
| DUPLICATE_PLAYBOOK_ITEM (payload : string)
| ADD_LIBRARY_PLAY_TO_PLAYBOOK (payload : PlaybookItem)
| TOGGLE_PLAYBOOK_CATEGORY (payload : jval)
| SET_ACTIVE_STEP (payload : Z)
| ADD_PLAYBOOK_STEP
| DELETE_PLAYBOOK_STEP (payload : Z)
| SET_PLAYBOOK_EVENT (stepIndex : Z) (ev : option PlaybookEvent)
| ENTER_PRESENTATION_MODE
| EXIT_PRESENTATION_MODE
| START_ANIMATION
| PAUSE_ANIMATION
| RESET_ANIMATION
| SET_PLAYER_RUN (payload : jval)
| SET_BALL_PATH (payload : jval)
(* Roster Filtering *)
| SET_ROSTER_SEARCH_QUERY (payload : jval)
| TOGGLE_ROSTER_ROLE_FILTER (payload : jval)
| SET_ADVANCED_ROSTER_FILTERS (payload : jval)
| ADD_ATTRIBUTE_FILTER (payload : jval)
| REMOVE_ATTRIBUTE_FILTER (payload : jval)
| CLEAR_ROSTER_FILTERS
| SET_TRANSFER_MARKET_FILTER (payload : jval)
(* AI Actions *)
| SET_AI_PERSONALITY (payload : jval)
| GENERATE_AI_INSIGHT_START
| GENERATE_AI_INSIGHT_SUCCESS (payload : jval)
| GENERATE_AI_INSIGHT_FAILURE
| GENERATE_AI_COMPARISON_START
| GENERATE_AI_COMPARISON_SUCCESS (payload : jval)
| GENERATE_AI_COMPARISON_FAILURE
| SUGGEST_FORMATION_START
| SUGGEST_FORMATION_SUCCESS (payload : jval)
| SUGGEST_FORMATION_FAILURE
| SEND_CHAT_MESSAGE_START (payload : jval)
| SEND_CHAT_MESSAGE_SUCCESS (payload : jval)
| SEND_CHAT_MESSAGE_FAILURE
| GENERATE_OPPOSITION_REPORT_START
| GENERATE_OPPOSITION_REPORT_SUCCESS (payload : jval)
| GENERATE_OPPOSITION_REPORT_FAILURE
| GET_AI_SUB_SUGGESTION_START
| GET_AI_SUB_SUGGESTION_SUCCESS (payload : jval)
| GET_AI_SUB_SUGGESTION_FAILURE
| GET_PRESS_CONFERENCE_QUESTIONS_START
| GET_PRESS_CONFERENCE_QUESTIONS_SUCCESS (payload : jval)
| GET_PRESS_CONFERENCE_QUESTIONS_FAILURE
| RESOLVE_PRESS_CONFERENCE_OPTION (payload : jval)
| GET_PLAYER_SCOUT_REPORT_START (payload : jval)
| GET_PLAYER_SCOUT_REPORT_SUCCESS (payload : jval)
| GET_PLAYER_SCOUT_REPORT_FAILURE
| CLOSE_SCOUT_REPORT
| GET_AI_DEVELOPMENT_SUMMARY_START
| GET_AI_DEVELOPMENT_SUMMARY_SUCCESS (payload : jval)
| GET_AI_DEVELOPMENT_SUMMARY_FAILURE
| GET_TEAM_TALK_OPTIONS_START
| GET_TEAM_TALK_OPTIONS_SUCCESS (payload : jval)
| GET_TEAM_TALK_OPTIONS_FAILURE
(* Player Conversation *)
| START_PLAYER_CONVERSATION (payload : jval)
| SEND_PLAYER_MESSAGE_START (payload : jval)
| SEND_PLAYER_MESSAGE_SUCCESS (payload : jval)
| SEND_PLAYER_MESSAGE_FAILURE (payload : jval)
(* Negotiation Actions *)
| START_NEGOTIATION (payload : jval)
| SEND_NEGOTIATION_OFFER_START (payload : jval)
| SEND_NEGOTIATION_OFFER_SUCCESS (payload : jval)
| SEND_NEGOTIATION_OFFER_FAILURE
| ACCEPT_NEGOTIATION_DEAL (payload : jval)
| END_NEGOTIATION
(* Franchise Actions *)
| ADVANCE_WEEK
| ADVANCE_SEASON
| SET_SESSION_DRILL (payload : jval)
| SET_DAY_AS_REST (payload : jval)
| SET_DAY_AS_TRAINING (payload : jval)
| SAVE_TRAINING_TEMPLATE (payload : jval)
| LOAD_TRAINING_TEMPLATE (payload : jval)
| DELETE_TRAINING_TEMPLATE (payload : jval)
| ADD_SKILL_CHALLENGE (payload : jval)
| REMOVE_SKILL_CHALLENGE (payload : jval)
| SET_PLAYER_TRAINING_OVERRIDE (payload : jval)
| SET_PLAYER_SESSION_DRILL (payload : jval)
| SET_PLAYER_DAY_AS_REST (payload : jval)
| SET_PLAYER_DAY_AS_TRAINING (payload : jval)
| SIMULATE_MATCH_START
| SIMULATE_MATCH_UPDATE (payload : jval)
| SIMULATE_MATCH_SUCCESS (payload : jval)
| SIMULATE_MATCH_FAILURE
| GET_POST_MATCH_REPORT_START
| GET_POST_MATCH_REPORT_SUCCESS (payload : jval)
| GET_POST_MATCH_REPORT_FAILURE
| SIGN_TRANSFER_PLAYER (payload : jval)
| SELL_PLAYER (playerId : string) (price : Z)
| GENERATE_TRANSFER_MARKET_PLAYERS
| ADD_INBOX_ITEM (payload : jval)
| MARK_INBOX_ITEM_READ (payload : jval)
| REMOVE_INBOX_ITEM (payload : jval)
| ACCEPT_TRANSFER_OFFER (payload : jval)
| ACCEPT_LOAN_OFFER (payload : jval)
| INVEST_IN_YOUTH_ACADEMY (payload : jval)
| SIGN_YOUTH_PLAYER (payload : jval)
| HIRE_STAFF (payload : jval)
| LOAN_PLAYER (payload : jval)
| RECALL_PLAYER (payload : jval)
| SIGN_LOAN_PLAYER (payload : jval)
| UPGRADE_STADIUM_FACILITY (payload : jval)
| SET_SPONSORSHIP_DEAL (payload : jval)
| ADD_NEWS_ITEM (payload : jval)
| RECOVER_STAMINA
| CREATE_MENTORING_GROUP (payload : jval)
| DISSOLVE_MENTORING_GROUP (payload : jval)
| DISPATCH_SCOUT (payload : jval)
| STORE_SCOUT_REPORT (payload : jval)
| ADD_FEE_ITEM (payload : jval)
| UPDATE_FEE_ITEM (payload : jval)
| REMOVE_FEE_ITEM (payload : jval)
| MAKE_PROMISE (payload : jval)
| CLEAR_PROMISE_REQUEST
(* Save/Load *)
| SET_ACTIVE_SAVE_SLOT (payload : option string)
| DELETE_SAVE_SLOT (payload : jval)
| CREATE_SAVE_SLOT (payload : jval)
| LOAD_PLAYBOOK (payload : gmap string PlaybookItem)
(* Misc *)
| EXPORT_LINEUP_START
| EXPORT_LINEUP_FINISH.

(** ** Record updates along one path of the state tree *)

Definition with_tactics (f : TacticsState -> TacticsState) (s : RootState) :=
  mkRoot (auth s) (f (tactics s)) (franchise s) (ui s).
Definition with_ui (f : UIState -> UIState) (s : RootState) :=
  mkRoot (auth s) (tactics s) (franchise s) (f (ui s)).

Definition set_players (ps : list Player) (t : TacticsState) :=
  mkTactics ps (formations t) (playbook t) (activeFormationIds t)
    (teamTactics t) (tactics_drawings t) (tacticalFamiliarity t)
    (chemistry t) (captainIds t) (setPieceTakers t).
Definition set_formations (fs : gmap string Formation) (t : TacticsState) :=
  mkTactics (players t) fs (playbook t) (activeFormationIds t)
    (teamTactics t) (tactics_drawings t) (tacticalFamiliarity t)
    (chemistry t) (captainIds t) (setPieceTakers t).
Definition set_playbook (pb : gmap string PlaybookItem) (t : TacticsState) :=
  mkTactics (players t) (formations t) pb (activeFormationIds t)
    (teamTactics t) (tactics_drawings t) (tacticalFamiliarity t)
    (chemistry t) (captainIds t) (setPieceTakers t).
Definition set_captainIds (c : PerTeam (option string)) (t : TacticsState) :=
  mkTactics (players t) (formations t) (playbook t) (activeFormationIds t)
    (teamTactics t) (tactics_drawings t) (tacticalFamiliarity t)
    (chemistry t) c (setPieceTakers t).

Definition set_slotActionMenuData (m : option SlotActionMenuData)
    (md : option ModalType) (u : UIState) :=
  mkUI (activeTeamContext u) md m (selectedPlayerId u) (drawingTool u)
    (positioningMode u) (activePlaybookItemId u) (activeStepIndex u)
    (isAnimating u) (isPaused u) (animationTrails u) (isPresentationMode u)
    (activeSaveSlotId u) (ui_rest u).

(** The playback fields of the UI, updated together by the playbook
    actions. *)
Definition set_playback (item : option string) (idx : option Z)
    (anim paused : bool) (trails : option (list AnimationTrail)) (u : UIState) :=
  mkUI (activeTeamContext u) (activeModal u) (slotActionMenuData u)
    (selectedPlayerId u) (drawingTool u) (positioningMode u) item idx anim
    paused trails (isPresentationMode u) (activeSaveSlotId u) (ui_rest u).

(** Lookups by id, as [players.find(p => p.id === id)] and
    [formation.slots.find(s => s.id === id)]. *)
Definition findPlayer (ps : list Player) (id : string) : option Player :=
  List.find (fun p => String.eqb (player_id p) id) ps.

Definition activeFormation (t : TacticsState) (tm : Team) : option Formation :=
  formations t !! forTeam tm (activeFormationIds t).

(** ** Seed data of [src/constants.ts] *)

Definition APP_VERSION : string := "8.0.0".

Definition seedSlot (id : string) (r : PositionRole) (x y : Z)
    (p : option string) : FormationSlot :=
  mkSlot id r (mkPos x y) p.

Definition formation_442 : Formation :=
  mkFormation "4-4-2" "4-4-2" [
    seedSlot "s1" GK 8 50 (Some "p1");
    seedSlot "s2" DF 30 85 (Some "p4");
    seedSlot "s3" DF 25 60 (Some "player4_demo");
    seedSlot "s4" DF 25 40 (Some "p11");
    seedSlot "s5" DF 30 15 (Some "p3");
    seedSlot "s6" MF 55 80 (Some "p9");
    seedSlot "s7" MF 50 60 (Some "player3_demo");
    seedSlot "s8" MF 50 40 (Some "player2_demo");
    seedSlot "s9" MF 55 20 (Some "player1_demo");
    seedSlot "s10" FW 80 60 (Some "p10");
    seedSlot "s11" FW 80 40 (Some "p8")] false.

Definition formation_433 : Formation :=
  mkFormation "4-3-3" "4-3-3" [
    seedSlot "s1" GK 8 50 None; seedSlot "s2" DF 30 85 None;
    seedSlot "s3" DF 25 60 None; seedSlot "s4" DF 25 40 None;
    seedSlot "s5" DF 30 15 None; seedSlot "s6" MF 45 50 None;
    seedSlot "s7" MF 60 65 None; seedSlot "s8" MF 60 35 None;
    seedSlot "s9" FW 80 80 None; seedSlot "s10" FW 85 50 None;
    seedSlot "s11" FW 80 20 None] false.

Definition formation_352 : Formation :=
  mkFormation "3-5-2" "3-5-2" [
    seedSlot "s1" GK 8 50 None; seedSlot "s2" DF 25 70 None;
    seedSlot "s3" DF 22 50 None; seedSlot "s4" DF 25 30 None;
    seedSlot "s5" MF 45 90 None; seedSlot "s6" MF 50 65 None;
    seedSlot "s7" MF 50 35 None; seedSlot "s8" MF 45 10 None;
    seedSlot "s9" MF 65 50 None; seedSlot "s10" FW 80 60 None;
    seedSlot "s11" FW 80 40 None] false.

Definition seedFormations : gmap string Formation :=
  list_to_map [("4-4-2", formation_442); ("4-3-3", formation_433);
               ("3-5-2", formation_352)].

(** [defaultPlayers], in the order of the source array, with the fields of
    the model. *)
Definition defaultPlayers : list Player := [
  mkPlayer "p1" 1 "sk" home (mkPos 8 50) Available Excellent 100;
  mkPlayer "player4_demo" 2 "bpd" home (mkPos 0 0) Available Okay 100;
  mkPlayer "p3" 66 "wb" home (mkPos 30 15) Available Good 100;
  mkPlayer "p4" 26 "wb" home (mkPos 30 85) Available Good 100;
  mkPlayer "player1_demo" 7 "iw" home (mkPos 0 0) Available Excellent 100;
  mkPlayer "player2_demo" 8 "b2b" home (mkPos 0 0) Available Good 100;
  mkPlayer "player3_demo" 6 "dlp" home (mkPos 0 0) Available Good 100;
  mkPlayer "p8" 11 "p" home (mkPos 80 40) Available Good 100;
  mkPlayer "p9" 23 "w" home (mkPos 55 80) Available Okay 100;
  mkPlayer "p10" 27 "p" home (mkPos 80 60) Available Good 100;
  mkPlayer "p11" 5 "ncb" home (mkPos 25 40) Available Good 100;
  mkPlayer "p12" 17 "cm" away (mkPos (-100) (-100)) Available Good 100;
  mkPlayer "p13" 19 "ap" away (mkPos (-100) (-100)) Available Good 100;
  mkPlayer "p14" 21 "fb" away (mkPos (-100) (-100)) Suspended Poor 100;
  mkPlayer "p15" 20 "cf" away (mkPos (-100) (-100)) Available Excellent 100].

Definition INITIAL_tactics : TacticsState :=
  mkTactics defaultPlayers seedFormations ∅ (mkPerTeam "4-4-2" "4-3-3")
    (JObj [("home", JObj [("mentality", JStr "balanced"); ("pressing", JStr "medium");
                          ("defensiveLine", JStr "medium"); ("attackingWidth", JStr "medium")]);
           ("away", JObj [("mentality", JStr "balanced"); ("pressing", JStr "low");
                          ("defensiveLine", JStr "medium"); ("attackingWidth", JStr "medium")])])
    [] (list_to_map [("4-4-2", 50); ("4-3-3", 20); ("3-5-2", 10)])
    ∅ (mkPerTeam (Some "p2") None)
    (JObj [("home", JObj []); ("away", JObj [])]).

(** The untyped part of the initial UI: every other key of
    [INITIAL_STATE.ui], with its value. *)
Definition INITIAL_ui_rest : gmap string jval :=
  list_to_map [
    ("theme", JStr "dark"); ("notifications", JArr []);
    ("editingPlayerId", JNull); ("playerToCompareId", JNull);
    ("tutorial", JObj [("isActive", JBool false); ("step", JNum 0)]);
    ("playerConversationData", JNull); ("drawingColor", JStr "#FFFF00");
    ("isGridVisible", JBool false); ("isFormationStrengthVisible", JBool false);
    ("playerInitialPositions", JNull);
    ("setPieceEditor", JObj [("isEditing", JBool false);
       ("activeTool", JNull); ("selectedPlayerId", JNull)]);
    ("rosterSearchQuery", JStr ""); ("rosterRoleFilters", JArr []);
    ("advancedRosterFilters", JObj [
       ("age", JObj [("min", JNum 16); ("max", JNum 40)]);
       ("availability", JArr []); ("attributes", JArr [])]);
    ("transferMarketFilters", JObj [("name", JStr ""); ("position", JStr "All");
       ("age", JObj [("min", JNum 16); ("max", JNum 40)]);
       ("potential", JObj [("min", JNum 50); ("max", JNum 99)]);
       ("price", JObj [("min", JNum 0); ("max", JNum 100000000)])]);
    ("playbookCategories", JObj [("General", JBool true)]);
    ("settings", JObj [("aiPersonality", JStr "balanced")]);
    ("isLoadingAI", JBool false); ("aiInsight", JNull);
    ("isComparingAI", JBool false); ("aiComparisonResult", JNull);
    ("isSuggestingFormation", JBool false); ("aiSuggestedFormation", JNull);
    ("chatHistory", JArr []); ("isChatProcessing", JBool false);
    ("highlightedByAIPlayerIds", JArr []);
    ("isLoadingOppositionReport", JBool false); ("oppositionReport", JNull);
    ("isSimulatingMatch", JBool false); ("simulationTimeline", JArr []);
    ("isLoadingPostMatchReport", JBool false); ("postMatchReport", JNull);
    ("isLoadingPressConference", JBool false); ("pressConferenceData", JNull);
    ("isLoadingNegotiation", JBool false);
    ("isLoadingAISubSuggestion", JBool false); ("aiSubSuggestionData", JNull);
    ("isScoutingPlayer", JBool false); ("scoutedPlayerId", JNull);
    ("scoutReport", JNull); ("isLoadingConversation", JBool false);
    ("saveSlots", JObj []); ("isExportingLineup", JBool false);
    ("teamKits", JObj [
       ("home", JObj [("primaryColor", JStr "#3b82f6");
          ("secondaryColor", JStr "#ffffff"); ("pattern", JStr "solid")]);
       ("away", JObj [("primaryColor", JStr "#ef4444");
          ("secondaryColor", JStr "#ffffff"); ("pattern", JStr "solid")])]);
    ("isLoadingDevelopmentSummary", JBool false);
    ("developmentSummary", JNull); ("isLoadingTeamTalk", JBool false);
    ("teamTalkData", JNull); ("pendingPromiseRequest", JNull)].

Definition INITIAL_ui : UIState :=
  mkUI view_both None None None select snap None None false false None false
    None INITIAL_ui_rest.

Definition INITIAL_auth : AuthState := mkAuth false None None.

Definition INITIAL_franchise_rest : gmap string jval :=
  list_to_map [("gameWeek", JNum 1); ("lastMatchResult", JNull);
               ("negotiationData", JNull); ("jobSecurity", JNum 75);
               ("fanConfidence", JNum 70)].

Definition INITIAL_STATE : RootState :=
  mkRoot INITIAL_auth INITIAL_tactics
    (mkFranchise (mkPerTeam [] []) ∅ INITIAL_franchise_rest) INITIAL_ui.

(** [DEFAULT_PLAYBOOK_LIBRARY] *)
Definition arrowShape (id color : string) (x1 y1 x2 y2 : Z) : DrawingShape :=
  mkShape id arrow color [mkPos x1 y1; mkPos x2 y2] None.

Definition DEFAULT_PLAYBOOK_LIBRARY : list PlaybookItem := [
  mkItem "lib_att_overload_433" "Attacking Overload (4-3-3)" General "4-3-3" [
    mkStep "s1" (list_to_map [("p3", mkPos 40 15); ("p8", mkPos 65 20)])
      [arrowShape "d1" "#34D399" 30 15 55 15; arrowShape "d2" "#FBBF24" 80 20 70 35;
       arrowShape "d3" "#60A5FA" 55 15 75 18] None [] None;
    mkStep "s2" (list_to_map [("p3", mkPos 55 15); ("p8", mkPos 70 35)])
      [arrowShape "d1" "#FBBF24" 70 35 85 30; arrowShape "d2" "#60A5FA" 55 15 75 18]
      None [] None];
  mkItem "lib_high_press_442" "High Press Trap (4-4-2)" General "4-4-2" [
    mkStep "s1" ∅
      [arrowShape "d1" "#FBBF24" 80 40 70 30; arrowShape "d2" "#FBBF24" 80 60 70 70;
       arrowShape "d3" "#60A5FA" 55 20 65 25;
       mkShape "d4" zone "#EF4444" [mkPos 60 40; mkPos 80 60] None] None [] None];
  mkItem "lib_corner_defense" "Zonal Corner Defense" DefendingCorner "4-4-2" [
    mkStep "s1" (list_to_map [("p1", mkPos 8 40); ("p2", mkPos 12 45);
                              ("p11", mkPos 12 55); ("p4", mkPos 18 60)]) [] None [] None]].
