(* ===== verification/Formation.v ===== *)
(** * Formation: slot bindings and slot exclusivity

    The formation/slot operations of the reducer ([ASSIGN_PLAYER_TO_SLOT],
    [SWAP_PLAYERS], [BENCH_PLAYER], [UPDATE_PLAYER_POSITION]).  The reducer
    is not part of [src/], so these are modelled from section 4.1 of the
    specification: an assignment binds the first slot with the given id and
    unbinds the player from every other slot of the same formation; it is a
    no-op when the slot holds a different player or when the player, the
    formation or the slot does not exist.

    The invariant is slot exclusivity: the player ids bound in a formation
    are pairwise distinct ([slots_exclusive]); every operation preserves it
    for every formation of the state ([tactics_exclusive]). *)

From S2P Require Import Prelude Geometry Domain.

(** ** Operations on one formation *)

Definition set_slot_player (p : option string) (s : FormationSlot) :=
  mkSlot (slot_id s) (slot_role s) (defaultPosition s) p.

Definition set_slots (ss : list FormationSlot) (f : Formation) :=
  mkFormation (formation_id f) (formation_name f) ss (isCustom f).

(** Apply [h] to the binding of every slot. *)
Definition mapSlotPlayers (h : option string -> option string) (f : Formation) :=
  set_slots (map (fun s => set_slot_player (h (slot_playerId s)) s) (slots f)) f.

(** The player ids bound in a formation, in slot order. *)
Definition boundIds (f : Formation) : list string :=
  omap slot_playerId (slots f).

Definition unbindId (pid : string) (o : option string) : option string :=
  if decide (o = Some pid) then None else o.

Definition unbindPlayer (pid : string) : Formation -> Formation :=
  mapSlotPlayers (unbindId pid).

Definition swapId (a b : string) (o : option string) : option string :=
  if decide (o = Some a) then Some b
  else if decide (o = Some b) then Some a else o.

Definition swapInFormation (a b : string) : Formation -> Formation :=
  mapSlotPlayers (swapId a b).

(** [formation.slots.find(s => s.id === slotId)] *)
Definition findSlot (f : Formation) (slotId : string) : option FormationSlot :=
  List.find (fun s => String.eqb (slot_id s) slotId) (slots f).

(** Bind the first slot with id [slotId] to [pid]. *)
Fixpoint bindFirst (slotId pid : string) (ss : list FormationSlot) :=
  match ss with
  | [] => []
  | s :: ss' =>
      if String.eqb (slot_id s) slotId then set_slot_player (Some pid) s :: ss'
      else s :: bindFirst slotId pid ss'
  end.

(** ** Operations on the tactics state *)

Definition updateFormation (fid : string) (f : Formation) (t : TacticsState) :=
  set_formations (<[fid := f]> (formations t)) t.

(** [ASSIGN_PLAYER_TO_SLOT {slotId, playerId, team}] *)
Definition assignPlayerToSlot (slotId pid : string) (tm : Team) (t : TacticsState)
    : TacticsState :=
  let fid := forTeam tm (activeFormationIds t) in
  match formations t !! fid, findPlayer (players t) pid with
  | Some f, Some _ =>
      match findSlot f slotId with
      | Some s =>
          match slot_playerId s with
          | Some _ => t (* occupied: the drop handler opens the menu instead *)
          | None =>
              updateFormation fid
                (set_slots (bindFirst slotId pid (slots (unbindPlayer pid f)))
                   f) t
          end
      | None => t
      end
  | _, _ => t
  end.

(** [BENCH_PLAYER {playerId}]: the player leaves every slot of every
    formation and stays on the roster. *)
Definition benchPlayer (pid : string) (t : TacticsState) : TacticsState :=
  set_formations (unbindPlayer pid <$> formations t) t.

(** [SWAP_PLAYERS {sourcePlayerId, targetPlayerId}]: the two players
    exchange their slot bindings in every formation. *)
Definition swapPlayers (a b : string) (t : TacticsState) : TacticsState :=
  set_formations (swapInFormation a b <$> formations t) t.

(** [UPDATE_PLAYER_POSITION {playerId, position}]: free positioning moves
    the player and leaves the slots alone. *)
Definition updatePlayerPosition (pid : string) (pos : Position)
    (t : TacticsState) : TacticsState :=
  set_players
    (map (fun p => if String.eqb (player_id p) pid
                   then mkPlayer (player_id p) (jerseyNumber p) (roleId p)
                          (team p) pos (availability p) (morale p) (stamina p)
                   else p) (players t)) t.

(** ** The invariant *)

Definition slots_exclusive (f : Formation) : Prop := NoDup (boundIds f).

Definition tactics_exclusive (t : TacticsState) : Prop :=
  map_Forall (fun _ f => slots_exclusive f) (formations t).

(** The boolean check of the invariant, for concrete states. *)
Definition slots_exclusiveb (f : Formation) : bool :=
  bool_decide (NoDup (boundIds f)).

(** The formation an assignment writes back: the player is unbound from the
    formation, then the first slot with the given id is bound to it. *)
Definition assignedFormation (sid pid : string) (f : Formation) : Formation :=
  set_slots (bindFirst sid pid (slots (unbindPlayer pid f))) f.

#[export] Instance slots_exclusive_dec f : Decision (slots_exclusive f).
Proof. unfold slots_exclusive. apply _. Defined.

(** ** Lemmas on bindings *)

(** A renaming of bindings that never merges two bindings and never binds an
    empty slot keeps the bound ids pairwise distinct. *)
Definition binding_injective (h : option string -> option string) : Prop :=
  h None = None /\ forall o1 o2 x, h o1 = Some x -> h o2 = Some x -> o1 = o2.

Lemma NoDup_omap_compose {A} (f : A -> option string)
    (h : option string -> option string) (l : list A) :
  binding_injective h -> NoDup (omap f l) -> NoDup (omap (fun a => h (f a)) l).
Proof.
  intros [Hnone Hinj]. induction l as [|a l IH]; simpl; intros Hnd; [constructor|].
  destruct (f a) as [y|] eqn:Ha; simpl in Hnd.
  - apply NoDup_cons in Hnd as [Hy Hnd].
    destruct (h (Some y)) as [x|] eqn:Hx; [|by apply IH].
    constructor; [|by apply IH].
    intros Hin. apply list_elem_of_omap in Hin as (b & Hb & Hhb).
    pose proof (Hinj _ _ _ Hhb Hx) as Hfb.
    apply Hy, list_elem_of_omap. eauto.
  - rewrite Hnone. by apply IH.
Qed.

Lemma boundIds_mapSlotPlayers h f :
  boundIds (mapSlotPlayers h f) = omap (fun s => h (slot_playerId s)) (slots f).
Proof.
  unfold boundIds, mapSlotPlayers, set_slots; simpl.
  by rewrite omap_map_compose.
Qed.

Lemma mapSlotPlayers_exclusive h f :
  binding_injective h -> slots_exclusive f -> slots_exclusive (mapSlotPlayers h f).
Proof.
  unfold slots_exclusive. rewrite boundIds_mapSlotPlayers.
  apply NoDup_omap_compose.
Qed.

Lemma unbindId_injective pid : binding_injective (unbindId pid).
Proof.
  split; [done|]. unfold unbindId.
  intros o1 o2 x. repeat case_decide; congruence.
Qed.

Lemma swapId_injective a b : binding_injective (swapId a b).
Proof.
  split; [done|]. unfold swapId.
  intros o1 o2 x. repeat case_decide; congruence.
Qed.

#[export] Hint Resolve unbindId_injective swapId_injective
  mapSlotPlayers_exclusive : turf.

Lemma unbindPlayer_not_bound pid f : pid ∉ boundIds (unbindPlayer pid f).
Proof.
  unfold unbindPlayer. rewrite boundIds_mapSlotPlayers.
  intros Hin. apply list_elem_of_omap in Hin as (s & _ & Hs).
  revert Hs. unfold unbindId. case_decide; congruence.
Qed.

Lemma findSlot_mapSlotPlayers h f sid s :
  findSlot f sid = Some s ->
  findSlot (mapSlotPlayers h f) sid = Some (set_slot_player (h (slot_playerId s)) s).
Proof.
  unfold findSlot, mapSlotPlayers, set_slots; simpl.
  induction (slots f) as [|s' ss IH]; simpl; [discriminate|].
  destruct (String.eqb (slot_id s') sid); [congruence|done].
Qed.

(** Binding the first slot with a given id to [pid], when that slot is
    free, adds exactly [pid] to the bound ids. *)
Lemma bindFirst_boundIds sid pid (ss : list FormationSlot) s :
  List.find (fun s => String.eqb (slot_id s) sid) ss = Some s ->
  slot_playerId s = None ->
  omap slot_playerId (bindFirst sid pid ss) ≡ₚ pid :: omap slot_playerId ss.
Proof.
  induction ss as [|s' ss IH]; simpl; [discriminate|].
  destruct (String.eqb (slot_id s') sid).
  - intros [= ->] Hnone. simpl. by rewrite Hnone.
  - intros Hf Hnone. simpl. destruct (slot_playerId s'); simpl.
    + rewrite (IH Hf Hnone). apply perm_swap.
    + by apply IH.
Qed.

Lemma findSlot_bindFirst sid pid (ss : list FormationSlot) s :
  List.find (fun s => String.eqb (slot_id s) sid) ss = Some s ->
  List.find (fun s => String.eqb (slot_id s) sid) (bindFirst sid pid ss)
    = Some (set_slot_player (Some pid) s).
Proof.
  induction ss as [|s' ss IH]; simpl; [discriminate|].
  destruct (String.eqb (slot_id s') sid) eqn:E.
  - intros [= ->]. simpl. by rewrite E.
  - intros Hf. simpl. rewrite E. by apply IH.
Qed.

Lemma assignedFormation_spec f sid pid s :
  findSlot f sid = Some s -> slot_playerId s = None ->
  boundIds (assignedFormation sid pid f) ≡ₚ pid :: boundIds (unbindPlayer pid f) /\
  findSlot (assignedFormation sid pid f) sid = Some (set_slot_player (Some pid) s).
Proof.
  intros Hf Hnone.
  pose proof (findSlot_mapSlotPlayers (unbindId pid) f sid s Hf) as Hu.
  assert (unbindId pid (slot_playerId s) = None) as Hn by (by rewrite Hnone).
  rewrite Hn in Hu. split.
  - by eapply bindFirst_boundIds; [exact Hu|].
  - change (findSlot (assignedFormation sid pid f) sid) with
      (List.find (fun s => String.eqb (slot_id s) sid)
         (bindFirst sid pid (slots (unbindPlayer pid f)))).
    exact (findSlot_bindFirst sid pid _ _ Hu).
Qed.

Lemma assignedFormation_exclusive f sid pid s :
  findSlot f sid = Some s -> slot_playerId s = None ->
  slots_exclusive f -> slots_exclusive (assignedFormation sid pid f).
Proof.
  intros Hf Hnone Hex. unfold slots_exclusive.
  destruct (assignedFormation_spec f sid pid s Hf Hnone) as [Hperm _].
  rewrite Hperm. constructor; [apply unbindPlayer_not_bound|].
  by apply mapSlotPlayers_exclusive; [apply unbindId_injective|].
Qed.

(** The three ways an assignment can end, as the code's guards decide. *)
Lemma assignPlayerToSlot_cases sid pid tm t :
  let fid := forTeam tm (activeFormationIds t) in
  assignPlayerToSlot sid pid tm t = t \/
  exists f s, formations t !! fid = Some f /\ findSlot f sid = Some s /\
    slot_playerId s = None /\ is_Some (findPlayer (players t) pid) /\
    assignPlayerToSlot sid pid tm t = updateFormation fid (assignedFormation sid pid f) t.
Proof.
  simpl. unfold assignPlayerToSlot.
  destruct (formations t !! _) as [f|] eqn:Hf; [|by left].
  destruct (findPlayer _ pid) as [p|] eqn:Hp; [|by left].
  destruct (findSlot f sid) as [s|] eqn:Hs; [|by left].
  destruct (slot_playerId s) eqn:Hn; [by left|].
  right. exists f, s. eauto.
Qed.

(** ** Slot exclusivity is an invariant *)

(** C1: Assigning a player to a slot keeps every formation free of duplicate
    bindings. *)
Theorem assignPlayerToSlot_exclusive sid pid tm t :
  tactics_exclusive t -> tactics_exclusive (assignPlayerToSlot sid pid tm t).
Proof.
  intros Hinv.
  destruct (assignPlayerToSlot_cases sid pid tm t)
    as [->|(f & s & Hf & Hs & Hn & _ & ->)]; [done|].
  unfold tactics_exclusive; simpl. apply map_Forall_insert_2; [|done].
  eapply assignedFormation_exclusive; [exact Hs|exact Hn|].
  exact (Hinv _ f Hf).
Qed.

Lemma map_fmap_exclusive (g : Formation -> Formation) t :
  (forall f, slots_exclusive f -> slots_exclusive (g f)) ->
  tactics_exclusive t -> tactics_exclusive (set_formations (g <$> formations t) t).
Proof.
  intros Hg Hinv k f'. simpl. rewrite lookup_fmap.
  destruct (formations t !! k) as [f|] eqn:Hk; simpl; [|discriminate].
  intros [= <-]. apply Hg. by apply (Hinv k).
Qed.

Theorem benchPlayer_exclusive pid t :
  tactics_exclusive t -> tactics_exclusive (benchPlayer pid t).
Proof. apply map_fmap_exclusive. eauto with turf. Qed.

Theorem swapPlayers_exclusive a b t :
  tactics_exclusive t -> tactics_exclusive (swapPlayers a b t).
Proof. apply map_fmap_exclusive. eauto with turf. Qed.

Lemma updatePlayerPosition_formations pid pos t :
  formations (updatePlayerPosition pid pos t) = formations t.
Proof. reflexivity. Qed.

(** ** Behaviour of an assignment *)

(** When the formation, the player and a free slot exist, the slot is bound
    to the player and the player leaves every other slot of that formation. *)
Theorem assignPlayerToSlot_binds sid pid tm t f s :
  let fid := forTeam tm (activeFormationIds t) in
  formations t !! fid = Some f -> findSlot f sid = Some s ->
  slot_playerId s = None -> is_Some (findPlayer (players t) pid) ->
  exists f', formations (assignPlayerToSlot sid pid tm t) !! fid = Some f' /\
    findSlot f' sid = Some (set_slot_player (Some pid) s) /\
    boundIds f' ≡ₚ pid :: boundIds (unbindPlayer pid f).
Proof.
  simpl. intros Hf Hs Hn [p Hp].
  unfold assignPlayerToSlot. rewrite Hf, Hp, Hs, Hn.
  exists (assignedFormation sid pid f). simpl. rewrite lookup_insert_eq.
  destruct (assignedFormation_spec f sid pid s Hs Hn). done.
Qed.

(** An occupied slot is not overwritten: the assignment is a no-op. *)
Theorem assignPlayerToSlot_occupied sid pid tm t f s q :
  formations t !! forTeam tm (activeFormationIds t) = Some f ->
  findSlot f sid = Some s -> slot_playerId s = Some q ->
  assignPlayerToSlot sid pid tm t = t.
Proof.
  intros Hf Hs Hq. unfold assignPlayerToSlot. rewrite Hf, Hs, Hq.
  by destruct (findPlayer _ _).
Qed.

(** A stale reference (a player no longer on the roster) makes the
    assignment a no-op. *)
Theorem assignPlayerToSlot_stale sid pid tm t :
  findPlayer (players t) pid = None -> assignPlayerToSlot sid pid tm t = t.
Proof.
  intros Hp. unfold assignPlayerToSlot. rewrite Hp.
  by destruct (formations t !! _).
Qed.

(** After [BENCH_PLAYER], the player is bound in no formation, and the
    roster is unchanged. *)
Theorem benchPlayer_unbound pid t fid f :
  formations (benchPlayer pid t) !! fid = Some f -> (pid ∉ boundIds f) /\
  players (benchPlayer pid t) = players t.
Proof.
  simpl. rewrite lookup_fmap.
  destruct (formations t !! fid) as [f0|]; simpl; [|discriminate].
  intros [= <-]. split; [apply unbindPlayer_not_bound|done].
Qed.

(** ** The seed state *)

Lemma INITIAL_tactics_exclusive : tactics_exclusive INITIAL_tactics.
Proof. unfold tactics_exclusive. apply (bool_decide_unpack _). vm_compute. reflexivity. Qed.

(** The seed state breaks the data-model contract in three places: the home
    captain ["p2"] is not on the roster; the demo players bound to 4-4-2
    slots sit at [(0,0)] although the initial mode is [snap], where
    positions follow the slots; and the away players sit at [(-100,-100)],
    off the pitch. *)
Theorem INITIAL_seed_defects :
  forTeam home (captainIds INITIAL_tactics) = Some "p2" /\
  findPlayer (players INITIAL_tactics) "p2" = None /\
  (exists p s, findPlayer (players INITIAL_tactics) "player4_demo" = Some p /\
     findSlot formation_442 "s3" = Some s /\
     slot_playerId s = Some (player_id p) /\
     position p <> defaultPosition s) /\
  Forall (fun p => team p = away -> in_pitch (position p) = false)
    (players INITIAL_tactics).
Proof.
  split; [reflexivity|]. split; [reflexivity|]. split.
  - do 2 eexists. split; [reflexivity|]. split; [reflexivity|].
    split; [reflexivity|]. discriminate.
  - repeat constructor; discriminate.
Qed.

(** ** Witnesses *)

(** [check_exclusive]: decide slot exclusivity of a concrete state. *)
Ltac check_exclusive :=
  unfold tactics_exclusive; apply (bool_decide_unpack _); vm_compute; reflexivity.

Lemma assignPlayerToSlot_exclusive_witness :
  tactics_exclusive INITIAL_tactics /\
  tactics_exclusive (assignPlayerToSlot "s1" "p12" away INITIAL_tactics).
Proof.
  split; [check_exclusive|].
  apply assignPlayerToSlot_exclusive. check_exclusive.
Defined.

Lemma assignPlayerToSlot_binds_witness :
  formations INITIAL_tactics !! forTeam away (activeFormationIds INITIAL_tactics)
    = Some formation_433 /\
  findSlot formation_433 "s1" = Some (seedSlot "s1" GK 8 50 None) /\
  exists f', formations (assignPlayerToSlot "s1" "p12" away INITIAL_tactics)
               !! forTeam away (activeFormationIds INITIAL_tactics) = Some f' /\
    findSlot f' "s1" = Some (set_slot_player (Some "p12") (seedSlot "s1" GK 8 50 None)) /\
    boundIds f' ≡ₚ "p12" :: boundIds (unbindPlayer "p12" formation_433).
Proof.
  split; [reflexivity|]. split; [reflexivity|].
  apply (assignPlayerToSlot_binds "s1" "p12" away INITIAL_tactics formation_433
           (seedSlot "s1" GK 8 50 None)); [reflexivity|reflexivity|reflexivity|].
  eexists. reflexivity.
Defined.

Lemma assignPlayerToSlot_occupied_witness :
  findSlot formation_442 "s1" = Some (seedSlot "s1" GK 8 50 (Some "p1")) /\
  assignPlayerToSlot "s1" "p12" home INITIAL_tactics = INITIAL_tactics.
Proof.
  split; [reflexivity|].
  apply (assignPlayerToSlot_occupied "s1" "p12" home INITIAL_tactics formation_442
           (seedSlot "s1" GK 8 50 (Some "p1")) "p1"); reflexivity.
Defined.

Lemma assignPlayerToSlot_stale_witness :
  findPlayer (players INITIAL_tactics) "p99" = None /\
  assignPlayerToSlot "s1" "p99" away INITIAL_tactics = INITIAL_tactics.
Proof.
  split; [reflexivity|]. apply assignPlayerToSlot_stale. reflexivity.
Defined.

Lemma benchPlayer_unbound_witness :
  formations (benchPlayer "p1" INITIAL_tactics) !! "4-4-2" =
    Some (unbindPlayer "p1" formation_442) /\
  ("p1" ∉ boundIds (unbindPlayer "p1" formation_442)) /\
  players (benchPlayer "p1" INITIAL_tactics) = players INITIAL_tactics.
Proof.
  assert (H : formations (benchPlayer "p1" INITIAL_tactics) !! "4-4-2" =
                Some (unbindPlayer "p1" formation_442)) by reflexivity.
  split; [exact H|]. exact (benchPlayer_unbound "p1" INITIAL_tactics "4-4-2" _ H).
Defined.
