(* ===== verification/SlotAction.v ===== *)
(** * SlotAction: drop handlers and the slot-action resolver

    The drag-and-drop and click handlers of
    [src/components/SoccerField.tsx] ([handleSlotDrop], [handleFieldDrop],
    [handleActionBubbleClick]) are modelled as functions from the event to
    what the handler does: dispatch one action, return early, or throw.
    The resolver they feed ([OPEN_SLOT_ACTION_MENU],
    [CLOSE_SLOT_ACTION_MENU], [RESOLVE_SLOT_ACTION] of the reducer, which is
    not part of [src/]) is modelled from section 4.2 of the specification as
    a state machine [idle -> menuOpen -> idle], and the reducer's menu state
    is shown to refine it. *)

From S2P Require Import Prelude Geometry Domain Formation.

(** ** What an event handler does *)
Inductive HandlerOutcome :=
| Dispatch (a : Action)
| NoDispatch
| Throws (error : string).

(** A drop event: the dragged player id read from [dataTransfer] and the
    pointer's client coordinates. *)
Record DropEvent := mkDrop {
  transferData : string;
  clientX : Z;
  clientY : Z;
  onInteractiveZone : bool;
}.

(** The field element's bounding box. *)
Record Rect := mkRect { rect_left : Z; rect_top : Z; rect_width : Z; rect_height : Z }.

(** [handleSlotDrop(e, slot, team)] *)
Definition handleSlotDrop (mode : PositioningMode) (e : DropEvent)
    (slot : FormationSlot) (tm : Team) : HandlerOutcome :=
  let playerId := transferData e in
  if String.eqb playerId "" then NoDispatch
  else if decide (slot_playerId slot = Some playerId) then NoDispatch
  else if truthy (slot_playerId slot) then
    Dispatch (OPEN_SLOT_ACTION_MENU
      (mkMenu playerId (slot_id slot) (slot_playerId slot) drag
         (mkPos (clientX e) (clientY e))))
  else match mode with
    | free => Dispatch (UPDATE_PLAYER_POSITION playerId (defaultPosition slot))
    | snap => Dispatch (ASSIGN_PLAYER_TO_SLOT (slot_id slot) playerId tm)
    end.

(** [handleFieldDrop(e)]: a drop on the open pitch.  [field] is
    [fieldRef.current].  The percentages [(client - left) / width * 100]
    are computed on [Z] with the fraction dropped. *)
Definition handleFieldDrop (field : option Rect) (tool : DrawingTool)
    (mode : PositioningMode) (e : DropEvent) : HandlerOutcome :=
  let playerId := transferData e in
  match field with
  | None => NoDispatch
  | Some r =>
      if negb (bool_decide (tool = select)) || String.eqb playerId "" then NoDispatch
      else match mode with
        | snap => NoDispatch
        | free =>
            if onInteractiveZone e then NoDispatch
            else Dispatch (UPDATE_PLAYER_POSITION playerId
                   (mkPos ((clientX e - rect_left r) * 100 / rect_width r)
                          ((clientY e - rect_top r) * 100 / rect_height r)))
        end
  end.

(** [handleActionBubbleClick(e, player, slot)]: [slot] is [undefined] for
    a player of the team who holds no slot, and [slot.id] then throws. *)
Definition handleActionBubbleClick (p : Player) (slot : option FormationSlot)
    (anchor : Position) : HandlerOutcome :=
  match slot with
  | None => Throws "TypeError: Cannot read properties of undefined (reading 'id')"
  | Some s =>
      Dispatch (OPEN_SLOT_ACTION_MENU
        (mkMenu (player_id p) (slot_id s) (Some (player_id p)) click anchor))
  end.

(** [formation.slots.find(s => s.playerId === player.id)]: the slot
    [renderTeam] passes along with each player of the team. *)
Definition slotOfPlayer (f : Formation) (pid : string) : option FormationSlot :=
  List.find (fun s => bool_decide (slot_playerId s = Some pid)) (slots f).

(** ** The resolver (reducer side) *)

Definition openSlotActionMenu (d : SlotActionMenuData) (s : RootState) :=
  with_ui (set_slotActionMenuData (Some d) (Some slotActionMenu)) s.

Definition closeSlotActionMenu (s : RootState) :=
  with_ui (set_slotActionMenuData None None) s.

(** The decision applied to the tactics state, once both players are known
    to be on the roster. *)
Definition applyDecision (dec : SlotDecision) (d : SlotActionMenuData)
    (src : Player) (target : option string) (t : TacticsState) : TacticsState :=
  match dec with
  | swap =>
      match target with
      | Some tg => swapPlayers (sourcePlayerId d) tg t
      | None => t
      end
  | replace =>
      match target with
      | Some tg =>
          let tm := match findPlayer (players t) tg with
                    | Some tp => team tp | None => team src end in
          assignPlayerToSlot (targetSlotId d) (sourcePlayerId d) tm
            (benchPlayer tg t)
      | None => t
      end
  | bench => benchPlayer (sourcePlayerId d) t
  | captain =>
      set_captainIds (setForTeam (team src) (Some (sourcePlayerId d))
                        (captainIds t)) t
  | loan => t
  end.

(** [RESOLVE_SLOT_ACTION {decision}]: with no open menu nothing happens;
    with a stale player reference the menu closes and nothing else changes;
    otherwise the decision is applied and the menu closes. *)
Definition resolveSlotAction (dec : SlotDecision) (s : RootState) : RootState :=
  match slotActionMenuData (ui s) with
  | None => s
  | Some d =>
      let t := tactics s in
      match findPlayer (players t) (sourcePlayerId d) with
      | None => closeSlotActionMenu s
      | Some src =>
          match targetPlayerId d with
          | Some tg =>
              match findPlayer (players t) tg with
              | None => closeSlotActionMenu s
              | Some _ =>
                  closeSlotActionMenu
                    (with_tactics (applyDecision dec d src (Some tg)) s)
              end
          | None =>
              closeSlotActionMenu
                (with_tactics (applyDecision dec d src None) s)
          end
      end
  end.

(** ** The abstract state machine of section 4.2 *)

Inductive ResolverState := idle | menuOpen (d : SlotActionMenuData).

Inductive ResolverEvent :=
| ev_open (d : SlotActionMenuData)
| ev_close
| ev_resolve (dec : SlotDecision)
| ev_other.

Inductive resolver_step : ResolverState -> ResolverEvent -> ResolverState -> Prop :=
| rs_open st d : resolver_step st (ev_open d) (menuOpen d)
| rs_close st : resolver_step st ev_close idle
| rs_resolve d dec : resolver_step (menuOpen d) (ev_resolve dec) idle
| rs_resolve_idle dec : resolver_step idle (ev_resolve dec) idle
| rs_other st : resolver_step st ev_other st.

Definition resolverState (s : RootState) : ResolverState :=
  match slotActionMenuData (ui s) with None => idle | Some d => menuOpen d end.

(** The menu actions of the reducer, and the event each one is for the
    abstract machine. *)
Definition reduceMenu (a : Action) (s : RootState) : RootState :=
  match a with
  | OPEN_SLOT_ACTION_MENU d => openSlotActionMenu d s
  | CLOSE_SLOT_ACTION_MENU => closeSlotActionMenu s
  | RESOLVE_SLOT_ACTION dec => resolveSlotAction dec s
  | _ => s
  end.

Definition menuEvent (a : Action) : ResolverEvent :=
  match a with
  | OPEN_SLOT_ACTION_MENU d => ev_open d
  | CLOSE_SLOT_ACTION_MENU => ev_close
  | RESOLVE_SLOT_ACTION dec => ev_resolve dec
  | _ => ev_other
  end.

(** The holder of a slot of a formation of the state. *)
Definition slotHolder (s : RootState) (fid sid : string) : option string :=
  formations (tactics s) !! fid ≫= fun f => findSlot f sid ≫= slot_playerId.

(** A state with an open menu whose dragged player is not on the roster. *)
Definition staleMenuState : RootState :=
  openSlotActionMenu (mkMenu "p99" "s2" (Some "p4") drag (mkPos 0 0)) INITIAL_STATE.

(** The state of the scenario after the drop: the menu is open on s2. *)
Definition swapMenuState : RootState :=
  openSlotActionMenu (mkMenu "p1" "s2" (Some "p4") drag (mkPos 420 310)) INITIAL_STATE.

(** ** Lemmas *)

Lemma resolverState_close s : resolverState (closeSlotActionMenu s) = idle.
Proof. reflexivity. Qed.

Lemma resolverState_with_tactics f s :
  resolverState (with_tactics f s) = resolverState s.
Proof. reflexivity. Qed.

#[export] Hint Rewrite resolverState_close resolverState_with_tactics : turf_rw.

Lemma tactics_closeSlotActionMenu s : tactics (closeSlotActionMenu s) = tactics s.
Proof. reflexivity. Qed.

(** Every branch of [resolveSlotAction]: the menu is closed and the tactics
    are either untouched or changed by [applyDecision]. *)
Lemma resolveSlotAction_cases dec s :
  resolveSlotAction dec s = s \/
  resolveSlotAction dec s = closeSlotActionMenu s \/
  exists d src tg, slotActionMenuData (ui s) = Some d /\
    findPlayer (players (tactics s)) (sourcePlayerId d) = Some src /\
    resolveSlotAction dec s =
      closeSlotActionMenu (with_tactics (applyDecision dec d src tg) s).
Proof.
  unfold resolveSlotAction.
  destruct (slotActionMenuData (ui s)) as [d|]; [|by left].
  destruct (findPlayer _ (sourcePlayerId d)) as [src|] eqn:Hsrc; [|by right; left].
  destruct (targetPlayerId d) as [tg|].
  - destruct (findPlayer _ tg); [|by right; left]. right; right. eauto 10.
  - right; right. eauto 10.
Qed.

Lemma applyDecision_exclusive dec d src tg t :
  tactics_exclusive t -> tactics_exclusive (applyDecision dec d src tg t).
Proof.
  intros Hinv. destruct dec, tg; simpl;
    auto using swapPlayers_exclusive, benchPlayer_exclusive,
      assignPlayerToSlot_exclusive.
Qed.

(** ** The resolver refines the state machine of section 4.2 *)

(** C5: Every menu action moves the reducer's menu state along a transition of
    the abstract machine: opening always shows the new menu (a pending one
    is discarded), closing and resolving always return to [idle]. *)
Theorem reduceMenu_refines a s :
  resolver_step (resolverState s) (menuEvent a) (resolverState (reduceMenu a s)).
Proof.
  destruct a; simpl; try apply rs_other.
  - apply rs_open.
  - apply rs_close.
  - unfold resolveSlotAction. unfold resolverState at 1.
    destruct (slotActionMenuData (ui s)) as [d|] eqn:Hd.
    + repeat case_match; rewrite resolverState_close; constructor.
    + unfold resolverState. rewrite Hd. constructor.
Qed.

(** C2: Resolving a menu keeps slot exclusivity, whatever the decision. *)
Theorem resolveSlotAction_exclusive dec s :
  tactics_exclusive (tactics s) ->
  tactics_exclusive (tactics (resolveSlotAction dec s)).
Proof.
  intros Hinv.
  destruct (resolveSlotAction_cases dec s) as [->|[->|(d&src&tg&_&_&->)]];
    [done|done|]. by apply applyDecision_exclusive.
Qed.

(** C27: A stale reference, the dragged player sold while the menu was open,
    makes the resolution a silent close: the tactics are untouched and the
    menu is gone. *)
Theorem resolveSlotAction_stale dec s d :
  slotActionMenuData (ui s) = Some d ->
  findPlayer (players (tactics s)) (sourcePlayerId d) = None ->
  tactics (resolveSlotAction dec s) = tactics s /\
  resolverState (resolveSlotAction dec s) = idle.
Proof. intros Hd Hp. unfold resolveSlotAction. by rewrite Hd, Hp. Qed.

(** ** Drop handlers *)

(** C32: Dropping a player onto a slot held by someone else opens the resolver
    menu for that pair; it never binds directly. *)
Theorem handleSlotDrop_occupied mode e slot tm q :
  transferData e <> "" -> slot_playerId slot = Some q -> q <> "" ->
  q <> transferData e ->
  handleSlotDrop mode e slot tm =
    Dispatch (OPEN_SLOT_ACTION_MENU
      (mkMenu (transferData e) (slot_id slot) (Some q) drag
         (mkPos (clientX e) (clientY e)))).
Proof.
  intros He Hq Hne Hdiff. unfold handleSlotDrop.
  destruct (String.eqb_spec (transferData e) "") as [|_]; [done|].
  rewrite Hq, (truthy_nonempty q Hne).
  case_decide as Heq; [congruence|done].
Qed.

(** C36: Dropping onto a free slot assigns in snap mode and only moves the
    player onto the slot's coordinates in free mode. *)
Theorem handleSlotDrop_free_slot mode e slot tm :
  transferData e <> "" -> slot_playerId slot = None ->
  handleSlotDrop mode e slot tm =
    match mode with
    | snap => Dispatch (ASSIGN_PLAYER_TO_SLOT (slot_id slot) (transferData e) tm)
    | free => Dispatch (UPDATE_PLAYER_POSITION (transferData e) (defaultPosition slot))
    end.
Proof.
  intros He Hn. unfold handleSlotDrop.
  destruct (String.eqb_spec (transferData e) "") as [|_]; [done|].
  rewrite Hn. case_decide; [congruence|]. by destruct mode.
Qed.

(** In snap mode a drop on the open pitch is rejected. *)
Theorem handleFieldDrop_snap field tool e :
  handleFieldDrop field tool snap e = NoDispatch.
Proof. unfold handleFieldDrop. destruct field; [|done]. by case_match. Qed.

Lemma percent_bounds (c lo w : Z) :
  0 < w -> lo <= c <= lo + w -> 0 <= (c - lo) * 100 / w <= 100.
Proof.
  intros Hw Hc. split.
  - apply Z.div_pos; lia.
  - apply Z.div_le_upper_bound; lia.
Qed.

(** C38: In free mode, a drop inside the field's box moves the player to a
    position on the pitch. *)
Theorem handleFieldDrop_in_pitch r e :
  transferData e <> "" -> onInteractiveZone e = false ->
  0 < rect_width r -> 0 < rect_height r ->
  rect_left r <= clientX e <= rect_left r + rect_width r ->
  rect_top r <= clientY e <= rect_top r + rect_height r ->
  exists pos, handleFieldDrop (Some r) select free e =
    Dispatch (UPDATE_PLAYER_POSITION (transferData e) pos) /\ in_pitch pos = true.
Proof.
  intros He Hi Hw Hh Hx Hy. unfold handleFieldDrop.
  destruct (String.eqb_spec (transferData e) "") as [|_]; [done|].
  rewrite Hi, bool_decide_true by done. simpl. eexists; split; [reflexivity|].
  unfold in_pitch; simpl.
  pose proof (percent_bounds _ _ _ Hw Hx). pose proof (percent_bounds _ _ _ Hh Hy).
  repeat (apply andb_true_intro; split); apply Z.leb_le; lia.
Qed.

(** A player of the team who holds no slot is rendered with [slot]
    undefined, and clicking the action bubble throws. *)
Theorem handleActionBubbleClick_unslotted f p anchor :
  slotOfPlayer f (player_id p) = None ->
  exists msg, handleActionBubbleClick p (slotOfPlayer f (player_id p)) anchor = Throws msg.
Proof. intros H. rewrite H. eexists. reflexivity. Qed.

(** ** The scenario of section 8 of the specification

    In the seed 4-4-2, slot s1 holds p1 and s2 holds p4.  Dragging p1 onto
    s2 opens the menu; resolving it with [swap] leaves s1 with p4 and s2
    with p1. *)
Theorem drag_swap_scenario :
  match findSlot formation_442 "s2" with
  | Some s2 =>
      match handleSlotDrop snap (mkDrop "p1" 420 310 false) s2 home with
      | Dispatch a =>
          let s' := reduceMenu (RESOLVE_SLOT_ACTION swap)
                      (reduceMenu a INITIAL_STATE) in
          slotHolder s' "4-4-2" "s1" = Some "p4" /\
          slotHolder s' "4-4-2" "s2" = Some "p1" /\ resolverState s' = idle
      | _ => False
      end
  | None => False
  end.
Proof. vm_compute. repeat split. Qed.

(** ** Witnesses *)

Lemma resolveSlotAction_stale_witness :
  slotActionMenuData (ui staleMenuState) =
    Some (mkMenu "p99" "s2" (Some "p4") drag (mkPos 0 0)) /\
  findPlayer (players (tactics staleMenuState)) "p99" = None /\
  tactics (resolveSlotAction swap staleMenuState) = tactics staleMenuState /\
  resolverState (resolveSlotAction swap staleMenuState) = idle.
Proof.
  split; [reflexivity|]. split; [reflexivity|].
  apply (resolveSlotAction_stale swap staleMenuState
           (mkMenu "p99" "s2" (Some "p4") drag (mkPos 0 0))); reflexivity.
Defined.

Lemma handleSlotDrop_occupied_witness :
  "p1" <> "" /\ "p4" <> "" /\ "p4" <> "p1" /\
  handleSlotDrop snap (mkDrop "p1" 420 310 false) (seedSlot "s2" DF 30 85 (Some "p4")) home =
    Dispatch (OPEN_SLOT_ACTION_MENU
      (mkMenu "p1" "s2" (Some "p4") drag (mkPos 420 310))).
Proof.
  split; [discriminate|]. split; [discriminate|]. split; [discriminate|].
  apply (handleSlotDrop_occupied snap (mkDrop "p1" 420 310 false)
           (seedSlot "s2" DF 30 85 (Some "p4")) home "p4");
    [discriminate|reflexivity|discriminate|discriminate].
Defined.

Lemma handleSlotDrop_free_slot_witness :
  "p12" <> "" /\
  handleSlotDrop snap (mkDrop "p12" 0 0 false) (seedSlot "s1" GK 8 50 None) away =
    Dispatch (ASSIGN_PLAYER_TO_SLOT "s1" "p12" away).
Proof.
  split; [discriminate|].
  apply (handleSlotDrop_free_slot snap (mkDrop "p12" 0 0 false)
           (seedSlot "s1" GK 8 50 None) away); [discriminate|reflexivity].
Defined.

Lemma handleFieldDrop_in_pitch_witness :
  0 < rect_width (mkRect 100 50 1050 680) /\
  exists pos, handleFieldDrop (Some (mkRect 100 50 1050 680)) select free
                (mkDrop "p3" 600 400 false) =
      Dispatch (UPDATE_PLAYER_POSITION "p3" pos) /\ in_pitch pos = true.
Proof.
  split; [simpl; lia|].
  apply (handleFieldDrop_in_pitch (mkRect 100 50 1050 680) (mkDrop "p3" 600 400 false));
    simpl; [discriminate|reflexivity|lia..].
Defined.

Lemma handleActionBubbleClick_unslotted_witness :
  slotOfPlayer formation_433 "p12" = None /\
  exists msg, handleActionBubbleClick
    (mkPlayer "p12" 17 "cm" away (mkPos (-100) (-100)) Available Good 100)
    (slotOfPlayer formation_433 "p12") (mkPos 0 0) = Throws msg.
Proof.
  split; [reflexivity|].
  apply (handleActionBubbleClick_unslotted formation_433
           (mkPlayer "p12" 17 "cm" away (mkPos (-100) (-100)) Available Good 100)).
  reflexivity.
Defined.

Lemma resolveSlotAction_exclusive_witness :
  tactics_exclusive (tactics swapMenuState) /\
  tactics_exclusive (tactics (resolveSlotAction swap swapMenuState)).
Proof.
  split; [check_exclusive|].
  apply resolveSlotAction_exclusive. check_exclusive.
Defined.
