(* ===== verification/Playback.v ===== *)
(** * Playback: the animation timer of [AppProvider]

    [src/context/AppContext.tsx] (lines 76-92) drives playbook playback
    with a React effect whose dependencies are [isAnimating], [isPaused],
    [activeStepIndex] and [activePlaybookItemId].  When they change, React
    first runs the cleanup of the previous run ([clearTimeout]) and then the
    effect, which either schedules [SET_ACTIVE_STEP (i + 1)] after 2000 ms,
    dispatches [RESET_ANIMATION] at the last step, does nothing, or throws
    when the active item is missing.

    [animationEffect] is that effect; [Runtime] is the state React keeps
    around it (the root state, the one pending timer, the actions the
    effect dispatched and that are not yet processed); [rt_step] is one
    event (a user dispatch, the timer firing, the queue flushing).  The
    reducer's playbook actions are not part of [src/]: the runtime is
    parameterised by any reducer, and the termination theorem is proved for
    every reducer that satisfies the laws of [PlaybackReducer], which
    [reducePlayback] (modelled from section 4.4 of the specification)
    satisfies. *)

From S2P Require Import Prelude Geometry Domain Formation.

(** ** The effect *)

Inductive EffectOutcome :=
| EffNone
| EffSchedule (delay : Z) (a : Action)
| EffDispatch (a : Action)
| EffThrow (error : string).

Definition stepCount (item : PlaybookItem) : Z := Z.of_nat (length (steps item)).

(** The body of the animation [useEffect]. *)
Definition animationEffect (s : RootState) : EffectOutcome :=
  let u := ui s in
  if isAnimating u && negb (isPaused u) && truthy (activePlaybookItemId u) then
    let activeItem :=
      match activePlaybookItemId u with
      | Some id => playbook (tactics s) !! id
      | None => None
      end in
    let currentStepIndex := match activeStepIndex u with Some i => i | None => 0 end in
    match activeItem with
    | Some item =>
        if currentStepIndex <? stepCount item - 1 then
          EffSchedule 2000 (SET_ACTIVE_STEP (currentStepIndex + 1))
        else if currentStepIndex >=? stepCount item - 1 then
          EffDispatch RESET_ANIMATION
        else EffNone
    | None => EffThrow "TypeError: Cannot read properties of undefined (reading 'steps')"
    end
  else EffNone.

(** The dependency array of the effect. *)
Definition deps (s : RootState) : bool * bool * option Z * option string :=
  (isAnimating (ui s), isPaused (ui s), activeStepIndex (ui s),
   activePlaybookItemId (ui s)).

(** ** The playbook actions of the reducer (section 4.4 of the spec) *)

(** The players take the positions a step records for them. *)
Definition applyStepPositions (st : PlaybookStep) (ps : list Player) : list Player :=
  map (fun p => match playerPositions st !! player_id p with
                | Some pos => mkPlayer (player_id p) (jerseyNumber p) (roleId p)
                                (team p) pos (availability p) (morale p) (stamina p)
                | None => p
                end) ps.

Definition activeItemOf (s : RootState) : option PlaybookItem :=
  match activePlaybookItemId (ui s) with
  | Some id => playbook (tactics s) !! id
  | None => None
  end.

(** Show step [i] of the active item: the play-head moves and the players
    take the step's positions; an index out of range is rejected. *)
Definition setActiveStep (i : Z) (s : RootState) : RootState :=
  match activeItemOf s with
  | Some item =>
      match steps item !! Z.to_nat i with
      | Some st =>
          if (0 <=? i) && (i <? stepCount item) then
            let u := ui s in
            with_ui (set_playback (activePlaybookItemId u) (Some i) (isAnimating u)
                       (isPaused u) (animationTrails u))
              (with_tactics (fun t => set_players (applyStepPositions st (players t)) t) s)
          else s
      | None => s
      end
  | None => s
  end.

Definition reducePlayback (a : Action) (s : RootState) : RootState :=
  let u := ui s in
  match a with
  | START_ANIMATION =>
      with_ui (set_playback (activePlaybookItemId u) (Some 0) true false None) s
  | PAUSE_ANIMATION =>
      with_ui (set_playback (activePlaybookItemId u) (activeStepIndex u)
                 (isAnimating u) (negb (isPaused u)) (animationTrails u)) s
  | RESET_ANIMATION =>
      with_ui (set_playback (activePlaybookItemId u) (Some 0) false false None) s
  | SET_ACTIVE_STEP i => setActiveStep i s
  | DELETE_PLAYBOOK_ITEM id =>
      let s1 := with_tactics (fun t => set_playbook (delete id (playbook t)) t) s in
      if decide (activePlaybookItemId u = Some id)
      then with_ui (set_playback None None false false None) s1
      else s1
  | _ => s
  end.

(** ** The runtime around the effect *)

Record Runtime := mkRuntime {
  rt_state : RootState;
  rt_timer : option Action;
  rt_queue : list Action;
}.

Inductive RtResult := Running (rt : Runtime) | Crashed (error : string).

Inductive RtEvent := user_dispatch (a : Action) | timer_fires | effect_flush.

Section Runtime.
Variable reduce : Action -> RootState -> RootState.

(** Commit one action: reduce, and when the dependencies changed, clear
    the pending timer and run the effect on the new state. *)
Definition commit (s : RootState) (a : Action) (timer : option Action)
    (queue : list Action) : RtResult :=
  let s' := reduce a s in
  if decide (deps s' = deps s) then Running (mkRuntime s' timer queue)
  else match animationEffect s' with
    | EffNone => Running (mkRuntime s' None queue)
    | EffSchedule _ a' => Running (mkRuntime s' (Some a') queue)
    | EffDispatch a' => Running (mkRuntime s' None (queue ++ [a']))
    | EffThrow m => Crashed m
    end.

Definition rt_step (ev : RtEvent) (rt : Runtime) : RtResult :=
  match ev with
  | user_dispatch a => commit (rt_state rt) a (rt_timer rt) (rt_queue rt)
  | timer_fires =>
      match rt_timer rt with
      | Some a => commit (rt_state rt) a None (rt_queue rt)
      | None => Running rt
      end
  | effect_flush =>
      match rt_queue rt with
      | a :: q => commit (rt_state rt) a (rt_timer rt) q
      | [] => Running rt
      end
  end.

(** Uninterrupted playback: flush the effect's dispatches first, then let
    the timer fire, until nothing is pending.  The play-head is recorded
    after every commit that leaves the animation running. *)
Fixpoint run (fuel : nat) (rt : Runtime) (trace : list (option Z))
    : option (list (option Z) * RtResult) :=
  match fuel with
  | O => None
  | S fuel' =>
      let ev := match rt_queue rt, rt_timer rt with
                | _ :: _, _ => Some effect_flush
                | [], Some _ => Some timer_fires
                | [], None => None
                end in
      match ev with
      | None => Some (trace, Running rt)
      | Some e =>
          match rt_step e rt with
          | Running rt' =>
              let trace' := if isAnimating (ui (rt_state rt'))
                            then trace ++ [activeStepIndex (ui (rt_state rt'))]
                            else trace in
              run fuel' rt' trace'
          | Crashed m => Some (trace, Crashed m)
          end
      end
  end.
End Runtime.

(** ** What the runtime needs from the reducer *)

(** The fields of the state the runtime reads. *)
Definition playbackView (s : RootState) :=
  (isAnimating (ui s), isPaused (ui s), activePlaybookItemId (ui s), playbook (tactics s)).

Class PlaybackReducer (reduce : Action -> RootState -> RootState) := {
  pb_start s :
    playbackView (reduce START_ANIMATION s) =
      (true, false, activePlaybookItemId (ui s), playbook (tactics s)) /\
    activeStepIndex (ui (reduce START_ANIMATION s)) = Some 0;
  pb_pause s :
    playbackView (reduce PAUSE_ANIMATION s) =
      (isAnimating (ui s), negb (isPaused (ui s)), activePlaybookItemId (ui s),
       playbook (tactics s)) /\
    activeStepIndex (ui (reduce PAUSE_ANIMATION s)) = activeStepIndex (ui s);
  pb_step s id item i :
    activePlaybookItemId (ui s) = Some id -> playbook (tactics s) !! id = Some item ->
    0 <= i < stepCount item ->
    playbackView (reduce (SET_ACTIVE_STEP i) s) = playbackView s /\
    activeStepIndex (ui (reduce (SET_ACTIVE_STEP i) s)) = Some i;
  pb_reset s : isAnimating (ui (reduce RESET_ANIMATION s)) = false;
}.

(** The runtime is playing step [cur] of [item]: the state shows it, and
    either the timer for the next step is pending or, at the last step, the
    reset the effect dispatched is queued. *)
Definition playing (id : string) (item : PlaybookItem) (rt : Runtime) (cur : Z) : Prop :=
  let s := rt_state rt in
  playbackView s = (true, false, Some id, playbook (tactics s)) /\
  playbook (tactics s) !! id = Some item /\
  activeStepIndex (ui s) = Some cur /\
  if cur <? stepCount item - 1
  then rt_timer rt = Some (SET_ACTIVE_STEP (cur + 1)) /\ rt_queue rt = []
  else rt_timer rt = None /\ rt_queue rt = [RESET_ANIMATION].

(** A pending timer always advances the play-head by one, and only while
    the animation runs unpaused. *)
Definition timer_coherent (rt : Runtime) : Prop :=
  forall a, rt_timer rt = Some a ->
    let u := ui (rt_state rt) in
    isAnimating u = true /\ isPaused u = false /\
    truthy (activePlaybookItemId u) = true /\
    a = SET_ACTIVE_STEP (match activeStepIndex u with Some i => i | None => 0 end + 1).

(** The seed state with the first library play loaded at step 0. *)
Definition libraryItem : PlaybookItem :=
  match DEFAULT_PLAYBOOK_LIBRARY with
  | it :: _ => it
  | [] => mkItem "" "" General "" []
  end.

Definition libraryState : RootState :=
  with_ui (set_playback (Some (item_id libraryItem)) (Some 0) false false None)
    (with_tactics (set_playbook {[item_id libraryItem := libraryItem]}) INITIAL_STATE).

(** The runtime once playback of the library play has started. *)
Definition rtPlaying : Runtime :=
  mkRuntime (reducePlayback START_ANIMATION libraryState)
    (Some (SET_ACTIVE_STEP 1)) [].

(** A paused animation whose item is no longer in the playbook. *)
Definition pausedMissing : Runtime :=
  mkRuntime (with_ui (set_playback (Some "gone") (Some 1) true true None) INITIAL_STATE)
    None [].

(** The runtimes reachable by any sequence of events. *)
Inductive rt_reachable (reduce : Action -> RootState -> RootState) :
    Runtime -> Runtime -> Prop :=
| rt_refl rt : rt_reachable reduce rt rt
| rt_next rt ev rt' rt'' :
    rt_step reduce ev rt = Running rt' -> rt_reachable reduce rt' rt'' ->
    rt_reachable reduce rt rt''.

(** ** [reducePlayback] satisfies the laws *)

Lemma setActiveStep_in_range s id item i :
  activePlaybookItemId (ui s) = Some id -> playbook (tactics s) !! id = Some item ->
  0 <= i < stepCount item ->
  exists st, steps item !! Z.to_nat i = Some st /\
    setActiveStep i s =
      with_ui (set_playback (Some id) (Some i) (isAnimating (ui s)) (isPaused (ui s))
                 (animationTrails (ui s)))
        (with_tactics (fun t => set_players (applyStepPositions st (players t)) t) s).
Proof.
  intros Hid Hitem Hi. unfold stepCount in Hi.
  destruct (lookup_lt_is_Some_2 (steps item) (Z.to_nat i)) as [st Hst]; [lia|].
  exists st. split; [done|].
  unfold setActiveStep, activeItemOf. rewrite Hid, Hitem, Hst.
  replace ((0 <=? i) && (i <? stepCount item)) with true; [reflexivity|].
  symmetry. apply andb_true_intro. unfold stepCount. split; apply Z.leb_le || apply Z.ltb_lt; lia.
Qed.

#[export] Instance reducePlayback_laws : PlaybackReducer reducePlayback.
Proof.
  split; [intros s; by split|intros s; by split| |intros s; reflexivity].
  intros s id item i Hid Hitem Hi.
  destruct (setActiveStep_in_range s id item i Hid Hitem Hi) as (st & _ & E).
  simpl. rewrite E. unfold playbackView. simpl. by rewrite Hid.
Qed.

(** ** The effect at a playing state *)

Lemma animationEffect_playing s id item cur :
  isAnimating (ui s) = true -> isPaused (ui s) = false ->
  activePlaybookItemId (ui s) = Some id -> id <> "" ->
  playbook (tactics s) !! id = Some item -> activeStepIndex (ui s) = Some cur ->
  animationEffect s =
    if cur <? stepCount item - 1 then EffSchedule 2000 (SET_ACTIVE_STEP (cur + 1))
    else EffDispatch RESET_ANIMATION.
Proof.
  intros Ha Hp Hid Hne Hitem Hcur. unfold animationEffect.
  rewrite Ha, Hp, Hid, (truthy_nonempty id Hne). simpl. rewrite Hitem, Hcur.
  destruct (cur <? stepCount item - 1) eqn:Hlt; [done|].
  apply Z.ltb_ge in Hlt. apply Z.geb_le in Hlt as ->. done.
Qed.

Lemma animationEffect_stopped s :
  isAnimating (ui s) = false -> animationEffect s = EffNone.
Proof. intros Ha. unfold animationEffect. by rewrite Ha. Qed.

Section Termination.
Context (reduce : Action -> RootState -> RootState) `{!PlaybackReducer reduce}.
Context (id : string) (item : PlaybookItem).
Hypothesis id_nonempty : id <> "".

(** One timer tick moves a playing runtime to the next step. *)
Lemma tick_playing rt cur :
  playing id item rt cur -> 0 <= cur < stepCount item - 1 ->
  exists rt', rt_step reduce timer_fires rt = Running rt' /\
              playing id item rt' (cur + 1).
Proof.
  intros (Hview & Hitem & Hcur & Hnext) Hrange.
  assert (Hlt : (cur <? stepCount item - 1) = true) by (apply Z.ltb_lt; lia).
  rewrite Hlt in Hnext.
  destruct Hnext as [Htimer Hq].
  injection Hview as Ha Hp Hid.
  destruct (pb_step (rt_state rt) id item (cur + 1) Hid Hitem) as [Hv' Hi'];
    [unfold stepCount in *; lia|].
  simpl. rewrite Htimer. unfold commit.
  rewrite decide_False; [|unfold deps; rewrite Hi', Hcur; intros [=]; lia].
  unfold playbackView in Hv'. injection Hv' as Ha' Hp' Hid' Hpb'.
  rewrite (animationEffect_playing _ id item (cur + 1)) by congruence.
  destruct (cur + 1 <? stepCount item - 1) eqn:Hlt'; eexists; (split; [reflexivity|]);
    (split; [unfold playbackView; simpl; congruence|]);
    (split; [simpl; congruence|]); (split; [done|]); simpl;
    replace (cur + 1 + 1) with (cur + 2) by lia; rewrite Hlt', ?Hq; done.
Qed.

(** At the last step, flushing the reset the effect dispatched stops the
    animation and leaves nothing pending. *)
Lemma flush_last rt cur :
  playing id item rt cur -> stepCount item - 1 <= cur ->
  exists rt', rt_step reduce effect_flush rt = Running rt' /\
    isAnimating (ui (rt_state rt')) = false /\ rt_timer rt' = None /\ rt_queue rt' = [].
Proof.
  intros (Hview & _ & _ & Hnext) Hlast.
  assert (Hge : (cur <? stepCount item - 1) = false) by (apply Z.ltb_ge; lia).
  rewrite Hge in Hnext. destruct Hnext as [Htimer Hq].
  injection Hview as Ha _ _.
  simpl. rewrite Hq, Htimer. unfold commit.
  pose proof (pb_reset (rt_state rt)) as Hr.
  rewrite decide_False; [|unfold deps; rewrite Hr, Ha; discriminate].
  rewrite animationEffect_stopped by done. eexists. by repeat split.
Qed.

Lemma run_playing k : forall rt cur trace fuel,
  playing id item rt cur -> 0 <= cur -> cur + Z.of_nat k = stepCount item - 1 ->
  (k + 2 <= fuel)%nat ->
  exists rtf, run reduce fuel rt trace =
      Some (trace ++ map Some (zseq (cur + 1) k), Running rtf) /\
    isAnimating (ui (rt_state rtf)) = false /\ rt_timer rtf = None /\ rt_queue rtf = [].
Proof.
  induction k as [|k IH]; intros rt cur trace fuel Hplay Hcur Hk Hfuel.
  - destruct fuel as [|[|fuel]]; [lia|lia|].
    destruct (flush_last rt cur Hplay) as (rt' & Hstep & Ha & Ht & Hq); [lia|].
    destruct Hplay as (_ & _ & _ & Hnext).
    assert (Hge : (cur <? stepCount item - 1) = false) by (apply Z.ltb_ge; lia).
    rewrite Hge in Hnext. destruct Hnext as [Ht0 Hq0].
    exists rt'. simpl. rewrite Hq0, Hstep, Ha, Ht, Hq. by rewrite app_nil_r.
  - destruct fuel as [|fuel]; [lia|].
    destruct (tick_playing rt cur Hplay) as (rt' & Hstep & Hplay'); [lia|].
    pose proof Hplay as (_ & _ & _ & Hnext).
    assert (Hlt : (cur <? stepCount item - 1) = true) by (apply Z.ltb_lt; lia).
    rewrite Hlt in Hnext. destruct Hnext as [Ht0 Hq0].
    pose proof Hplay' as (Hview' & _ & Hcur' & _). injection Hview' as Ha' _ _.
    destruct (IH rt' (cur + 1) (trace ++ [Some (cur + 1)]) fuel Hplay')
      as (rtf & Hrun & Hfin); [lia|lia|lia|].
    exists rtf. split; [|done].
    cbn [run]. rewrite Hq0, Ht0. cbv zeta iota beta.
    rewrite Hstep. cbv iota beta. rewrite Ha', Hcur', Hrun.
    do 2 f_equal. simpl. by rewrite <- app_assoc.
Qed.
End Termination.

Lemma start_playing reduce `{!PlaybackReducer reduce} s id item :
  activePlaybookItemId (ui s) = Some id -> id <> "" ->
  playbook (tactics s) !! id = Some item -> isAnimating (ui s) = false ->
  exists rt1, rt_step reduce (user_dispatch START_ANIMATION) (mkRuntime s None []) =
    Running rt1 /\ playing id item rt1 0.
Proof.
  intros Hid Hne Hitem Ha.
  destruct (pb_start s) as [Hv Hi]. unfold playbackView in Hv.
  injection Hv as Ha1 Hp1 Hid1 Hpb1.
  simpl. unfold commit.
  rewrite decide_False; [|unfold deps; rewrite Ha1, Ha; discriminate].
  rewrite (animationEffect_playing _ id item 0) by congruence.
  destruct (0 <? stepCount item - 1) eqn:Hlt; eexists; (split; [reflexivity|]);
    (split; [unfold playbackView; simpl; congruence|]);
    (split; [simpl; congruence|]); (split; [done|]); simpl; by rewrite Hlt.
Qed.

(** C3: Starting the animation of an item with [N >= 1] steps and letting it run
    uninterrupted shows the steps [0, 1, ..., N - 1] in order, then stops:
    the animation is off, no timer is pending and nothing is queued.  Any
    fuel of at least [N + 1] events suffices. *)
Theorem animation_terminates reduce `{!PlaybackReducer reduce} s id item fuel :
  activePlaybookItemId (ui s) = Some id -> id <> "" ->
  playbook (tactics s) !! id = Some item -> 1 <= stepCount item ->
  isAnimating (ui s) = false -> (length (steps item) + 1 <= fuel)%nat ->
  exists rt1 rtf,
    rt_step reduce (user_dispatch START_ANIMATION) (mkRuntime s None []) = Running rt1 /\
    run reduce fuel rt1 [Some 0] =
      Some (map Some (zseq 0 (length (steps item))), Running rtf) /\
    isAnimating (ui (rt_state rtf)) = false /\ rt_timer rtf = None /\ rt_queue rtf = [].
Proof.
  intros Hid Hne Hitem HN Ha Hfuel.
  destruct (start_playing reduce s id item Hid Hne Hitem Ha) as (rt1 & Hstart & Hplay).
  unfold stepCount in HN.
  destruct (length (steps item)) as [|n] eqn:Hlen; [lia|].
  destruct (run_playing reduce id item Hne n rt1 0 [Some 0] fuel Hplay)
    as (rtf & Hrun & Hfin); [lia|unfold stepCount; rewrite Hlen; lia|lia|].
  exists rt1, rtf. split; [done|]. split; [|done].
  rewrite Hrun. reflexivity.
Qed.

(** ** Timer coherence *)

Lemma animationEffect_schedule s d a :
  animationEffect s = EffSchedule d a ->
  isAnimating (ui s) = true /\ isPaused (ui s) = false /\
  truthy (activePlaybookItemId (ui s)) = true /\
  a = SET_ACTIVE_STEP (match activeStepIndex (ui s) with Some i => i | None => 0 end + 1).
Proof.
  unfold animationEffect.
  destruct (isAnimating (ui s)), (isPaused (ui s)), (truthy (activePlaybookItemId (ui s)));
    simpl; try discriminate.
  repeat case_match; try discriminate; intros [= _ <-]; done.
Qed.

Lemma timer_coherent_same_deps rt s' timer q :
  deps s' = deps (rt_state rt) -> (timer = None \/ timer = rt_timer rt) ->
  timer_coherent rt -> timer_coherent (mkRuntime s' timer q).
Proof.
  unfold deps. intros Hd Ht Hc a Ha. simpl in Ha.
  destruct Ht as [-> | ->]; [discriminate|].
  injection Hd as Ha' Hp' Hi' Hid'. simpl. rewrite Ha', Hp', Hi', Hid'. by apply Hc.
Qed.

Lemma commit_coherent reduce rt a timer q rt' :
  (timer = None \/ timer = rt_timer rt) -> timer_coherent rt ->
  commit reduce (rt_state rt) a timer q = Running rt' -> timer_coherent rt'.
Proof.
  intros Ht Hc. unfold commit. case_decide as Hd.
  - intros [= <-]. by apply (timer_coherent_same_deps rt).
  - destruct (animationEffect (reduce a (rt_state rt))) eqn:He;
      intros [= <-]; intros b Hb; simpl in Hb; try discriminate.
    injection Hb as <-. by apply (animationEffect_schedule _ delay).
Qed.

(** C6: Whatever the reducer, every event keeps the pending timer coherent:
    it is only pending while the animation runs unpaused and it always
    advances the current play-head by one. *)
Theorem timer_coherent_reachable reduce rt rt' :
  timer_coherent rt -> rt_reachable reduce rt rt' -> timer_coherent rt'.
Proof.
  intros Hc Hr. induction Hr as [rt|rt ev rt1 rt2 Hstep _ IH]; [done|].
  apply IH. destruct ev; simpl in Hstep.
  - eapply commit_coherent; [right; reflexivity|exact Hc|exact Hstep].
  - destruct (rt_timer rt); [|by injection Hstep as <-].
    eapply commit_coherent; [left; reflexivity|exact Hc|exact Hstep].
  - destruct (rt_queue rt); [by injection Hstep as <-|].
    eapply commit_coherent; [right; reflexivity|exact Hc|exact Hstep].
Qed.

(** ** Pause, deletion and a missing item *)

Lemma animationEffect_paused s : isPaused (ui s) = true -> animationEffect s = EffNone.
Proof. intros Hp. unfold animationEffect. rewrite Hp. by rewrite andb_false_r. Qed.

(** C24: Pausing a running animation cancels the pending timer and keeps the
    play-head; pausing again (the toggle resumes) schedules the same next
    step. *)
Theorem pause_resume reduce `{!PlaybackReducer reduce} id item rt cur :
  id <> "" -> playing id item rt cur -> 0 <= cur < stepCount item - 1 ->
  exists rt' rt'',
    rt_step reduce (user_dispatch PAUSE_ANIMATION) rt = Running rt' /\
    rt_timer rt' = None /\ isPaused (ui (rt_state rt')) = true /\
    activeStepIndex (ui (rt_state rt')) = Some cur /\
    rt_step reduce (user_dispatch PAUSE_ANIMATION) rt' = Running rt'' /\
    playing id item rt'' cur.
Proof.
  intros Hne (Hview & Hitem & Hcur & Hnext) Hrange.
  assert (Hlt : (cur <? stepCount item - 1) = true) by (apply Z.ltb_lt; lia).
  rewrite Hlt in Hnext. destruct Hnext as [Ht Hq].
  injection Hview as Ha Hp Hid.
  destruct (pb_pause (rt_state rt)) as [Hv1 Hi1]. unfold playbackView in Hv1.
  rewrite Ha, Hp, Hid in Hv1. injection Hv1 as Ha1 Hp1 Hid1 Hpb1.
  destruct (pb_pause (reduce PAUSE_ANIMATION (rt_state rt))) as [Hv2 Hi2].
  unfold playbackView in Hv2.
  rewrite Ha1, Hp1, Hid1 in Hv2. injection Hv2 as Ha2 Hp2 Hid2 Hpb2.
  exists (mkRuntime (reduce PAUSE_ANIMATION (rt_state rt)) None (rt_queue rt)).
  exists (mkRuntime (reduce PAUSE_ANIMATION (reduce PAUSE_ANIMATION (rt_state rt)))
            (Some (SET_ACTIVE_STEP (cur + 1))) (rt_queue rt)).
  simpl. unfold commit.
  rewrite decide_False; [|unfold deps; rewrite Hp1, Hp; discriminate].
  rewrite animationEffect_paused by done.
  split; [done|]. split; [done|]. split; [done|]. split; [congruence|].
  rewrite decide_False; [|unfold deps; rewrite Hp2, Hp1; discriminate].
  rewrite (animationEffect_playing _ id item cur) by congruence. rewrite Hlt.
  split; [done|]. unfold playing, playbackView; simpl.
  rewrite Ha2, Hp2, Hid2, Hpb2, Hpb1, Hlt. repeat split; congruence.
Qed.

(** C25: When the active item has disappeared from the playbook, resuming a
    paused animation runs the effect, which reads [activeItem.steps] of
    [undefined] and throws. *)
Theorem resume_missing_item_crashes reduce `{!PlaybackReducer reduce} rt id :
  let s := rt_state rt in
  isAnimating (ui s) = true -> isPaused (ui s) = true ->
  activePlaybookItemId (ui s) = Some id -> id <> "" ->
  playbook (tactics s) !! id = None ->
  exists msg, rt_step reduce (user_dispatch PAUSE_ANIMATION) rt = Crashed msg.
Proof.
  simpl. intros Ha Hp Hid Hne Hnone.
  destruct (pb_pause (rt_state rt)) as [Hv _]. unfold playbackView in Hv.
  rewrite Ha, Hp, Hid in Hv. injection Hv as Ha1 Hp1 Hid1 Hpb1.
  simpl. unfold commit.
  rewrite decide_False; [|unfold deps; rewrite Hp1, Hp; discriminate].
  unfold animationEffect. rewrite Ha1, Hp1, Hid1, (truthy_nonempty id Hne), Hpb1, Hnone.
  by eexists.
Qed.

(** C26: Deleting the item being played stops the animation and cancels the
    pending timer. *)
Theorem delete_active_item_cancels_timer id item rt cur :
  playing id item rt cur ->
  exists rt', rt_step reducePlayback (user_dispatch (DELETE_PLAYBOOK_ITEM id)) rt =
    Running rt' /\ rt_timer rt' = None /\ isAnimating (ui (rt_state rt')) = false /\
    playbook (tactics (rt_state rt')) !! id = None.
Proof.
  intros (Hview & _ & _ & _). injection Hview as Ha _ Hid.
  cbn [rt_step]. unfold commit, reducePlayback. rewrite (decide_True _ _ Hid).
  rewrite decide_False; [|unfold deps; simpl; rewrite Ha; discriminate].
  rewrite animationEffect_stopped by done.
  eexists. split; [reflexivity|]. split; [done|]. split; [done|].
  simpl. apply lookup_delete_eq.
Qed.

(** ** Witnesses *)

Ltac check_playing := unfold playing, playbackView; simpl; repeat split.

Lemma animation_terminates_witness :
  activePlaybookItemId (ui libraryState) = Some "lib_att_overload_433" /\
  exists rt1 rtf,
    rt_step reducePlayback (user_dispatch START_ANIMATION) (mkRuntime libraryState None []) =
      Running rt1 /\
    run reducePlayback 3 rt1 [Some 0] =
      Some (map Some (zseq 0 (length (steps libraryItem))), Running rtf) /\
    isAnimating (ui (rt_state rtf)) = false /\ rt_timer rtf = None /\ rt_queue rtf = [].
Proof.
  split; [reflexivity|].
  apply (animation_terminates reducePlayback libraryState "lib_att_overload_433"
           libraryItem 3);
    [reflexivity|discriminate|reflexivity|unfold stepCount; simpl; lia
    |reflexivity|simpl; lia].
Defined.

Lemma pause_resume_witness :
  playing "lib_att_overload_433" libraryItem rtPlaying 0 /\
  exists rt' rt'',
    rt_step reducePlayback (user_dispatch PAUSE_ANIMATION) rtPlaying = Running rt' /\
    rt_timer rt' = None /\ isPaused (ui (rt_state rt')) = true /\
    activeStepIndex (ui (rt_state rt')) = Some 0 /\
    rt_step reducePlayback (user_dispatch PAUSE_ANIMATION) rt' = Running rt'' /\
    playing "lib_att_overload_433" libraryItem rt'' 0.
Proof.
  split; [check_playing|].
  apply (pause_resume reducePlayback "lib_att_overload_433" libraryItem rtPlaying 0);
    [discriminate|check_playing|unfold stepCount; simpl; lia].
Defined.

Lemma resume_missing_item_crashes_witness :
  playbook (tactics (rt_state pausedMissing)) !! "gone" = None /\
  exists msg, rt_step reducePlayback (user_dispatch PAUSE_ANIMATION) pausedMissing = Crashed msg.
Proof.
  split; [reflexivity|].
  apply (resume_missing_item_crashes reducePlayback pausedMissing "gone");
    [reflexivity|reflexivity|reflexivity|discriminate|reflexivity].
Defined.

Lemma delete_active_item_cancels_timer_witness :
  playing "lib_att_overload_433" libraryItem rtPlaying 0 /\
  exists rt', rt_step reducePlayback
      (user_dispatch (DELETE_PLAYBOOK_ITEM "lib_att_overload_433")) rtPlaying =
    Running rt' /\ rt_timer rt' = None /\ isAnimating (ui (rt_state rt')) = false /\
    playbook (tactics (rt_state rt')) !! "lib_att_overload_433" = None.
Proof.
  split; [check_playing|].
  apply (delete_active_item_cancels_timer "lib_att_overload_433" libraryItem rtPlaying 0).
  check_playing.
Defined.

Lemma timer_coherent_reachable_witness :
  timer_coherent (mkRuntime libraryState None []) /\
  rt_reachable reducePlayback (mkRuntime libraryState None []) rtPlaying /\
  timer_coherent rtPlaying.
Proof.
  assert (H0 : timer_coherent (mkRuntime libraryState None [])) by (intros a Ha; discriminate).
  assert (H1 : rt_reachable reducePlayback (mkRuntime libraryState None []) rtPlaying).
  { eapply (rt_next _ _ (user_dispatch START_ANIMATION)); [reflexivity|apply rt_refl]. }
  split; [exact H0|]. split; [exact H1|].
  exact (timer_coherent_reachable reducePlayback _ _ H0 H1).
Defined.
