(* ===== verification/Persistence.v ===== *)
(** * Persistence: the snapshot normaliser, saving and loading

    [cleanStateForSaving] of [src/context/AppContext.tsx] (lines 12-47)
    bakes the live positions and drawings into the active playbook step,
    deletes the transient keys of [ui] and two keys of [franchise], drops
    [auth] and stamps [APP_VERSION].  [ui] and [franchise] are JSON objects
    in the snapshot ([ui_object], [franchise_object]) so that [delete] is
    modelled as the code does it: by key.  The mount effect (lines 59-69)
    restores a stored snapshot only when its version matches; the save
    effect (lines 94-111) writes the active snapshot and the save slot.
    What [LOAD_STATE] does with a snapshot is the reducer's (not in
    [src/]); [loadSnapshot] models it from sections 4.6 and 8 of the
    specification: every key of the snapshot is restored and missing keys
    take the initial state's value. *)

From S2P Require Import Prelude Geometry Domain.

(** ** JSON encoding of the UI fields the core reads *)

Definition enc_opt {A} (f : A -> jval) (o : option A) : jval :=
  match o with Some x => f x | None => JNull end.

Definition enc_pos (p : Position) : jval := JObj [("x", JNum (px p)); ("y", JNum (py p))].

Definition enc_teamView (v : TeamView) : jval :=
  JStr (match v with view_home => "home" | view_away => "away" | view_both => "both" end).

Definition modalName (m : ModalType) : string :=
  match m with
  | editPlayer => "editPlayer" | comparePlayer => "comparePlayer"
  | slotActionMenu => "slotActionMenu" | chat => "chat"
  | customFormationEditor => "customFormationEditor" | loadProject => "loadProject"
  | matchSimulator => "matchSimulator" | postMatchReport => "postMatchReport"
  | contractNegotiation => "contractNegotiation" | pressConference => "pressConference"
  | aiSubSuggestion => "aiSubSuggestion" | playerConversation => "playerConversation"
  | interactiveTutorial => "interactiveTutorial" | scouting => "scouting"
  | sponsorships => "sponsorships" | teamTalk => "teamTalk"
  | seasonEndSummary => "seasonEndSummary" | playbookLibrary => "playbookLibrary"
  end.

Definition toolName (t : DrawingTool) : string :=
  match t with
  | select => "select" | arrow => "arrow" | zone => "zone"
  | pen => "pen" | line => "line" | text => "text"
  end.

Definition modeName (m : PositioningMode) : string :=
  match m with free => "free" | snap => "snap" end.

Definition enc_menu (d : SlotActionMenuData) : jval :=
  JObj [("sourcePlayerId", JStr (sourcePlayerId d)); ("targetSlotId", JStr (targetSlotId d));
        ("targetPlayerId", enc_opt JStr (targetPlayerId d));
        ("trigger", JStr (match trigger d with click => "click" | drag => "drag" end));
        ("position", enc_pos (menu_position d))].

Definition enc_trail (t : AnimationTrail) : jval :=
  JObj [("playerId", JStr (trail_playerId t)); ("points", JArr (map enc_pos (trail_points t)));
        ("color", JStr (trail_color t))].

(** The UI state as the JSON object [JSON.stringify] writes. *)
Definition ui_object (u : UIState) : gmap string jval :=
  <["activeTeamContext" := enc_teamView (activeTeamContext u)]>
  (<["activeModal" := enc_opt (fun m => JStr (modalName m)) (activeModal u)]>
  (<["slotActionMenuData" := enc_opt enc_menu (slotActionMenuData u)]>
  (<["selectedPlayerId" := enc_opt JStr (selectedPlayerId u)]>
  (<["drawingTool" := JStr (toolName (drawingTool u))]>
  (<["positioningMode" := JStr (modeName (positioningMode u))]>
  (<["activePlaybookItemId" := enc_opt JStr (activePlaybookItemId u)]>
  (<["activeStepIndex" := enc_opt JNum (activeStepIndex u)]>
  (<["isAnimating" := JBool (isAnimating u)]>
  (<["isPaused" := JBool (isPaused u)]>
  (<["animationTrails" := enc_opt (fun l => JArr (map enc_trail l)) (animationTrails u)]>
  (<["isPresentationMode" := JBool (isPresentationMode u)]>
  (<["activeSaveSlotId" := enc_opt JStr (activeSaveSlotId u)]>
   (ui_rest u))))))))))))).

(** The keys [ui_object] writes from the typed fields. *)
Definition typedUIKeys : list string :=
  ["activeTeamContext"; "activeModal"; "slotActionMenuData"; "selectedPlayerId";
   "drawingTool"; "positioningMode"; "activePlaybookItemId"; "activeStepIndex";
   "isAnimating"; "isPaused"; "animationTrails"; "isPresentationMode"; "activeSaveSlotId"].

(** ** The normaliser *)

(** [transientUIKeys] of [cleanStateForSaving], in source order. *)
Definition transientUIKeys : list string :=
  ["activeModal"; "isLoadingAI"; "editingPlayerId"; "playerToCompareId";
   "aiComparisonResult"; "isComparingAI"; "slotActionMenuData"; "isAnimating";
   "playerInitialPositions"; "animationTrails"; "isSuggestingFormation";
   "aiSuggestedFormation"; "chatHistory"; "isChatProcessing"; "highlightedByAIPlayerIds";
   "isExportingLineup"; "isPresentationMode"; "notifications"; "rosterSearchQuery";
   "rosterRoleFilters"; "isGridVisible"; "playbookCategories";
   "isFormationStrengthVisible"; "isLoadingOppositionReport"; "oppositionReport";
   "advancedRosterFilters"; "isSimulatingMatch"; "simulationTimeline";
   "isLoadingPostMatchReport"; "postMatchReport"; "isLoadingPressConference";
   "pressConferenceData"; "isLoadingAISubSuggestion"; "aiSubSuggestionData";
   "isScoutingPlayer"; "scoutedPlayerId"; "scoutReport"; "isLoadingConversation";
   "playerConversationData"].

Definition transientFranchiseKeys : list string := ["negotiationData"; "lastMatchResult"].

(** [keys.forEach(key => delete obj[key])] *)
Definition deleteKeys (ks : list string) (o : gmap string jval) : gmap string jval :=
  fold_left (fun acc k => delete k acc) ks o.

(** The live positions of the roster, keyed by player id:
    [players.reduce((acc, p) => { acc[p.id] = p.position; return acc }, {})]. *)
Definition livePositions (ps : list Player) : gmap string Position :=
  reduce_into player_id position ps.

Definition bakeStep (t : TacticsState) (st : PlaybookStep) : PlaybookStep :=
  mkStep (step_id st) (livePositions (players t)) (tactics_drawings t) (event st)
    (playerRuns st) (ballPath st).

(** [list[i] = x] inside an immer draft, for an index in range. *)
Definition updateNth {A} (i : nat) (f : A -> A) (l : list A) : list A :=
  alter f i l.

(** Step (a): bake the live positions and drawings into the active step. *)
Definition bakeActiveStep (s : RootState) : TacticsState :=
  let t := tactics s in
  match activePlaybookItemId (ui s), activeStepIndex (ui s) with
  | Some id, Some idx =>
      if truthy (Some id) then
        match playbook t !! id with
        | Some item =>
            if 0 <=? idx then
              match steps item !! Z.to_nat idx with
              | Some _ =>
                  set_playbook
                    (<[id := mkItem (item_id item) (item_name item) (category item)
                               (item_formationId item)
                               (updateNth (Z.to_nat idx) (bakeStep t) (steps item))]>
                     (playbook t)) t
              | None => t
              end
            else t
        | None => t
        end
      else t
  | _, _ => t
  end.

(** The franchise subtree as a JSON object. *)
Definition enc_mentoring (g : MentoringGroup) : jval :=
  JObj [("mentorId", JStr (mentorId g)); ("menteeIds", JArr (map JStr (menteeIds g)))].

Definition franchise_object (f : FranchiseState) : gmap string jval :=
  <["mentoringGroups" := JObj [("home", JArr (map enc_mentoring (at_home (mentoringGroups f))));
                               ("away", JArr (map enc_mentoring (at_away (mentoringGroups f))))]]>
  (<["relationships" := JObj (map (fun '(a, m) =>
        (a, JObj (map (fun '(b, r) => (b, JStr (match r with friendship => "friendship"
                                                            | rivalry => "rivalry" end)))
                    (map_to_list m)))) (map_to_list (relationships f)))]>
   (franchise_rest f)).

(** The snapshot written to storage: the root state without [auth], with
    [version]. *)
Record Snapshot := mkSnapshot {
  snap_tactics : TacticsState;
  snap_franchise : gmap string jval;
  snap_ui : gmap string jval;
  version : option string;
}.

Definition cleanStateForSaving (s : RootState) : Snapshot :=
  mkSnapshot (bakeActiveStep s)
    (deleteKeys transientFranchiseKeys (franchise_object (franchise s)))
    (deleteKeys transientUIKeys (ui_object (ui s)))
    (Some APP_VERSION).

(** ** Decoding, and what [LOAD_STATE] does with a snapshot *)

Definition dec_str (v : jval) : option string :=
  match v with JStr s => Some s | _ => None end.
Definition dec_bool (v : jval) : option bool :=
  match v with JBool b => Some b | _ => None end.
Definition dec_num (v : jval) : option Z :=
  match v with JNum n => Some n | _ => None end.

(** [null] decodes to [None]; any other value through [f]. *)
Definition dec_opt {A} (f : jval -> option A) (v : jval) : option (option A) :=
  match v with JNull => Some None | _ => Some <$> f v end.

(** A field read off a parsed object. *)
Definition dec_key {A} (k : string) (dec : jval -> option A) (l : list (string * jval)) : option A :=
  jlookup k l ≫= dec.

Definition dec_pos (v : jval) : option Position :=
  match v with
  | JObj l => x ← dec_key "x" dec_num l; y ← dec_key "y" dec_num l; Some (mkPos x y)
  | _ => None
  end.

Definition dec_teamView (v : jval) : option TeamView :=
  dec_str v ≫= fun s =>
    if String.eqb s "home" then Some view_home
    else if String.eqb s "away" then Some view_away
    else if String.eqb s "both" then Some view_both else None.

Definition allModals : list ModalType :=
  [editPlayer; comparePlayer; slotActionMenu; chat; customFormationEditor;
   loadProject; matchSimulator; postMatchReport; contractNegotiation;
   pressConference; aiSubSuggestion; playerConversation; interactiveTutorial;
   scouting; sponsorships; teamTalk; seasonEndSummary; playbookLibrary].

Definition dec_modal (v : jval) : option ModalType :=
  dec_str v ≫= fun s => List.find (fun m => String.eqb (modalName m) s) allModals.

Definition dec_tool (v : jval) : option DrawingTool :=
  dec_str v ≫= fun s =>
    List.find (fun t => String.eqb (toolName t) s) [select; arrow; zone; pen; line; text].

Definition dec_mode (v : jval) : option PositioningMode :=
  dec_str v ≫= fun s => List.find (fun m => String.eqb (modeName m) s) [free; snap].

Definition dec_trigger (v : jval) : option SlotActionMenuTrigger :=
  dec_str v ≫= fun s =>
    if String.eqb s "click" then Some click else if String.eqb s "drag" then Some drag else None.

Definition dec_menu (v : jval) : option SlotActionMenuData :=
  match v with
  | JObj l =>
      src ← dec_key "sourcePlayerId" dec_str l; sl ← dec_key "targetSlotId" dec_str l;
      (* [targetPlayerId?: string | null]: a missing key reads [undefined] *)
      tg ← (match jlookup "targetPlayerId" l with Some c => dec_opt dec_str c | None => Some None end);
      tr ← dec_key "trigger" dec_trigger l; p ← dec_key "position" dec_pos l;
      Some (mkMenu src sl tg tr p)
  | _ => None
  end.

Definition dec_list {A} (f : jval -> option A) (v : jval) : option (list A) :=
  match v with JArr l => mapM f l | _ => None end.

Definition dec_trail (v : jval) : option AnimationTrail :=
  match v with
  | JObj l =>
      pid ← dec_key "playerId" dec_str l; pts ← dec_key "points" (dec_list dec_pos) l;
      col ← dec_key "color" dec_str l; Some (mkTrail pid pts col)
  | _ => None
  end.

(** The value of key [k], decoded, or the default when the key is missing
    or its value does not decode. *)
Definition dec_field {A} (o : gmap string jval) (k : string)
    (dec : jval -> option A) (d : A) : A :=
  (o !! k ≫= dec) ?? d.

Definition ui_of_object (o : gmap string jval) (d : UIState) : UIState :=
  mkUI (dec_field o "activeTeamContext" dec_teamView (activeTeamContext d))
    (dec_field o "activeModal" (dec_opt dec_modal) (activeModal d))
    (dec_field o "slotActionMenuData" (dec_opt dec_menu) (slotActionMenuData d))
    (dec_field o "selectedPlayerId" (dec_opt dec_str) (selectedPlayerId d))
    (dec_field o "drawingTool" dec_tool (drawingTool d))
    (dec_field o "positioningMode" dec_mode (positioningMode d))
    (dec_field o "activePlaybookItemId" (dec_opt dec_str) (activePlaybookItemId d))
    (dec_field o "activeStepIndex" (dec_opt dec_num) (activeStepIndex d))
    (dec_field o "isAnimating" dec_bool (isAnimating d))
    (dec_field o "isPaused" dec_bool (isPaused d))
    (dec_field o "animationTrails" (dec_opt (dec_list dec_trail)) (animationTrails d))
    (dec_field o "isPresentationMode" dec_bool (isPresentationMode d))
    (dec_field o "activeSaveSlotId" (dec_opt dec_str) (activeSaveSlotId d))
    (filter (fun kv => kv.1 ∉ typedUIKeys) o).

Definition dec_mentoring (v : jval) : option MentoringGroup :=
  match v with
  | JObj l =>
      m ← dec_key "mentorId" dec_str l; ms ← dec_key "menteeIds" (dec_list dec_str) l;
      Some (mkMentoring m ms)
  | _ => None
  end.

Definition dec_groups (v : jval) : option (PerTeam (list MentoringGroup)) :=
  match v with
  | JObj l =>
      gh ← dec_key "home" (dec_list dec_mentoring) l; ga ← dec_key "away" (dec_list dec_mentoring) l;
      Some (mkPerTeam gh ga)
  | _ => None
  end.

(** A JSON object whose values all decode, as a map. *)
Definition dec_dict {A} (f : jval -> option A) (v : jval) : option (gmap string A) :=
  match v with
  | JObj kvs => list_to_map <$> mapM (fun '(k, x) => y ← f x; Some (k, y)) kvs
  | _ => None
  end.

Definition dec_relType (v : jval) : option PlayerRelationshipType :=
  dec_str v ≫= fun s =>
    if String.eqb s "friendship" then Some friendship
    else if String.eqb s "rivalry" then Some rivalry else None.

Definition dec_relationships : jval -> option (gmap string (gmap string PlayerRelationshipType)) :=
  dec_dict (dec_dict dec_relType).

Definition typedFranchiseKeys : list string := ["mentoringGroups"; "relationships"].

Definition franchise_of_object (o : gmap string jval) (d : FranchiseState) : FranchiseState :=
  mkFranchise (dec_field o "mentoringGroups" dec_groups (mentoringGroups d))
    (dec_field o "relationships" dec_relationships (relationships d))
    (filter (fun kv => kv.1 ∉ typedFranchiseKeys) o).

(** [LOAD_STATE]: the snapshot's keys over the initial state's; the
    session ([auth]) is kept. *)
Definition loadSnapshot (sn : Snapshot) (cur : RootState) : RootState :=
  mkRoot (auth cur) (snap_tactics sn)
    (franchise_of_object (snap_franchise sn ∪ franchise_object (franchise INITIAL_STATE))
       (franchise INITIAL_STATE))
    (ui_of_object (snap_ui sn ∪ ui_object INITIAL_ui) INITIAL_ui).

(** What a reload promises for the UI: the persisted fields as they were,
    the transient ones at their initial values, the keys outside the typed
    record as saved over the initial ones. *)
Definition reloadedUI (u : UIState) : UIState :=
  mkUI (activeTeamContext u) (activeModal INITIAL_ui) (slotActionMenuData INITIAL_ui)
    (selectedPlayerId u) (drawingTool u) (positioningMode u) (activePlaybookItemId u)
    (activeStepIndex u) (isAnimating INITIAL_ui) (isPaused u) (animationTrails INITIAL_ui)
    (isPresentationMode INITIAL_ui) (activeSaveSlotId u)
    (deleteKeys transientUIKeys (ui_rest u) ∪ ui_rest INITIAL_ui).

Definition reloadedFranchise (f : FranchiseState) : FranchiseState :=
  mkFranchise (mentoringGroups f) (relationships f)
    (deleteKeys transientFranchiseKeys (franchise_rest f) ∪ franchise_rest (franchise INITIAL_STATE)).

(** The catch-all maps hold no key of the typed fields. *)
Definition ui_wf (u : UIState) : Prop := Forall (fun k => ui_rest u !! k = None) typedUIKeys.
Definition franchise_wf (f : FranchiseState) : Prop :=
  Forall (fun k => franchise_rest f !! k = None) typedFranchiseKeys.

(** ** Storage and the two effects *)

(** [SaveSlot] of [types.ts]. *)
Record SaveSlotMeta := mkSlotMeta {
  saveSlot_id : string; slot_name : string; lastSaved : string; appVersion : string }.

Inductive StorageValue :=
| SV_snapshot (sn : Snapshot)
| SV_unparseable
| SV_slots (slots : gmap string SaveSlotMeta).

Abbreviation Storage := (gmap string StorageValue).

Inductive MountEffect := md_dispatch (a : RootState) | md_remove (key : string) | md_nothing.

(** The restore step of the mount effect (lines 59-69): a stored snapshot
    is loaded only when its version is the application's; any other stored
    object has no matching [version] and is removed; text that is not JSON
    makes [JSON.parse] throw, which the [catch] swallows. *)
Definition restoreSavedState (st : Storage) (cur : RootState) : MountEffect :=
  match st !! "astralTurfActiveState" with
  | Some (SV_snapshot sn) =>
      if decide (version sn = Some APP_VERSION)
      then md_dispatch (loadSnapshot sn cur)
      else md_remove "astralTurfActiveState"
  | Some (SV_slots _) => md_remove "astralTurfActiveState"
  | Some SV_unparseable => md_nothing
  | None => md_nothing
  end.

(** The save effect (lines 94-111), run after every state change.  The
    whole body is one [try]: when the save-slot index does not parse, the
    slot snapshot already written stays and the active snapshot is not
    written. *)
Definition persistState (now : string) (s : RootState) (st : Storage) : Storage :=
  let active := <["astralTurfActiveState" := SV_snapshot (cleanStateForSaving s)]> in
  match activeSaveSlotId (ui s) with
  | Some sid =>
      if truthy (Some sid) then
        let st' := <["astralTurfSave_" +:+ sid := SV_snapshot (cleanStateForSaving s)]> st in
        match st' !! "astralTurfSaveSlots" with
        | Some SV_unparseable => st'
        | Some (SV_slots slots) =>
            match slots !! sid with
            | Some meta =>
                active (<["astralTurfSaveSlots" :=
                   SV_slots (<[sid := mkSlotMeta (saveSlot_id meta) (slot_name meta) now
                                               (appVersion meta)]> slots)]> st')
            | None => active st'
            end
        | _ => active st'
        end
      else active st
  | None => active st
  end.

(** UI keys that section 4.6(b) of the specification calls transient
    (loading flags, AI result caches, filter text, a pending prompt) and
    that [transientUIKeys] does not list. *)
Definition unlistedTransientUIKeys : list string :=
  ["isLoadingNegotiation"; "isLoadingDevelopmentSummary"; "isLoadingTeamTalk";
   "aiInsight"; "developmentSummary"; "teamTalkData"; "transferMarketFilters";
   "pendingPromiseRequest"].

#[export] Instance ui_wf_dec u : Decision (ui_wf u) := _.
#[export] Instance franchise_wf_dec f : Decision (franchise_wf f) := _.

(** ** Scenarios *)

(** A session in the middle of an edit: a modal open, an animation
    running, a negotiation spinner on and a save slot active. *)
Definition editing_ui : UIState :=
  mkUI view_home (Some chat) None (Some "p1") arrow free None None true false None true
    (Some "slot1") (<["isLoadingNegotiation" := JBool true]> INITIAL_ui_rest).

Definition editing_state : RootState :=
  mkRoot INITIAL_auth INITIAL_tactics (franchise INITIAL_STATE) editing_ui.

(** Step 0 of the first library play active while the coach moves players. *)
Definition bake_item : PlaybookItem :=
  nth 0 DEFAULT_PLAYBOOK_LIBRARY (mkItem "" "" General "" []).

Definition bake_state : RootState :=
  mkRoot INITIAL_auth
    (set_playbook {[item_id bake_item := bake_item]} INITIAL_tactics)
    (franchise INITIAL_STATE)
    (mkUI view_home None None None select snap (Some (item_id bake_item)) (Some 0)
       false false None false None INITIAL_ui_rest).

(** A snapshot written by version 7.0.0 of the application. *)
Definition old_storage : Storage :=
  {["astralTurfActiveState" :=
      SV_snapshot (mkSnapshot INITIAL_tactics ∅ ∅ (Some "7.0.0"))]}.

(** ** Lemmas *)

Lemma deleteKeys_lookup ks o k :
  deleteKeys ks o !! k = if decide (k ∈ ks) then None else o !! k.
Proof.
  unfold deleteKeys. revert o. induction ks as [|k' ks IH]; intros o; cbn [fold_left].
  - rewrite decide_False; [done|set_solver].
  - rewrite IH. destruct (decide (k = k')) as [->|Hne].
    + rewrite lookup_delete_eq. repeat case_decide; set_solver.
    + rewrite lookup_delete_ne by done. repeat case_decide; set_solver.
Qed.

(** Decoding inverts encoding. *)
Lemma dec_opt_enc {A} (f : jval -> option A) g o :
  (forall x, f (g x) = Some x) -> (forall x, g x <> JNull) -> dec_opt f (enc_opt g o) = Some o.
Proof.
  intros Hfg Hg. destruct o as [x|]; [|done]. cbn [enc_opt].
  specialize (Hfg x). specialize (Hg x). unfold dec_opt.
  destruct (g x); [done|..]; by rewrite Hfg.
Qed.

Lemma dec_pos_enc p : dec_pos (enc_pos p) = Some p.
Proof. by destruct p. Qed.

Lemma dec_list_enc {A} (f : jval -> option A) g l :
  (forall x, f (g x) = Some x) -> dec_list f (JArr (map g l)) = Some l.
Proof.
  intros Hfg. simpl. induction l as [|x l IH]; [done|]. simpl. rewrite Hfg, IH. done.
Qed.

Lemma dec_menu_enc d : dec_menu (enc_menu d) = Some d.
Proof. destruct d as [a b [c|] [] [x y]]; reflexivity. Qed.

Lemma dec_modal_enc m : dec_modal (JStr (modalName m)) = Some m.
Proof. by destruct m. Qed.

Lemma dec_trail_enc t : dec_trail (enc_trail t) = Some t.
Proof.
  destruct t as [a pts c].
  change (dec_trail (enc_trail (mkTrail a pts c))) with
    (pid ← dec_str (JStr a); ps ← dec_list dec_pos (JArr (map enc_pos pts));
     col ← dec_str (JStr c); Some (mkTrail pid ps col)).
  rewrite (dec_list_enc dec_pos enc_pos pts dec_pos_enc). done.
Qed.

Lemma dec_dict_enc {A} (f : jval -> option A) g (M : gmap string A) :
  (forall x, f (g x) = Some x) ->
  dec_dict f (JObj (map (fun '(a, x) => (a, g x)) (map_to_list M))) = Some M.
Proof.
  intros Hfg. unfold dec_dict.
  assert (forall l : list (string * A),
    mapM (fun '(k, x) => y ← f x; Some (k, y)) (map (fun '(a, x) => (a, g x)) l) = Some l) as Hl.
  { induction l as [|[a x] l IH]; [done|]. simpl. rewrite Hfg. simpl. rewrite IH. done. }
  rewrite Hl. simpl. rewrite list_to_map_to_list. done.
Qed.

Lemma dec_groups_enc (g : PerTeam (list MentoringGroup)) :
  dec_groups (JObj [("home", JArr (map enc_mentoring (at_home g)));
                    ("away", JArr (map enc_mentoring (at_away g)))]) = Some g.
Proof.
  assert (forall m, dec_mentoring (enc_mentoring m) = Some m) as Hm.
  { intros [a ms].
    change (dec_mentoring (enc_mentoring (mkMentoring a ms))) with
      (m ← dec_str (JStr a); ms' ← dec_list dec_str (JArr (map JStr ms)); Some (mkMentoring m ms')).
    by rewrite (dec_list_enc dec_str JStr ms). }
  destruct g as [h a].
  change (dec_groups _) with
    (gh ← dec_list dec_mentoring (JArr (map enc_mentoring h));
     ga ← dec_list dec_mentoring (JArr (map enc_mentoring a)); Some (mkPerTeam gh ga)).
  rewrite !(dec_list_enc dec_mentoring enc_mentoring _ Hm). done.
Qed.

Lemma dec_relationships_enc rel :
  dec_relationships (JObj (map (fun '(a, m) =>
        (a, JObj (map (fun '(b, r) => (b, JStr (match r with friendship => "friendship"
                                                            | rivalry => "rivalry" end)))
                    (map_to_list m)))) (map_to_list rel))) = Some rel.
Proof.
  apply (dec_dict_enc _ (fun m => JObj (map (fun '(b, r) => (b, JStr (match r with
      friendship => "friendship" | rivalry => "rivalry" end))) (map_to_list m)))).
  intros m. apply (dec_dict_enc dec_relType (fun r => JStr (match r with
      friendship => "friendship" | rivalry => "rivalry" end))).
  by intros [].
Qed.

(** Reading a key of [deleteKeys T O ∪ D]: a key outside [T] comes from
    the snapshot, a key in [T] from the defaults. *)
Section Fields.
Context (T : list string) (O D : gmap string jval).

Lemma dec_field_kept {A} k (dec : jval -> option A) d v x :
  k ∉ T -> O !! k = Some v -> dec v = Some x -> dec_field (deleteKeys T O ∪ D) k dec d = x.
Proof.
  intros HT HO Hd. unfold dec_field.
  rewrite (lookup_union_Some_l _ _ _ v); [simpl; by rewrite Hd|].
  rewrite deleteKeys_lookup, decide_False; done.
Qed.

Lemma dec_field_reset {A} k (dec : jval -> option A) d v x :
  k ∈ T -> D !! k = Some v -> dec v = Some x -> dec_field (deleteKeys T O ∪ D) k dec d = x.
Proof.
  intros HT HD Hd. unfold dec_field.
  rewrite lookup_union, deleteKeys_lookup, decide_True, HD by done. simpl. rewrite Hd. done.
Qed.

(** The keys outside the typed fields [K]: saved ones over the defaults. *)
Lemma rest_roundtrip K (R RD : gmap string jval) :
  (forall k, k ∉ K -> O !! k = R !! k) -> (forall k, k ∉ K -> D !! k = RD !! k) ->
  Forall (fun k => R !! k = None) K -> Forall (fun k => RD !! k = None) K ->
  filter (fun kv => kv.1 ∉ K) (deleteKeys T O ∪ D) = deleteKeys T R ∪ RD.
Proof.
  intros HO HD HR HRD. apply map_eq. intros k.
  rewrite map_lookup_filter, !lookup_union, !deleteKeys_lookup.
  destruct (decide (k ∈ K)) as [HK|HK].
  - rewrite Forall_forall in HR, HRD. rewrite (HR k HK), (HRD k HK).
    destruct (decide (k ∈ T)), (O !! k), (D !! k); simpl; try done;
      case_guard; naive_solver.
  - rewrite HO, HD by done.
    destruct (decide (k ∈ T)), (R !! k), (RD !! k); simpl; try done;
      case_guard; naive_solver.
Qed.
End Fields.

Lemma ui_object_rest u k : k ∉ typedUIKeys -> ui_object u !! k = ui_rest u !! k.
Proof.
  intros Hk. unfold typedUIKeys in Hk. rewrite !not_elem_of_cons in Hk.
  unfold ui_object. destruct_and!. rewrite !lookup_insert_ne by congruence. done.
Qed.

Lemma franchise_object_rest f k :
  k ∉ typedFranchiseKeys -> franchise_object f !! k = franchise_rest f !! k.
Proof.
  intros Hk. unfold typedFranchiseKeys in Hk. rewrite !not_elem_of_cons in Hk.
  unfold franchise_object. destruct_and!. rewrite !lookup_insert_ne by congruence. done.
Qed.

Ltac dec_solve :=
  first
    [ reflexivity
    | match goal with |- _ (_ (?f ?u)) = Some (?f ?u) => destruct (f u); reflexivity end
    | match goal with |- _ (JStr (_ (?f ?u))) = Some (?f ?u) => destruct (f u); reflexivity end
    | apply dec_opt_enc; [| intros; discriminate];
      first [ intros; reflexivity | exact dec_modal_enc | exact dec_menu_enc
            | intros; apply dec_list_enc, dec_trail_enc ] ].

(** One typed field through [deleteKeys] and the defaults. *)
Ltac field_roundtrip obj :=
  first [ eapply dec_field_kept; [decide_key|..] | eapply dec_field_reset; [decide_key|..] ];
  [ unfold obj; simplify_map_eq; reflexivity | dec_solve ].

Lemma ui_of_clean s cur :
  ui_wf (ui s) -> ui (loadSnapshot (cleanStateForSaving s) cur) = reloadedUI (ui s).
Proof.
  intros Hwf. unfold loadSnapshot, cleanStateForSaving. cbn [ui snap_ui].
  unfold ui_of_object, reloadedUI. f_equal; try field_roundtrip ui_object.
  apply rest_roundtrip; [apply ui_object_rest | apply ui_object_rest | exact Hwf | decide_key].
Qed.

Lemma franchise_of_clean s cur :
  franchise_wf (franchise s) ->
  franchise (loadSnapshot (cleanStateForSaving s) cur) = reloadedFranchise (franchise s).
Proof.
  intros Hwf. unfold loadSnapshot, cleanStateForSaving. cbn [franchise snap_franchise].
  unfold franchise_of_object, reloadedFranchise. f_equal.
  - eapply dec_field_kept; [decide_key | unfold franchise_object; simplify_map_eq; reflexivity |].
    apply dec_groups_enc.
  - eapply dec_field_kept; [decide_key | unfold franchise_object; simplify_map_eq; reflexivity |].
    apply dec_relationships_enc.
  - apply rest_roundtrip;
      [apply franchise_object_rest | apply franchise_object_rest | exact Hwf | decide_key].
Qed.

Lemma livePositions_lookup ps p :
  NoDup (map player_id ps) -> p ∈ ps -> livePositions ps !! player_id p = Some (position p).
Proof. apply fold_insert_lookup_in. Qed.

Lemma save_keys_ne sid : "astralTurfSave_" +:+ sid <> "astralTurfSaveSlots" /\
  "astralTurfSave_" +:+ sid <> "astralTurfActiveState".
Proof. split; simpl; discriminate. Qed.

(** The save effect writes the active snapshot unless the slot index it
    reads does not parse. *)
Lemma persist_active now s st :
  (forall sid, activeSaveSlotId (ui s) = Some sid -> sid <> "" ->
     st !! "astralTurfSaveSlots" <> Some SV_unparseable) ->
  persistState now s st !! "astralTurfActiveState" = Some (SV_snapshot (cleanStateForSaving s)).
Proof.
  intros Hok. unfold persistState; cbv beta zeta.
  destruct (activeSaveSlotId (ui s)) as [sid|] eqn:Hsid; [|apply lookup_insert_eq].
  destruct (truthy (Some sid)) eqn:Ht; [|apply lookup_insert_eq].
  apply truthy_Some in Ht as (? & [= <-] & Hne).
  destruct (save_keys_ne sid) as [H1 H2].
  rewrite lookup_insert_ne by done.
  specialize (Hok sid eq_refl Hne).
  destruct (st !! "astralTurfSaveSlots") as [[| |slots]|]; try apply lookup_insert_eq; [done|].
  destruct (slots !! sid); apply lookup_insert_eq.
Qed.

(** ** Theorems *)

(** C4: Snapshot round trip.  Loading the snapshot [cleanStateForSaving]
    writes gives back the tactics with the active step baked, the franchise
    with its transient keys reset, and the UI with every persisted field as
    it was and every transient field at its initial value; the session of
    the running application is kept. *)
Theorem load_clean_roundtrip s cur :
  ui_wf (ui s) -> franchise_wf (franchise s) ->
  loadSnapshot (cleanStateForSaving s) cur =
  mkRoot (auth cur) (bakeActiveStep s) (reloadedFranchise (franchise s)) (reloadedUI (ui s)).
Proof.
  intros Hu Hf. rewrite <- (ui_of_clean s cur Hu), <- (franchise_of_clean s cur Hf). done.
Qed.

(** C7: Baking.  When a playbook item and an existing step are active, the
    reloaded state holds at that step the position every player of the
    roster had at save time (player ids unique) and the live drawings; the
    step keeps its id. *)
Theorem reload_bakes_live_positions s cur id idx item st p :
  activePlaybookItemId (ui s) = Some id -> id <> "" ->
  activeStepIndex (ui s) = Some idx -> 0 <= idx ->
  playbook (tactics s) !! id = Some item -> steps item !! Z.to_nat idx = Some st ->
  NoDup (map player_id (players (tactics s))) -> p ∈ players (tactics s) ->
  exists st',
    (playbook (tactics (loadSnapshot (cleanStateForSaving s) cur)) !! id
       ≫= fun it => steps it !! Z.to_nat idx) = Some st' /\
    playerPositions st' !! player_id p = Some (position p) /\
    step_drawings st' = tactics_drawings (tactics s) /\ step_id st' = step_id st.
Proof.
  intros Hid Hne Hidx Hle Hitem Hst Hnd Hp.
  cbn [loadSnapshot cleanStateForSaving tactics snap_tactics].
  unfold bakeActiveStep. rewrite Hid, Hidx, truthy_nonempty, Hitem by done.
  rewrite (proj2 (Z.leb_le 0 idx) Hle), Hst.
  cbn [playbook set_playbook]. rewrite lookup_insert_eq. simpl.
  unfold updateNth. rewrite list_lookup_alter, Hst, decide_True by done. simpl.
  eexists; split; [reflexivity|]. simpl.
  split; [by apply livePositions_lookup|]. done.
Qed.

(** C8: Version check.  A stored active snapshot whose version is not the
    application's is removed and nothing is loaded. *)
Theorem restore_version_mismatch st cur sn :
  st !! "astralTurfActiveState" = Some (SV_snapshot sn) -> version sn <> Some APP_VERSION ->
  restoreSavedState st cur = md_remove "astralTurfActiveState".
Proof.
  intros Hst Hv. unfold restoreSavedState. rewrite Hst, decide_False; done.
Qed.

(** C9: Save, then restore.  After the save effect has run on a state, the
    mount effect of the next session loads exactly the snapshot of that
    state, provided the save-slot index parses. *)
Theorem save_then_restore now s st cur :
  (forall sid, activeSaveSlotId (ui s) = Some sid -> sid <> "" ->
     st !! "astralTurfSaveSlots" <> Some SV_unparseable) ->
  restoreSavedState (persistState now s st) cur =
  md_dispatch (loadSnapshot (cleanStateForSaving s) cur).
Proof.
  intros Hok. unfold restoreSavedState. rewrite persist_active by done.
  rewrite decide_True; done.
Qed.

(** C29: A save slot is active and the slot index in storage does not
    parse: the save effect throws after writing the slot and before writing
    the active snapshot, so the active snapshot stays what it was. *)
Theorem corrupt_slot_index_blocks_autosave now s st sid :
  activeSaveSlotId (ui s) = Some sid -> sid <> "" ->
  st !! "astralTurfSaveSlots" = Some SV_unparseable ->
  persistState now s st !! "astralTurfActiveState" = st !! "astralTurfActiveState".
Proof.
  intros Hsid Hne Hbad. unfold persistState; cbv beta zeta. rewrite Hsid, truthy_nonempty by done.
  destruct (save_keys_ne sid) as [H1 H2].
  rewrite lookup_insert_ne, Hbad by done. by rewrite lookup_insert_ne.
Qed.

(** C28: Loading flags, AI caches and filter text that the specification
    calls transient are not in [transientUIKeys]: a value they hold at save
    time is there again after a reload (a spinner left on stays on). *)
Theorem reload_keeps_unlisted_transient s cur k v :
  ui_wf (ui s) -> k ∈ unlistedTransientUIKeys -> ui_rest (ui s) !! k = Some v ->
  ui_rest (ui (loadSnapshot (cleanStateForSaving s) cur)) !! k = Some v.
Proof.
  intros Hwf Hk Hv. rewrite ui_of_clean by done. unfold reloadedUI. cbn [ui_rest].
  rewrite lookup_union, deleteKeys_lookup, decide_False, Hv; [by destruct (ui_rest INITIAL_ui !! k)|].
  unfold unlistedTransientUIKeys in Hk.
  repeat (apply elem_of_cons in Hk as [-> | Hk]; [decide_key|]).
  by apply not_elem_of_nil in Hk.
Qed.

(** ** Witnesses *)

Lemma load_clean_roundtrip_witness :
  loadSnapshot (cleanStateForSaving editing_state) INITIAL_STATE =
  mkRoot INITIAL_auth (bakeActiveStep editing_state)
    (reloadedFranchise (franchise editing_state)) (reloadedUI editing_ui).
Proof. apply load_clean_roundtrip; decide_key. Defined.

Lemma reload_bakes_live_positions_witness :
  exists st',
    (playbook (tactics (loadSnapshot (cleanStateForSaving bake_state) INITIAL_STATE))
       !! item_id bake_item ≫= fun it => steps it !! 0%nat) = Some st' /\
    playerPositions st' !! "p1" = Some (mkPos 8 50) /\
    step_drawings st' = [] /\ step_id st' = "s1".
Proof.
  exact (reload_bakes_live_positions bake_state INITIAL_STATE (item_id bake_item) 0 bake_item
           (nth 0 (steps bake_item) (mkStep "" ∅ [] None [] None))
           (nth 0 defaultPlayers (mkPlayer "" 0 "" home (mkPos 0 0) Available Good 0))
           eq_refl ltac:(vm_compute; discriminate) eq_refl ltac:(lia) eq_refl eq_refl
           ltac:(decide_key) (list_elem_of_lookup_2 defaultPlayers 0 _ eq_refl)).
Defined.

Lemma restore_version_mismatch_witness :
  restoreSavedState old_storage INITIAL_STATE = md_remove "astralTurfActiveState".
Proof.
  apply (restore_version_mismatch old_storage INITIAL_STATE
           (mkSnapshot INITIAL_tactics ∅ ∅ (Some "7.0.0"))); [reflexivity | discriminate].
Defined.

Lemma save_then_restore_witness :
  restoreSavedState (persistState "2026-01-01T00:00:00.000Z" editing_state ∅) INITIAL_STATE =
  md_dispatch (loadSnapshot (cleanStateForSaving editing_state) INITIAL_STATE).
Proof.
  apply save_then_restore. intros sid _ _. discriminate.
Defined.

Lemma corrupt_slot_index_blocks_autosave_witness :
  persistState "2026-01-01T00:00:00.000Z" editing_state
    (<["astralTurfSaveSlots" := SV_unparseable]> old_storage) !! "astralTurfActiveState" =
  Some (SV_snapshot (mkSnapshot INITIAL_tactics ∅ ∅ (Some "7.0.0"))).
Proof.
  rewrite (corrupt_slot_index_blocks_autosave _ _ _ "slot1");
    [reflexivity | reflexivity | discriminate | reflexivity].
Defined.

Lemma reload_keeps_unlisted_transient_witness :
  ui_rest (ui (loadSnapshot (cleanStateForSaving editing_state) INITIAL_STATE))
    !! "isLoadingNegotiation" = Some (JBool true).
Proof.
  apply reload_keeps_unlisted_transient; [decide_key | decide_key | reflexivity].
Defined.
