(* ===== verification/Schema.v ===== *)
(** * Schema: the declared types of [src/types.ts] as a judgement on JSON

    The UI subtree is written to storage with [JSON.stringify] and read
    back with [JSON.parse] and a cast ([savedState as RootState],
    [src/context/AppContext.tsx] line 64).  The interfaces of
    [src/types.ts] that the UI state refers to are given here as terms of a
    small TS type syntax [tstype]: primitive types, string literals, unions,
    arrays, [Record<string, T>] and object types with optional fields.
    [has_type j t] is the meaning of a type (after qcert's [data_type]);
    [typecheck] decides it, and an object kept as a map is typed field by
    field ([obj_has_type]).  The lemmas prove the checker correct, type
    what the model's encoder writes, and show that each decoder reads every
    value of its declared type; [League] uses the judgement for the season. *)

From S2P Require Import Prelude Geometry Domain Persistence.

(** ** Types and their meaning *)

Inductive tstype :=
| TString | TNumber | TBoolean | TNull
| TLit (s : string)
| TUnion (ts : list tstype)
| TArray (t : tstype)
| TRecord (t : tstype)
(** a field is its key, whether it is optional ([k?: T]), and its type *)
| TObject (fs : list (string * bool * tstype)).

Definition tsfield : Type := string * bool * tstype.

Inductive has_type : jval -> tstype -> Prop :=
| ht_string s : has_type (JStr s) TString
| ht_number n : has_type (JNum n) TNumber
| ht_boolean b : has_type (JBool b) TBoolean
| ht_null : has_type JNull TNull
| ht_lit s : has_type (JStr s) (TLit s)
| ht_union j t ts : In t ts -> has_type j t -> has_type j (TUnion ts)
| ht_array l t : Forall (fun j => has_type j t) l -> has_type (JArr l) (TArray t)
| ht_record l t : Forall (fun kv => has_type kv.2 t) l -> has_type (JObj l) (TRecord t)
| ht_object l fs : Forall (field_type l) fs -> has_type (JObj l) (TObject fs)
(** a field of an object: present with a value of its type, or absent and optional *)
with field_type : list (string * jval) -> tsfield -> Prop :=
| ft_present l k o t v : jlookup k l = Some v -> has_type v t -> field_type l (k, o, t)
| ft_absent l k t : jlookup k l = None -> field_type l (k, true, t).

(** The checker. *)
Fixpoint typecheck (t : tstype) (j : jval) {struct t} : bool :=
  match t with
  | TString => if j is JStr _ then true else false
  | TNumber => if j is JNum _ then true else false
  | TBoolean => if j is JBool _ then true else false
  | TNull => if j is JNull then true else false
  | TLit s => if j is JStr s' then String.eqb s' s else false
  | TUnion ts => existsb (fun t' => typecheck t' j) ts
  | TArray t' => if j is JArr l then forallb (typecheck t') l else false
  | TRecord t' => if j is JObj l then forallb (fun kv => typecheck t' kv.2) l else false
  | TObject fs =>
      if j is JObj l then
        forallb (fun f => match jlookup f.1.1 l with
                          | Some v => typecheck f.2 v
                          | None => f.1.2
                          end) fs
      else false
  end.

(** A JSON object kept as a map, typed field by field. *)
Definition field_ok (o : gmap string jval) (f : tsfield) : Prop :=
  match o !! f.1.1 with Some v => has_type v f.2 | None => f.1.2 = true end.

Definition obj_has_type (o : gmap string jval) (fs : list tsfield) : Prop :=
  Forall (field_ok o) fs.

Definition obj_typecheck (o : gmap string jval) (fs : list tsfield) : bool :=
  forallb (fun f => match o !! f.1.1 with
                    | Some v => typecheck f.2 v
                    | None => f.1.2
                    end) fs.

(** [Omit<T, K>] *)
Definition omit (ks : list string) (fs : list tsfield) : list tsfield :=
  filter (fun f => f.1.1 ∉ ks) fs.

(** A decoder reads every value of a type. *)
Definition decodes {A} (t : tstype) (dec : jval -> option A) : Prop :=
  forall v, has_type v t -> is_Some (dec v).

Definition nullable (t : tstype) : tstype := TUnion [t; TNull].
Definition lits (ss : list string) : tstype := TUnion (map TLit ss).
Definition req (k : string) (t : tstype) : tsfield := (k, false, t).
Definition opt (k : string) (t : tstype) : tsfield := (k, true, t).
Definition XY_t : tstype := TObject [req "x" TNumber; req "y" TNumber].
Definition MinMax_t : tstype := TObject [req "min" TNumber; req "max" TNumber].

(** ** The interfaces of [src/types.ts] the UI state refers to *)

Definition PlayerAttributes_keys : list string :=
  ["speed"; "passing"; "tackling"; "shooting"; "dribbling"; "positioning"; "stamina"].
Definition PositionRole_t : tstype := lits ["GK"; "DF"; "MF"; "FW"].
Definition Team_t : tstype := lits ["home"; "away"].
Definition TeamView_t : tstype := TUnion [Team_t; TLit "both"].
Definition PlayerAvailabilityStatus_t : tstype :=
  lits ["Available"; "Minor Injury"; "Major Injury"; "Suspended"; "International Duty"].

Definition ChatMessage_t : tstype :=
  TObject [req "id" TString; req "sender" (lits ["user"; "ai"]); req "text" TString].

Definition AIInsight_t : tstype :=
  TObject [req "advantages" TString; req "vulnerabilities" TString; req "recommendation" TString].
Definition AIComparison_t : tstype :=
  TObject [req "comparison" TString; req "recommendation" TString].
Definition AISuggestedFormation_t : tstype :=
  TObject [req "formationName" TString; req "playerIds" (TArray TString); req "reasoning" TString].
Definition TeamTalkOption_t : tstype :=
  TObject [req "tone" TString; req "message" TString; req "moraleEffect" TNumber].
Definition AITeamTalkResponse_t : tstype := TObject [req "options" (TArray TeamTalkOption_t)].
Definition AIOppositionReport_t : tstype :=
  TObject [req "keyPlayers" TString; req "tacticalApproach" TString; req "weaknesses" TString].
Definition AISubstitutionSuggestion_t : tstype :=
  TObject [req "playerOutId" TString; req "playerInId" TString; req "reasoning" TString].
Definition AIPostMatchAnalysis_t : tstype :=
  TObject [req "summary" TString; req "keyMoment" TString; req "advice" TString].
Definition AIPressConferenceResponse_t : tstype :=
  TObject [req "question" TString;
           req "options" (TArray (TObject [req "text" TString; req "outcome" TString;
                                           req "fanConfidenceEffect" TNumber;
                                           req "teamMoraleEffect" TNumber]));
           opt "narrativeId" TString].
Definition AIDevelopmentSummary_t : tstype :=
  TObject [req "summary" TString; req "strengths" (TArray TString);
           req "areasForImprovement" (TArray TString)].
Definition AIScoutReport_t : tstype :=
  TObject [req "strengths" (TArray TString); req "weaknesses" (TArray TString);
           req "summary" TString; req "potentialFit" TString; req "estimatedValue" TNumber].

Definition SlotActionMenuTrigger_t : tstype := lits ["click"; "drag"].
Definition SlotActionMenuData_t : tstype :=
  TObject [req "sourcePlayerId" TString; req "targetSlotId" TString;
           opt "targetPlayerId" (nullable TString); req "trigger" SlotActionMenuTrigger_t;
           req "position" XY_t].
Definition DrawingTool_t : tstype := lits ["select"; "arrow"; "zone"; "pen"; "line"; "text"].

Definition Notification_t : tstype :=
  TObject [req "id" TString; req "message" TString; req "type" (lits ["success"; "error"; "info"]);
           opt "duration" TNumber].
Definition TeamKitPattern_t : tstype := lits ["solid"; "stripes"; "hoops"].
Definition TeamKit_t : tstype :=
  TObject [req "primaryColor" TString; req "secondaryColor" TString; req "pattern" TeamKitPattern_t].
Definition AttributeFilter_t : tstype :=
  TObject [req "attribute" (lits PlayerAttributes_keys); req "condition" (lits ["gt"; "lt"]);
           req "value" TNumber].
Definition AdvancedRosterFilters_t : tstype :=
  TObject [req "age" MinMax_t; req "availability" (TArray PlayerAvailabilityStatus_t);
           req "attributes" (TArray AttributeFilter_t)].
Definition TransferMarketFilters_t : tstype :=
  TObject [req "name" TString; req "position" (TUnion [PositionRole_t; TLit "All"]);
           req "age" MinMax_t; req "potential" MinMax_t; req "price" MinMax_t].
Definition AppTheme_t : tstype := lits ["light"; "dark"].
Definition AIPersonality_t : tstype := lits ["balanced"; "cautious"; "attacking"; "data"].

Definition MatchEvent_t : tstype :=
  TObject [req "minute" TNumber; req "type" (lits ["Goal"; "Yellow Card"; "Red Card"; "Injury"]);
           req "team" Team_t; req "playerName" TString; req "description" TString;
           opt "injuryType" (lits ["Minor Injury"; "Major Injury"]); opt "assisterName" TString].
Definition MatchCommentary_t : tstype := TObject [req "minute" TNumber; req "text" TString].

Definition SaveSlot_t : tstype :=
  TObject [req "id" TString; req "name" TString; req "lastSaved" TString; req "appVersion" TString].

Definition ModalType_t : tstype :=
  lits ["editPlayer"; "comparePlayer"; "slotActionMenu"; "chat"; "customFormationEditor";
        "loadProject"; "matchSimulator"; "postMatchReport"; "contractNegotiation";
        "pressConference"; "aiSubSuggestion"; "playerConversation"; "interactiveTutorial";
        "scouting"; "sponsorships"; "teamTalk"; "seasonEndSummary"; "playbookLibrary"].

Definition PromiseRequest_t : tstype :=
  TObject [req "type" (lits ["playing_time"]); req "description" TString].

(** The element type of [animationTrails]. *)
Definition AnimationTrail_t : tstype :=
  TObject [req "playerId" TString; req "points" (TArray XY_t); req "color" TString].

(** [interface UIState], field by field in source order. *)
Definition UIState_fields : list tsfield := [
  req "theme" AppTheme_t; req "saveSlots" (TRecord SaveSlot_t);
  req "activeSaveSlotId" (nullable TString); req "isExportingLineup" TBoolean;
  req "teamKits" (TObject [req "home" TeamKit_t; req "away" TeamKit_t]);
  req "notifications" (TArray Notification_t); req "activeTeamContext" TeamView_t;
  req "activeModal" (TUnion [TNull; ModalType_t]);
  req "editingPlayerId" (nullable TString); req "playerToCompareId" (nullable TString);
  req "slotActionMenuData" (nullable SlotActionMenuData_t);
  req "tutorial" (TObject [req "isActive" TBoolean; req "step" TNumber]);
  req "playerConversationData" (nullable (TObject [req "playerId" TString]));
  req "drawingTool" DrawingTool_t; req "drawingColor" TString;
  req "isGridVisible" TBoolean; req "isFormationStrengthVisible" TBoolean;
  req "positioningMode" (lits ["free"; "snap"]);
  req "activePlaybookItemId" (nullable TString); req "activeStepIndex" (nullable TNumber);
  req "isAnimating" TBoolean; req "isPaused" TBoolean;
  req "playerInitialPositions" (nullable (TRecord XY_t));
  req "animationTrails" (nullable (TArray AnimationTrail_t));
  req "isPresentationMode" TBoolean;
  req "setPieceEditor" (TObject [req "isEditing" TBoolean;
                                 req "activeTool" (TUnion [lits ["player_run"; "ball_path"]; TNull]);
                                 req "selectedPlayerId" (nullable TString)]);
  req "rosterSearchQuery" TString; req "rosterRoleFilters" (TArray PositionRole_t);
  req "advancedRosterFilters" AdvancedRosterFilters_t;
  req "transferMarketFilters" TransferMarketFilters_t;
  req "playbookCategories" (TRecord TBoolean);
  req "settings" (TObject [req "aiPersonality" AIPersonality_t]);
  req "isLoadingAI" TBoolean; req "aiInsight" (nullable AIInsight_t);
  req "isComparingAI" TBoolean; req "aiComparisonResult" (nullable AIComparison_t);
  req "isSuggestingFormation" TBoolean; req "aiSuggestedFormation" (nullable AISuggestedFormation_t);
  req "chatHistory" (TArray ChatMessage_t); req "isChatProcessing" TBoolean;
  req "highlightedByAIPlayerIds" (TArray TString);
  req "isLoadingOppositionReport" TBoolean; req "oppositionReport" (nullable AIOppositionReport_t);
  req "isSimulatingMatch" TBoolean;
  req "simulationTimeline" (TArray (TUnion [MatchEvent_t; MatchCommentary_t]));
  req "isLoadingPostMatchReport" TBoolean; req "postMatchReport" (nullable AIPostMatchAnalysis_t);
  req "isLoadingPressConference" TBoolean;
  req "pressConferenceData" (nullable AIPressConferenceResponse_t);
  req "isLoadingNegotiation" TBoolean; req "isLoadingAISubSuggestion" TBoolean;
  req "aiSubSuggestionData" (nullable AISubstitutionSuggestion_t);
  req "isScoutingPlayer" TBoolean; req "scoutedPlayerId" (nullable TString);
  req "scoutReport" (nullable AIScoutReport_t); req "isLoadingConversation" TBoolean;
  req "selectedPlayerId" (nullable TString); req "isLoadingDevelopmentSummary" TBoolean;
  req "developmentSummary" (nullable AIDevelopmentSummary_t); req "isLoadingTeamTalk" TBoolean;
  req "teamTalkData" (nullable AITeamTalkResponse_t);
  req "pendingPromiseRequest" (nullable PromiseRequest_t)].

(** ** Induction on types nested in lists *)

Section tstype_ind.
Variable P : tstype -> Prop.
Hypothesis HString : P TString.
Hypothesis HNumber : P TNumber.
Hypothesis HBoolean : P TBoolean.
Hypothesis HNull : P TNull.
Hypothesis HLit : forall s, P (TLit s).
Hypothesis HUnion : forall ts, Forall P ts -> P (TUnion ts).
Hypothesis HArray : forall t, P t -> P (TArray t).
Hypothesis HRecord : forall t, P t -> P (TRecord t).
Hypothesis HObject : forall fs, Forall (fun f => P f.2) fs -> P (TObject fs).

Fixpoint tstype_ind' (t : tstype) : P t :=
  match t with
  | TString => HString
  | TNumber => HNumber
  | TBoolean => HBoolean
  | TNull => HNull
  | TLit s => HLit s
  | TUnion ts =>
      HUnion ts ((fix go (ts : list tstype) : Forall P ts :=
                    match ts with
                    | [] => Forall_nil_2 _
                    | t' :: ts' => Forall_cons_2 _ _ _ (tstype_ind' t') (go ts')
                    end) ts)
  | TArray t' => HArray t' (tstype_ind' t')
  | TRecord t' => HRecord t' (tstype_ind' t')
  | TObject fs =>
      HObject fs ((fix go (fs : list tsfield) : Forall (fun f => P f.2) fs :=
                     match fs with
                     | [] => Forall_nil_2 _
                     | f :: fs' => Forall_cons_2 _ _ _ (tstype_ind' f.2) (go fs')
                     end) fs)
  end.

End tstype_ind.

(** ** The checker decides the judgement *)

Definition reflects (t : tstype) : Prop := forall j, typecheck t j = true <-> has_type j t.

Lemma forallb_reflects {A} (f : A -> bool) (P : A -> Prop) l :
  (forall x, f x = true <-> P x) -> forallb f l = true <-> Forall P l.
Proof.
  intros Hf. rewrite forallb_forall, List.Forall_forall.
  split; intros H x Hx; apply Hf; auto.
Qed.

Lemma typecheck_fields l fs :
  Forall (fun f => reflects f.2) fs ->
  forallb (fun f => match jlookup f.1.1 l with
                    | Some v => typecheck f.2 v
                    | None => f.1.2
                    end) fs = true <-> Forall (field_type l) fs.
Proof.
  induction 1 as [|[[k o] t] fs Ht _ IH]; [done|].
  cbn [forallb]. rewrite andb_true_iff, Forall_cons, IH. cbn [fst snd] in *.
  split; intros [H1 H2]; split; try done.
  - destruct (jlookup k l) eqn:E; [econstructor; [done|by apply Ht]|].
    subst. by constructor.
  - inversion H1 as [? ? ? ? v Hl Hv|? ? ? Hl]; subst; rewrite Hl; [by apply Ht|done].
Qed.

Lemma typecheck_spec t : reflects t.
Proof.
  induction t as [| | | |s|ts IH|t IH|t IH|fs IH] using tstype_ind'; intros j.
  1-4: destruct j; split; intros H; try done; inversion H; constructor.
  - destruct j; split; intros H; try done; try by inversion H.
    + apply String.eqb_eq in H as ->. constructor.
    + inversion H. apply String.eqb_refl.
  - cbn [typecheck]. rewrite existsb_exists. rewrite List.Forall_forall in IH. split.
    + intros (t & Hin & Ht). econstructor; [done|]. by apply IH.
    + intros H. inversion H; subst. eexists; split; [done|]. by apply IH.
  - destruct j; cbn [typecheck]; split; intros H; try done; try by inversion H.
    + constructor. by apply (forallb_reflects _ _ _ IH).
    + inversion H; subst. by apply (forallb_reflects _ _ _ IH).
  - destruct j; cbn [typecheck]; split; intros H; try done; try by inversion H.
    + constructor. by apply (forallb_reflects _ (fun kv => has_type kv.2 t) _ (fun kv => IH kv.2)).
    + inversion H; subst. by apply (forallb_reflects _ (fun kv => has_type kv.2 t) _ (fun kv => IH kv.2)).
  - destruct j; cbn [typecheck]; split; intros H; try done; try by inversion H.
    + constructor. by apply typecheck_fields.
    + inversion H; subst. by apply typecheck_fields.
Qed.

Lemma obj_typecheck_spec o fs : obj_typecheck o fs = true <-> obj_has_type o fs.
Proof.
  apply forallb_reflects. intros [[k b] t]. unfold field_ok; cbn [fst snd].
  destruct (o !! k); [apply typecheck_spec|done].
Qed.

(** ** Typing of object maps *)

Lemma obj_has_type_split o fs ks :
  obj_has_type o fs <->
  obj_has_type o (filter (fun f => f.1.1 ∈ ks) fs) /\ obj_has_type o (omit ks fs).
Proof.
  unfold obj_has_type, omit. induction fs as [|f fs IH]; [naive_solver|].
  rewrite !filter_cons, Forall_cons, IH. repeat case_decide; rewrite ?Forall_cons; naive_solver.
Qed.

(** Two objects that agree on the keys of [fs] have the same typing. *)
Lemma obj_has_type_agree o o' fs :
  (forall f, f ∈ fs -> o !! f.1.1 = o' !! f.1.1) -> obj_has_type o fs -> obj_has_type o' fs.
Proof.
  intros Hag. unfold obj_has_type. rewrite !Forall_forall. intros H f Hf.
  unfold field_ok. rewrite <- Hag by done. by apply H.
Qed.

Lemma omit_elem ks fs f : f ∈ omit ks fs <-> (f.1.1 ∉ ks) /\ f ∈ fs.
Proof. unfold omit. by rewrite list_elem_of_filter. Qed.

(** ** The encoder writes every typed field at its declared type *)

Lemma forallb_map_true {A B} (f : B -> bool) (g : A -> B) l :
  (forall x, f (g x) = true) -> forallb f (map g l) = true.
Proof. intros H. induction l as [|x l IH]; [done|]. simpl. by rewrite H, IH. Qed.

Lemma enc_trail_typed tr : typecheck AnimationTrail_t (enc_trail tr) = true.
Proof.
  destruct tr as [pid pts c]. simpl. rewrite forallb_map_true; [done|]. by intros [].
Qed.

Ltac lookup_ui_object :=
  unfold ui_object;
  repeat first [rewrite lookup_insert_eq | rewrite lookup_insert_ne by discriminate].

Lemma ui_object_typed_keys u :
  obj_has_type (ui_object u) (filter (fun f => f.1.1 ∈ typedUIKeys) UIState_fields).
Proof.
  unfold obj_has_type. rewrite Forall_forall. intros f Hf.
  apply list_elem_of_filter in Hf as [Hk Hf]. rewrite list_elem_of_In in Hk.
  unfold UIState_fields in Hf. rewrite list_elem_of_In in Hf.
  repeat destruct Hf as [<-|Hf]; try contradiction; cbn in Hk;
    try (exfalso; solve [intuition discriminate]);
    unfold field_ok; cbn [fst snd]; lookup_ui_object; apply typecheck_spec.
  all: lazymatch goal with
       | |- context [activeTeamContext ?v] => destruct (activeTeamContext v)
       | |- context [activeModal ?v] => destruct (activeModal v) as [[]|]
       | |- context [slotActionMenuData ?v] =>
           destruct (slotActionMenuData v) as [[? ? [] [] []]|]
       | |- context [drawingTool ?v] => destruct (drawingTool v)
       | |- context [positioningMode ?v] => destruct (positioningMode v)
       | |- context [animationTrails ?v] =>
           destruct (animationTrails v) as [l|];
           [simpl; by rewrite forallb_map_true by apply enc_trail_typed|]
       | |- context [enc_opt _ (?p ?v)] => destruct (p v)
       | _ => idtac
       end; reflexivity.
Qed.

(** ** The decoders read every well-typed value *)

Lemma has_type_lits v ss : has_type v (lits ss) -> exists s, v = JStr s /\ In s ss.
Proof.
  intros H. inversion H as [| | | | |? t ? Hin Ht| | |]; subst.
  apply in_map_iff in Hin as (s & <- & Hs). inversion Ht; subst. eauto.
Qed.

Lemma decodes_lits {A} ss (dec : jval -> option A) :
  Forall (fun s => is_Some (dec (JStr s))) ss -> decodes (lits ss) dec.
Proof.
  intros Hss v Hv. apply has_type_lits in Hv as (s & -> & Hs).
  rewrite List.Forall_forall in Hss. auto.
Qed.

Lemma decodes_str : decodes TString dec_str.
Proof. intros v Hv. inversion Hv. by eexists. Qed.
Lemma decodes_num : decodes TNumber dec_num.
Proof. intros v Hv. inversion Hv. by eexists. Qed.
Lemma decodes_bool : decodes TBoolean dec_bool.
Proof. intros v Hv. inversion Hv. by eexists. Qed.

(** [T | null] and [null | T] *)
Lemma decodes_opt {A} ts t (f : jval -> option A) :
  Forall (fun t' => t' = TNull \/ t' = t) ts -> decodes t f -> decodes (TUnion ts) (dec_opt f).
Proof.
  intros Hts Hf v Hv. rewrite List.Forall_forall in Hts.
  inversion Hv as [| | | | |? t' ? Hin Ht| | |]; subst.
  destruct (Hts t' Hin) as [->| ->]; [inversion Ht; by eexists|].
  destruct (Hf v Ht) as [x Hx]. destruct v; cbn [dec_opt]; rewrite ?Hx; by eexists.
Qed.

Lemma decodes_nullable {A} t (f : jval -> option A) : decodes t f -> decodes (nullable t) (dec_opt f).
Proof. apply decodes_opt. constructor; [by right|]. constructor; [by left|]. constructor. Qed.

Lemma decodes_null_or {A} t (f : jval -> option A) :
  decodes t f -> decodes (TUnion [TNull; t]) (dec_opt f).
Proof. apply decodes_opt. constructor; [by left|]. constructor; [by right|]. constructor. Qed.

Lemma decodes_list {A} t (f : jval -> option A) : decodes t f -> decodes (TArray t) (dec_list f).
Proof.
  intros Hf v Hv. inversion Hv as [| | | | | |l ? Hl| |]; subst. cbn [dec_list].
  apply mapM_is_Some_2. eapply Forall_impl; [exact Hl|]. intros x Hx. by apply Hf.
Qed.

Lemma decodes_key {A} l k t (dec : jval -> option A) :
  decodes t dec -> field_type l (req k t) -> is_Some (dec_key k dec l).
Proof.
  intros Hd Hf. inversion Hf as [? ? ? ? v Hl Hv|]; subst.
  unfold dec_key. rewrite Hl. by apply Hd.
Qed.

Create HintDb schema.
#[export] Hint Resolve decodes_str decodes_num decodes_bool decodes_list decodes_nullable
  decodes_null_or : schema.

Ltac obj_fields Hv :=
  let l := fresh "l" in let Hfs := fresh "Hfs" in
  inversion Hv as [| | | | | | | |l ? Hfs]; subst; clear Hv;
  repeat (let Hf := fresh "Hf" in apply Forall_cons in Hfs as [Hf Hfs]).

Ltac read_keys :=
  repeat match goal with
  | Hf : field_type ?l (req ?k ?t) |- context [dec_key ?k ?dec ?l] =>
      let x := fresh "x" in let E := fresh "E" in
      destruct (decodes_key l k t dec ltac:(eauto with schema) Hf) as [x E];
      rewrite E; clear Hf
  end.

Lemma decodes_pos : decodes XY_t dec_pos.
Proof. intros v Hv. obj_fields Hv. cbn [dec_pos]. read_keys. by eexists. Qed.
#[export] Hint Resolve decodes_pos : schema.

Lemma decodes_trigger : decodes SlotActionMenuTrigger_t dec_trigger.
Proof. apply decodes_lits. repeat constructor; by eexists. Qed.
#[export] Hint Resolve decodes_trigger : schema.

Lemma decodes_menu : decodes SlotActionMenuData_t dec_menu.
Proof.
  intros v Hv. obj_fields Hv. cbn [dec_menu]. read_keys. simpl.
  inversion Hf1 as [? ? ? ? c Hc Htc|? ? ? Hc]; subst; rewrite Hc; [|by eexists].
  destruct (decodes_nullable TString dec_str decodes_str c Htc) as [y ->].
  by eexists.
Qed.

Lemma decodes_trail : decodes AnimationTrail_t dec_trail.
Proof. intros v Hv. obj_fields Hv. cbn [dec_trail]. read_keys. by eexists. Qed.
#[export] Hint Resolve decodes_menu decodes_trail : schema.

Ltac decode_lits := apply decodes_lits; repeat constructor; by eexists.

Lemma decodes_modal : decodes ModalType_t dec_modal.
Proof. decode_lits. Qed.
Lemma decodes_tool : decodes DrawingTool_t dec_tool.
Proof. decode_lits. Qed.
Lemma decodes_mode : decodes (lits ["free"; "snap"]) dec_mode.
Proof. decode_lits. Qed.

Lemma decodes_teamView : decodes TeamView_t dec_teamView.
Proof.
  intros v Hv. inversion Hv as [| | | | |? t ? Hin Ht| | |]; subst.
  destruct Hin as [<-|[<-|[]]]; [|inversion Ht; by eexists].
  clear Hv. revert v Ht. decode_lits.
Qed.
#[export] Hint Resolve decodes_modal decodes_tool decodes_mode decodes_teamView : schema.

(** A required field of a typed object decodes whatever the default. *)
Lemma dec_field_decodes {A} o k t (dec : jval -> option A) d d' :
  field_ok o (req k t) -> decodes t dec -> dec_field o k dec d = dec_field o k dec d'.
Proof.
  unfold field_ok, dec_field, req. cbn [fst snd]. destruct (o !! k) as [v|]; [|by intros].
  intros Hv Hd. destruct (Hd v Hv) as [x Hx]. simpl. by rewrite Hx.
Qed.

Lemma obj_field o fs f : obj_has_type o fs -> In f fs -> field_ok o f.
Proof. unfold obj_has_type. rewrite List.Forall_forall. auto. Qed.

Lemma obj_has_type_union o1 o2 ks fs :
  obj_has_type o1 (omit ks fs) -> Forall (fun k => o1 !! k = None) ks -> obj_has_type o2 fs ->
  obj_has_type (o1 ∪ o2) fs.
Proof.
  unfold obj_has_type. rewrite !Forall_forall. intros H1 Hks H2 f Hf.
  unfold field_ok. destruct (decide (f.1.1 ∈ ks)) as [Hk|Hk].
  - rewrite lookup_union_r by auto. by apply H2.
  - assert (field_ok o1 f) as Ho1 by (apply H1, omit_elem; auto).
    unfold field_ok in Ho1. destruct (o1 !! f.1.1) eqn:E.
    + by erewrite lookup_union_Some_l.
    + rewrite lookup_union_r by done. by apply H2.
Qed.

Lemma ui_object_has_type u :
  obj_has_type (ui_rest u) (omit typedUIKeys UIState_fields) ->
  obj_has_type (ui_object u) UIState_fields.
Proof.
  intros Hrest. apply (obj_has_type_split _ _ typedUIKeys). split; [apply ui_object_typed_keys|].
  revert Hrest. apply obj_has_type_agree. intros f Hf. apply omit_elem in Hf as [Hk _].
  symmetry. by apply ui_object_rest.
Qed.

Lemma saved_ui_has_type s :
  obj_has_type (ui_object (ui s)) UIState_fields ->
  obj_has_type (snap_ui (cleanStateForSaving s)) (omit transientUIKeys UIState_fields).
Proof.
  intros Hty. apply (obj_has_type_split _ _ transientUIKeys) in Hty as [_ Hty]. revert Hty.
  apply obj_has_type_agree. intros f Hf. apply omit_elem in Hf as [Hk _].
  cbn [cleanStateForSaving snap_ui]. by rewrite deleteKeys_lookup, decide_False.
Qed.

Lemma saved_ui_transient_absent s :
  Forall (fun k => snap_ui (cleanStateForSaving s) !! k = None) transientUIKeys.
Proof.
  apply Forall_forall. intros k Hk. cbn [cleanStateForSaving snap_ui].
  by rewrite deleteKeys_lookup, decide_True.
Qed.

Lemma INITIAL_ui_has_type : obj_has_type (ui_object INITIAL_ui) UIState_fields.
Proof. apply obj_typecheck_spec. vm_compute. reflexivity. Qed.

Lemma ui_of_object_indep o d d' :
  obj_has_type o UIState_fields -> ui_of_object o d = ui_of_object o d'.
Proof.
  intros Hty. unfold ui_of_object.
  f_equal; (eapply dec_field_decodes;
            [apply (obj_field _ _ _ Hty); unfold UIState_fields;
             repeat first [left; reflexivity | right] | eauto with schema]).
Qed.
