(* ===== verification/League.v ===== *)
(** * League: the league of the first season and its fixture list

    [src/constants.ts] (lines 155-191) builds the season the franchise
    starts in: eight [leagueTeams], a league table with a zero entry per
    team ([leagueTeams.reduce]), and [generateFixtures], which

    - pushes, for every [i < j], the fixtures [(i, j)] and [(j, i)] (a
      double round robin, [n (n - 1)] fixtures for [n] teams);
    - shuffles them with [fixtures.sort(() => Math.random() - 0.5)];
    - numbers the weeks by position: the fixture at [index] is played in
      week [Math.floor(index / (n / 2)) + 1];
    - sorts by week with [(a, b) => a.week - b.week].

    The shuffle is [Array.prototype.sort] with a comparator that is not
    consistent: the order it leaves is implementation-defined, but it is a
    permutation of the array.  It is therefore a parameter [shuffle] of the
    Section, with the one hypothesis that it permutes.  [Array.prototype.sort]
    is stable (ECMAScript 2019 and later), so the final sort is the stable
    insertion sort [sortByWeek]: every stable sort returns the same list.
    The week number is [Z.div (2 * index) n + 1]: for [n < 2^26] teams the
    binary64 quotient [index / (n / 2)] is within half an ulp of [2 index / n],
    which is at least [1/n] away from the next integer when it is not one, so
    its floor is the integer quotient. *)

From S2P Require Import Prelude Domain Schema.
From Stdlib Require Import Sorted Permutation.

(** ** Data of [src/types.ts] *)

Record LeagueTeam := mkLeagueTeam {
  lt_name : string;
  isUser : bool;
  strength : Z;
}.

Record Fixture := mkFixture {
  week : Z;
  homeTeam : string;
  awayTeam : string;
}.

Record LeagueTableEntry := mkEntry {
  teamName : string;
  isUserTeam : bool;
  played : Z; won : Z; drawn : Z; lost : Z;
  goalsFor : Z; goalsAgainst : Z; goalDifference : Z; points : Z;
}.

Record Season := mkSeason {
  year : Z;
  season_leagueTeams : list LeagueTeam;
  leagueTable : gmap string LeagueTableEntry;
  season_fixtures : list Fixture;
}.

(** ** The seed league ([src/constants.ts], lines 155-164) *)

Definition leagueTeams : list LeagueTeam := [
  mkLeagueTeam "Astral FC" true 85;
  mkLeagueTeam "Quantum Rovers" false 88;
  mkLeagueTeam "Nebula United" false 84;
  mkLeagueTeam "Celestial City" false 86;
  mkLeagueTeam "Stardust Wanderers" false 82;
  mkLeagueTeam "Meteor Milan" false 80;
  mkLeagueTeam "Galaxy Rangers" false 83;
  mkLeagueTeam "Cosmos County" false 79].

(** ** [generateFixtures] *)

(** The inner loop for one [i]: [(i, j)] then [(j, i)] for every [j > i]. *)
Fixpoint pushPairs (x : string) (rest : list string) : list Fixture :=
  match rest with
  | [] => []
  | y :: r => mkFixture 0 x y :: mkFixture 0 y x :: pushPairs x r
  end.

(** The two nested loops. *)
Fixpoint roundRobin (names : list string) : list Fixture :=
  match names with
  | [] => []
  | x :: r => pushPairs x r ++ roundRobin r
  end.

(** [fixture.week = Math.floor(index / (n / 2)) + 1]. *)
Definition weekOfIndex (n index : Z) : Z := (2 * index) / n + 1.

(** [fixtures.forEach((fixture, index) => ...)], from [index = i]. *)
Fixpoint assignWeeks (n i : Z) (l : list Fixture) : list Fixture :=
  match l with
  | [] => []
  | f :: r => mkFixture (weekOfIndex n i) (homeTeam f) (awayTeam f) :: assignWeeks n (i + 1) r
  end.

(** The stable sort by [a.week - b.week]: [f] goes before the first element
    whose week is not smaller, hence before the equal ones that follow it. *)
Fixpoint insertByWeek (f : Fixture) (l : list Fixture) : list Fixture :=
  match l with
  | [] => [f]
  | g :: r => if week g <? week f then g :: insertByWeek f r else f :: g :: r
  end.

Fixpoint sortByWeek (l : list Fixture) : list Fixture :=
  match l with
  | [] => []
  | f :: r => insertByWeek f (sortByWeek r)
  end.

Definition generateFixtures (shuffle : list Fixture -> list Fixture)
    (teams : list LeagueTeam) : list Fixture :=
  let teamNames := map lt_name teams in
  let fixtures := shuffle (roundRobin teamNames) in
  sortByWeek (assignWeeks (Z.of_nat (length teamNames)) 0 fixtures).

(** ** The initial season ([src/constants.ts], lines 183-191) *)

Definition zeroEntry (t : LeagueTeam) : LeagueTableEntry :=
  mkEntry (lt_name t) (isUser t) 0 0 0 0 0 0 0 0.

Definition initialSeason (shuffle : list Fixture -> list Fixture) : Season :=
  mkSeason 2024 leagueTeams (reduce_into lt_name zeroEntry leagueTeams)
    (generateFixtures shuffle leagueTeams).

(** ** Reading the schedule *)

Definition pairOf (f : Fixture) : string * string := (homeTeam f, awayTeam f).

Definition fixturesInWeek (k : Z) (fs : list Fixture) : nat :=
  length (filter (fun f => week f = k) fs).

Definition plays (t : string) (f : Fixture) : bool :=
  String.eqb (homeTeam f) t || String.eqb (awayTeam f) t.

(** How many fixtures of week [k] team [t] plays. *)
Definition matchesInWeek (t : string) (k : Z) (fs : list Fixture) : nat :=
  length (filter (fun f => plays t f = true /\ week f = k) fs).

(** ** The season as [JSON.stringify] writes it, and its declared type

    The object keys follow [src/types.ts] (lines 555-583); the league
    table is written from the map's bindings. *)

Definition enc_leagueTeam (t : LeagueTeam) : jval :=
  JObj [("name", JStr (lt_name t)); ("isUser", JBool (isUser t)); ("strength", JNum (strength t))].

Definition enc_entry (e : LeagueTableEntry) : jval :=
  JObj [("teamName", JStr (teamName e)); ("isUserTeam", JBool (isUserTeam e));
        ("played", JNum (played e)); ("won", JNum (won e)); ("drawn", JNum (drawn e));
        ("lost", JNum (lost e)); ("goalsFor", JNum (goalsFor e));
        ("goalsAgainst", JNum (goalsAgainst e));
        ("goalDifference", JNum (goalDifference e)); ("points", JNum (points e))].

Definition enc_fixture (f : Fixture) : jval :=
  JObj [("week", JNum (week f)); ("homeTeam", JStr (homeTeam f)); ("awayTeam", JStr (awayTeam f))].

Definition enc_season (s : Season) : jval :=
  JObj [("year", JNum (year s));
        ("leagueTeams", JArr (map enc_leagueTeam (season_leagueTeams s)));
        ("leagueTable", JObj (map (fun kv => (kv.1, enc_entry kv.2)) (map_to_list (leagueTable s))));
        ("fixtures", JArr (map enc_fixture (season_fixtures s)))].

Definition LeagueTeam_t : tstype :=
  TObject [req "name" TString; req "isUser" TBoolean; req "strength" TNumber].

Definition LeagueTableEntry_t : tstype :=
  TObject [req "teamName" TString; req "isUserTeam" TBoolean; req "played" TNumber;
           req "won" TNumber; req "drawn" TNumber; req "lost" TNumber;
           req "goalsFor" TNumber; req "goalsAgainst" TNumber;
           req "goalDifference" TNumber; req "points" TNumber].

Definition Fixture_t : tstype :=
  TObject [req "week" TNumber; req "homeTeam" TString; req "awayTeam" TString].

Definition Season_t : tstype :=
  TObject [req "year" TNumber; req "leagueTeams" (TArray LeagueTeam_t);
           req "leagueTable" (TRecord LeagueTableEntry_t);
           req "fixtures" (TArray Fixture_t)].

(** * Lemmas *)

(** ** The pairs: the double round robin *)

Lemma pushPairs_elem x r a b :
  (a, b) ∈ map pairOf (pushPairs x r) <-> (a = x /\ b ∈ r) \/ (b = x /\ a ∈ r).
Proof.
  induction r as [|y r IH]; simpl.
  - rewrite elem_of_nil. set_solver.
  - rewrite !elem_of_cons, IH. unfold pairOf; simpl. naive_solver.
Qed.

Lemma roundRobin_elem names a b :
  NoDup names ->
  (a, b) ∈ map pairOf (roundRobin names) <-> a ∈ names /\ b ∈ names /\ a <> b.
Proof.
  induction names as [|x r IH]; intros Hnd; simpl.
  - rewrite elem_of_nil. set_solver.
  - apply NoDup_cons in Hnd as [Hx Hnd].
    rewrite map_app, elem_of_app, pushPairs_elem, IH, !elem_of_cons by done.
    split; [intros [[[-> ?]|[-> ?]]|(? & ? & ?)]; set_solver|].
    intros ([->|Ha] & [->|Hb] & Hab); naive_solver.
Qed.

Lemma pushPairs_NoDup x r :
  NoDup r -> x ∉ r -> NoDup (map pairOf (pushPairs x r)).
Proof.
  induction r as [|y r IH]; intros Hnd Hx; simpl; [constructor|].
  apply NoDup_cons in Hnd as [Hy Hnd]. rewrite elem_of_cons in Hx.
  change (pairOf (mkFixture 0 x y)) with (x, y).
  change (pairOf (mkFixture 0 y x)) with (y, x).
  repeat constructor.
  - rewrite elem_of_cons, pushPairs_elem. unfold pairOf; simpl. naive_solver.
  - rewrite pushPairs_elem. unfold pairOf; simpl. naive_solver.
  - apply IH; naive_solver.
Qed.

Lemma roundRobin_NoDup names : NoDup names -> NoDup (map pairOf (roundRobin names)).
Proof.
  induction names as [|x r IH]; intros Hnd; simpl; [constructor|].
  apply NoDup_cons in Hnd as [Hx Hnd]. rewrite map_app, NoDup_app.
  split; [by apply pushPairs_NoDup|]. split; [|by apply IH].
  intros [a b] Hp. rewrite pushPairs_elem in Hp. rewrite roundRobin_elem by done.
  naive_solver.
Qed.

Lemma length_pushPairs x r : length (pushPairs x r) = (2 * length r)%nat.
Proof. induction r; simpl; lia. Qed.

Lemma length_roundRobin names :
  length (roundRobin names) = (length names * (length names - 1))%nat.
Proof.
  induction names as [|x r IH]; simpl; [done|].
  rewrite length_app, length_pushPairs, IH. destruct (length r); simpl; lia.
Qed.

(** ** The week numbers and the final sort *)

Lemma assignWeeks_pairs n i l : map pairOf (assignWeeks n i l) = map pairOf l.
Proof. revert i. induction l as [|f l IH]; intros i; simpl; [done|]. by rewrite IH. Qed.

Lemma length_assignWeeks n i l : length (assignWeeks n i l) = length l.
Proof. revert i. induction l as [|f l IH]; intros i; simpl; by rewrite ?IH. Qed.

Lemma assignWeeks_weeks n i l :
  map week (assignWeeks n i l) = map (weekOfIndex n) (zseq i (length l)).
Proof. revert i. induction l as [|f l IH]; intros i; simpl; [done|]. by rewrite IH. Qed.

Lemma insertByWeek_perm f l : insertByWeek f l ≡ₚ f :: l.
Proof.
  induction l as [|g l IH]; simpl; [done|]. case_bool; [|done].
  rewrite IH. apply perm_swap.
Qed.

Lemma sortByWeek_perm l : sortByWeek l ≡ₚ l.
Proof. induction l as [|f l IH]; simpl; [done|]. by rewrite insertByWeek_perm, IH. Qed.

Definition weekLe (f g : Fixture) : Prop := week f <= week g.

Lemma weekOfIndex_mono n i j : 0 <= n -> i <= j -> weekOfIndex n i <= weekOfIndex n j.
Proof.
  intros Hn Hij. unfold weekOfIndex. destruct (Z.eq_dec n 0) as [->|Hn0].
  - rewrite !Z.div_0_r. lia.
  - apply Z.add_le_mono_r, Z.div_le_mono; lia.
Qed.

Lemma assignWeeks_sorted n i l : 0 <= n -> Sorted weekLe (assignWeeks n i l).
Proof.
  intros Hn. revert i. induction l as [|f l IH]; intros i; simpl; constructor; [apply IH|].
  destruct l; simpl; constructor. unfold weekLe; simpl. apply weekOfIndex_mono; lia.
Qed.

(** A stable sort leaves a sorted list as it is. *)
Lemma sortByWeek_sorted_id l : Sorted weekLe l -> sortByWeek l = l.
Proof.
  induction l as [|f l IH]; intros Hs; simpl; [done|].
  apply Sorted_inv in Hs as [Hs Hhd]. rewrite IH by done.
  destruct l as [|g l]; simpl; [done|]. apply HdRel_inv in Hhd. unfold weekLe in Hhd.
  by replace (week g <? week f) with false by lia.
Qed.

Lemma generateFixtures_eq shuffle teams :
  generateFixtures shuffle teams =
  assignWeeks (Z.of_nat (length teams)) 0 (shuffle (roundRobin (map lt_name teams))).
Proof.
  unfold generateFixtures. rewrite length_map.
  apply sortByWeek_sorted_id, assignWeeks_sorted. lia.
Qed.

Lemma fixturesInWeek_assign n i l k :
  fixturesInWeek k (assignWeeks n i l) =
  length (filter (fun j => weekOfIndex n j = k) (zseq i (length l))).
Proof.
  unfold fixturesInWeek. revert i.
  induction l as [|f l IH]; intros i; simpl; [done|].
  rewrite !filter_cons. simpl. case_decide; simpl; by rewrite IH.
Qed.

(** With [n = 2 m] teams, week [k] is the fixtures at [(k - 1) m .. k m - 1]. *)
Lemma weekOfIndex_even m j k :
  0 < m -> weekOfIndex (2 * m) j = k <-> (k - 1) * m <= j < k * m.
Proof.
  intros Hm. unfold weekOfIndex. rewrite Z.div_mul_cancel_l by lia.
  transitivity (j / m = k - 1); [lia|]. rewrite Z_div_eq_iff by done.
  by replace (k - 1 + 1) with k by lia.
Qed.

Lemma weeks_balanced m (l : list Fixture) k :
  0 < m -> Z.of_nat (length l) = 2 * m * (2 * m - 1) -> 1 <= k <= 2 * (2 * m - 1) ->
  Z.of_nat (fixturesInWeek k (assignWeeks (2 * m) 0 l)) = m.
Proof.
  intros Hm Hl Hk. rewrite fixturesInWeek_assign.
  rewrite (list_filter_iff _ (fun j => (k - 1) * m <= j < k * m)) by (intros; by apply weekOfIndex_even).
  rewrite zseq_filter_interval by nia. rewrite Hl. nia.
Qed.

Lemma weeks_range m (l : list Fixture) f :
  0 < m -> Z.of_nat (length l) = 2 * m * (2 * m - 1) -> f ∈ assignWeeks (2 * m) 0 l ->
  1 <= week f <= 2 * (2 * m - 1).
Proof.
  intros Hm Hl Hf.
  assert (Hf' : week f ∈ map week (assignWeeks (2 * m) 0 l)) by (by apply list_elem_of_fmap_2).
  rewrite assignWeeks_weeks in Hf'.
  apply list_elem_of_fmap in Hf' as (j & Hw & Hj). apply elem_of_zseq in Hj.
  rewrite Hw. unfold weekOfIndex. rewrite Z.div_mul_cancel_l by lia.
  assert (0 <= j / m) by (apply Z.div_pos; lia).
  assert (j / m < 2 * (2 * m - 1)) by (apply Z.div_lt_upper_bound; nia). lia.
Qed.

Lemma assignWeeks_app n i l1 l2 :
  assignWeeks n i (l1 ++ l2) = assignWeeks n i l1 ++ assignWeeks n (i + Z.of_nat (length l1)) l2.
Proof.
  revert i. induction l1 as [|f l1 IH]; intros i; simpl; [by rewrite Z.add_0_r|].
  rewrite IH. do 3 f_equal. lia.
Qed.

Lemma pushPairs_plays x r n i :
  Forall (fun f => plays x f = true) (assignWeeks n i (pushPairs x r)).
Proof.
  revert i. induction r as [|y r IH]; intros i; simpl; [constructor|].
  constructor; [|constructor; [|apply IH]]; unfold plays; simpl;
    rewrite String.eqb_refl; [done|apply orb_true_r].
Qed.

Lemma assignWeeks_weeks_from n i l f :
  0 < n -> f ∈ assignWeeks n i l -> weekOfIndex n i <= week f.
Proof.
  intros Hn. revert i. induction l as [|g l IH]; intros i Hf; simpl in Hf.
  - by apply not_elem_of_nil in Hf.
  - apply elem_of_cons in Hf as [->|Hf]; [simpl; lia|].
    etrans; [|by apply IH]. apply weekOfIndex_mono; lia.
Qed.

(** ** The fixture list, whatever order the shuffle leaves *)

Section Fixtures.

Context (shuffle : list Fixture -> list Fixture).
Context (Hshuffle : forall l, shuffle l ≡ₚ l).

Lemma generateFixtures_length teams :
  length (generateFixtures shuffle teams) = (length teams * (length teams - 1))%nat.
Proof.
  rewrite generateFixtures_eq, length_assignWeeks, Hshuffle, length_roundRobin.
  by rewrite length_map.
Qed.

(** C17: [generateFixtures] is a double round robin whatever order the
    shuffle leaves: when the team names are distinct, every ordered pair of
    two different teams is a fixture exactly once, and no other pair is. *)
Theorem generateFixtures_round_robin teams :
  NoDup (map lt_name teams) ->
  NoDup (map pairOf (generateFixtures shuffle teams)) /\
  (forall a b, (a, b) ∈ map pairOf (generateFixtures shuffle teams) <->
     a ∈ map lt_name teams /\ b ∈ map lt_name teams /\ a <> b).
Proof.
  intros Hnd. rewrite generateFixtures_eq, assignWeeks_pairs.
  split; [|intros a b]; rewrite Hshuffle; [by apply roundRobin_NoDup|by apply roundRobin_elem].
Qed.

(** C18: With an even number [n = 2 m] of teams the [n (n - 1)] fixtures are
    spread over weeks [1 .. 2 (n - 1)], [m] fixtures in each, in week order. *)
Theorem generateFixtures_weeks teams m :
  Z.of_nat (length teams) = 2 * m -> 0 < m ->
  Sorted weekLe (generateFixtures shuffle teams) /\
  (forall f, f ∈ generateFixtures shuffle teams -> 1 <= week f <= 2 * (2 * m - 1)) /\
  (forall k, 1 <= k <= 2 * (2 * m - 1) ->
     Z.of_nat (fixturesInWeek k (generateFixtures shuffle teams)) = m).
Proof.
  intros Hn Hm.
  assert (Hl : Z.of_nat (length (shuffle (roundRobin (map lt_name teams)))) = 2 * m * (2 * m - 1)).
  { rewrite Hshuffle, length_roundRobin, length_map. nia. }
  rewrite generateFixtures_eq, Hn. split; [apply assignWeeks_sorted; lia|].
  split; [intros f; by apply weeks_range|]. intros k Hk. by apply weeks_balanced.
Qed.

End Fixtures.

(** C35: The final sort by week does nothing: the week numbers follow the
    positions, so the stable sort returns the shuffled list as numbered. *)
Theorem generateFixtures_sort_noop shuffle teams :
  generateFixtures shuffle teams =
  assignWeeks (Z.of_nat (length teams)) 0 (shuffle (roundRobin (map lt_name teams))).
Proof. apply generateFixtures_eq. Qed.

(** C19: The week numbers are positions in the shuffled list, not rounds: when
    the shuffle leaves the order as it is (one of its outcomes), the first
    team of a league of [2 m] teams plays every one of the [m] fixtures of
    week 1, so a team can play several matches in one week. *)
Theorem generateFixtures_week_clash x r m :
  Z.of_nat (length (x :: r)) = 2 * m -> 0 < m ->
  Z.of_nat (matchesInWeek (lt_name x) 1 (generateFixtures (fun l => l) (x :: r))) = m.
Proof.
  intros Hn Hm. rewrite generateFixtures_eq, Hn. cbn [map roundRobin].
  simpl in Hn. rewrite assignWeeks_app. unfold matchesInWeek.
  rewrite filter_app, length_app, filter_and_Forall by apply pushPairs_plays.
  rewrite (filter_Forall_not _ (assignWeeks _ (0 + _) (roundRobin _)));
    cbn [length]; rewrite ?Nat.add_0_r.
  - transitivity (Z.of_nat (fixturesInWeek 1
      (assignWeeks (2 * m) 0 (pushPairs (lt_name x) (map lt_name r))))).
    { unfold fixturesInWeek. do 2 f_equal. all: by apply list_filter_iff. }
    rewrite fixturesInWeek_assign.
    rewrite (list_filter_iff _ (fun j => 0 <= j < m)) by
      (intros j; rewrite weekOfIndex_even by done; lia).
    rewrite zseq_filter_interval, length_pushPairs, length_map; lia.
  - apply Forall_forall. intros f Hf [_ Hw].
    apply assignWeeks_weeks_from in Hf; [|lia].
    revert Hf. rewrite length_pushPairs, length_map, Hw. unfold weekOfIndex.
    rewrite Z.div_mul_cancel_l by lia.
    assert (1 <= (0 + Z.of_nat (2 * length r)) / m) by (apply Z.div_le_lower_bound; lia). lia.
Qed.

(** ** The initial season *)

Lemma leagueTeams_NoDup : NoDup (map lt_name leagueTeams).
Proof. decide_key. Qed.

Lemma enc_season_typed s : typecheck Season_t (enc_season s) = true.
Proof.
  destruct s as [y ts tbl fs]. cbn [typecheck enc_season Season_t jlookup fold_left].
  simpl. rewrite !forallb_map_true; [done|..];
    first [intros [k []]; reflexivity | intros []; reflexivity].
Qed.

Lemma initialSeason_table shuffle t :
  t ∈ leagueTeams -> leagueTable (initialSeason shuffle) !! lt_name t = Some (zeroEntry t).
Proof. intros Ht. by apply fold_insert_lookup_in; [apply leagueTeams_NoDup|]. Qed.

(** ** Witnesses on the seed league *)

Lemma rev_permutes : forall l : list Fixture, rev l ≡ₚ l.
Proof. intros l. symmetry. apply Permutation_rev. Qed.

Lemma generateFixtures_round_robin_witness :
  NoDup (map pairOf (generateFixtures (@rev Fixture) leagueTeams)) /\
  ("Astral FC", "Cosmos County") ∈ map pairOf (generateFixtures (@rev Fixture) leagueTeams).
Proof.
  destruct (generateFixtures_round_robin (@rev Fixture) rev_permutes leagueTeams leagueTeams_NoDup)
    as [Hnd Hin].
  split; [exact Hnd|]. apply Hin. split; [|split]; [decide_key|decide_key|done].
Defined.

Lemma generateFixtures_weeks_witness :
  Z.of_nat (fixturesInWeek 14 (generateFixtures (@rev Fixture) leagueTeams)) = 4.
Proof.
  apply (generateFixtures_weeks (@rev Fixture) rev_permutes leagueTeams 4); [reflexivity|lia|lia].
Defined.

Lemma generateFixtures_week_clash_witness :
  Z.of_nat (matchesInWeek "Astral FC" 1 (generateFixtures (fun l => l) leagueTeams)) = 4.
Proof.
  apply (generateFixtures_week_clash (mkLeagueTeam "Astral FC" true 85)
           (tail leagueTeams) 4); [reflexivity|lia].
Defined.
