(* ===== verification/Training.v ===== *)
(** * Training: the drill catalogue, the default week and the plan templates

    [TRAINING_DRILLS] ([src/constants.ts], lines 65-98) lists the drills a
    training session can hold; [defaultSchedule] (lines 193-207) is the week
    both teams start with ([INITIAL_STATE.franchise.trainingSchedule], line
    341, a spread copy of it per team) and [defaultTemplates] (lines
    278-307) the two plans the user can load.  A session names its warm-up,
    main and cool-down drills by id ([TrainingSession] of [src/types.ts],
    lines 371-375); [{ ...defaultDailySchedule, isRestDay: true }] is the
    record update [withRestDay].

    The drill's [injuryRisk] is a decimal number of the source; it is kept
    as the rational number the literal denotes ([Q]), which is all the
    model needs of it.  The copies made by the spreads share their inner
    objects with [defaultDailySchedule]; no code under [src/] writes into a
    schedule, so the sharing is not observable and the copies are values.
    No code under [src/] reads these values either: the file is the
    franchise's starting data, transcribed, and carries no theorem. *)

From S2P Require Import Prelude.
From Stdlib Require Import QArith.

(** ** Data of [src/types.ts] (lines 3-11 and 355-389, 669-674) *)

(** [keyof PlayerAttributes] *)
Inductive PlayerAttribute :=
| speed | passing | tackling | shooting | dribbling | positioning | stamina.

Inductive TrainingDrillCategory :=
| Attacking | Defending | Physical | Technical | Tactical | Set_pieces | Warmup | Cooldown.

Inductive TrainingIntensity := Low | Medium | High.

#[export] Instance TrainingDrillCategory_eq_dec : EqDecision TrainingDrillCategory.
Proof. solve_decision. Defined.

Record TrainingDrill := mkDrill {
  drill_id : string;
  drill_name : string;
  category : TrainingDrillCategory;
  description : string;
  primaryAttributes : list PlayerAttribute;
  secondaryAttributes : list PlayerAttribute;
  intensity : TrainingIntensity;
  fatigueEffect : Z;
  moraleEffect : Z;
  injuryRisk : Q;
}.

Record TrainingSession := mkSession {
  warmup : option string;
  main : option string;
  cooldown : option string;
}.

Record DailySchedule := mkDay {
  morning : TrainingSession;
  afternoon : TrainingSession;
  isRestDay : bool;
}.

Record WeeklySchedule := mkWeek {
  monday : DailySchedule;
  tuesday : DailySchedule;
  wednesday : DailySchedule;
  thursday : DailySchedule;
  friday : DailySchedule;
  saturday : DailySchedule;
  sunday : DailySchedule;
}.

Record TrainingPlanTemplate := mkTemplate {
  template_id : string;
  template_name : string;
  schedule : WeeklySchedule;
  isDefault : option bool;
}.

(** ** The catalogue ([src/constants.ts], lines 65-98) *)

Definition TRAINING_DRILLS : list TrainingDrill := [
  mkDrill "warmup_jog" "Light Jog & Stretches" Warmup
    "Prepare muscles for session."
    [stamina] [] Low (2) (0) (5 # 100);
  mkDrill "warmup_rondo" "Rondo (5v2)" Warmup
    "Improve passing and awareness under light pressure."
    [passing; positioning] [] Low (4) (1) (10 # 100);
  mkDrill "att_shoot" "Shooting Practice" Attacking
    "Focus on finishing chances."
    [shooting] [positioning] Medium (10) (1) (20 # 100);
  mkDrill "att_cross" "Crossing Drills" Attacking
    "Improve accuracy of wide deliveries."
    [passing] [dribbling] Medium (8) (0) (10 # 100);
  mkDrill "att_final_third" "Final Third Play" Attacking
    "Complex attacking scenarios."
    [passing; positioning; shooting] [dribbling] High (15) (1) (30 # 100);
  mkDrill "att_1v1" "1v1 Attacking" Attacking
    "Practice beating defenders."
    [dribbling; speed] [shooting] High (12) (0) (40 # 100);
  mkDrill "att_counter" "Counter-Attacking" Attacking
    "Drill rapid transitions from defense to attack."
    [speed; passing] [positioning] High (16) (0) (30 # 100);
  mkDrill "def_pos" "Defensive Positioning" Defending
    "Improve team shape and awareness."
    [positioning] [tackling] Medium (8) (0) (10 # 100);
  mkDrill "def_tackle" "Tackling Drills" Defending
    "Focus on clean and effective tackling."
    [tackling] [] High (12) (0) (40 # 100);
  mkDrill "def_shape" "Shape Recovery" Defending
    "Practice quickly regaining defensive shape after losing possession."
    [positioning; stamina] [speed] Medium (14) (0) (20 # 100);
  mkDrill "def_1v1" "1v1 Defending" Defending
    "Practice containing and dispossessing attackers."
    [tackling; positioning] [speed] High (12) (0) (40 # 100);
  mkDrill "phys_sprints" "Sprint Training" Physical
    "High intensity sprints to boost speed."
    [speed] [stamina] High (18) (-1) (50 # 100);
  mkDrill "phys_endurance" "Endurance Running" Physical
    "Long-distance running to build stamina."
    [stamina] [speed] Medium (15) (-1) (20 # 100);
  mkDrill "phys_agility" "Agility Ladders" Physical
    "Improve footwork, balance, and coordination."
    [speed] [dribbling] Medium (10) (0) (20 # 100);
  mkDrill "tech_passing" "Passing Triangle" Technical
    "Improve short passing and movement."
    [passing] [positioning] Low (5) (1) (10 # 100);
  mkDrill "tech_dribble" "Dribbling Course" Technical
    "Close control and agility."
    [dribbling] [speed] Medium (9) (0) (20 # 100);
  mkDrill "tech_longpass" "Long Passing" Technical
    "Practice switching play and long-range passes."
    [passing] [] Medium (7) (0) (10 # 100);
  mkDrill "tech_gk_dist" "Goalkeeper Distribution" Technical
    "Improve kicking and throwing accuracy for goalkeepers."
    [passing] [positioning] Medium (8) (0) (10 # 100);
  mkDrill "tact_shape" "Formation Shape" Tactical
    "Work on maintaining formation discipline."
    [positioning] [] Low (4) (0) (5 # 100);
  mkDrill "tact_press" "Pressing Triggers" Tactical
    "Coordinate high-intensity pressing."
    [stamina; positioning] [tackling] High (16) (0) (30 # 100);
  mkDrill "tact_possession" "Positional Play Game" Tactical
    "Small-sided game focused on keeping possession and creating overloads."
    [passing; positioning] [dribbling] Medium (15) (1) (20 # 100);
  mkDrill "set_corners" "Corner Routines" Set_pieces
    "Practice attacking and defending corners."
    [passing; positioning] [shooting] Low (6) (0) (10 # 100);
  mkDrill "set_delivery" "Set Piece Delivery" Set_pieces
    "Focus on quality of free kick and corner delivery."
    [passing] [] Low (5) (0) (10 # 100);
  mkDrill "cooldown_stretch" "Yoga & Stretching" Cooldown
    "Improve flexibility and aid recovery."
    [stamina] [] Low (-5) (1) (5 # 100)].

(** ** The default week and the templates *)

Definition defaultDailySchedule : DailySchedule :=
  mkDay (mkSession None None None) (mkSession None None None) false.

(** [{ ...d, isRestDay: true }] *)
Definition withRestDay (d : DailySchedule) : DailySchedule :=
  mkDay (morning d) (afternoon d) true.

Definition defaultSchedule : WeeklySchedule :=
  mkWeek
      (* monday *) (mkDay (mkSession (Some "warmup_rondo") (Some "tech_passing") (Some "cooldown_stretch"))
        (mkSession None (Some "def_pos") None) false)
      (* tuesday *) (mkDay (mkSession (Some "warmup_jog") (Some "tact_shape") None)
        (mkSession None (Some "att_shoot") (Some "cooldown_stretch")) false)
      (* wednesday *) (mkDay (mkSession (Some "warmup_jog") (Some "phys_sprints") None)
        (mkSession None (Some "def_tackle") (Some "cooldown_stretch")) false)
      (* thursday *) (mkDay (mkSession (Some "warmup_rondo") (Some "tech_dribble") None)
        (mkSession None (Some "tact_press") (Some "cooldown_stretch")) false)
      (* friday *) (mkDay (mkSession (Some "warmup_jog") (Some "att_final_third") None)
        (mkSession None (Some "set_corners") (Some "cooldown_stretch")) false)
      (* saturday *) (withRestDay defaultDailySchedule)
      (* sunday *) (withRestDay defaultDailySchedule).

Definition defaultTemplates : gmap string TrainingPlanTemplate :=
  list_to_map [
  ("default_pre_season", mkTemplate "default_pre_season" "Pre-Season Fitness"
   (mkWeek
        (* monday *) (mkDay (mkSession (Some "warmup_jog") (Some "phys_endurance") (Some "cooldown_stretch"))
          (mkSession None (Some "phys_sprints") (Some "cooldown_stretch")) false)
        (* tuesday *) (mkDay (mkSession (Some "warmup_rondo") (Some "phys_agility") (Some "cooldown_stretch"))
          (mkSession None (Some "phys_endurance") (Some "cooldown_stretch")) false)
        (* wednesday *) (mkDay (mkSession (Some "warmup_jog") (Some "phys_sprints") (Some "cooldown_stretch"))
          (mkSession None None None) false)
        (* thursday *) (mkDay (mkSession (Some "warmup_rondo") (Some "phys_agility") (Some "cooldown_stretch"))
          (mkSession None (Some "phys_endurance") (Some "cooldown_stretch")) false)
        (* friday *) (mkDay (mkSession (Some "warmup_jog") (Some "tact_possession") (Some "cooldown_stretch"))
          (mkSession None None None) false)
        (* saturday *) (withRestDay defaultDailySchedule)
        (* sunday *) (withRestDay defaultDailySchedule))
   (Some true));
  ("default_tactical_prep", mkTemplate "default_tactical_prep" "Tactical Prep Week"
   (mkWeek
        (* monday *) (mkDay (mkSession (Some "warmup_rondo") (Some "tact_shape") (Some "cooldown_stretch"))
          (mkSession None (Some "def_pos") None) false)
        (* tuesday *) (mkDay (mkSession (Some "warmup_jog") (Some "att_final_third") (Some "cooldown_stretch"))
          (mkSession None (Some "tact_press") None) false)
        (* wednesday *) (withRestDay defaultDailySchedule)
        (* thursday *) (mkDay (mkSession (Some "warmup_rondo") (Some "tact_possession") (Some "cooldown_stretch"))
          (mkSession None (Some "def_shape") None) false)
        (* friday *) (mkDay (mkSession (Some "warmup_jog") (Some "set_corners") (Some "cooldown_stretch"))
          (mkSession None (Some "att_counter") None) false)
        (* saturday *) (withRestDay defaultDailySchedule)
        (* sunday *) (withRestDay defaultDailySchedule))
   (Some true))].

(** [trainingSchedule: { home: { ...defaultSchedule }, away: { ...defaultSchedule } }]
    of [INITIAL_STATE.franchise] (line 341), home first. *)
Definition initialTrainingSchedule : WeeklySchedule * WeeklySchedule :=
  (defaultSchedule, defaultSchedule).
