(* ===== verification/Chemistry.v ===== *)
(** * Chemistry: the link overlay of the pitch

    [getChemistryLinks] of [src/components/SoccerField.tsx] (lines
    146-188) walks the ordered pairs of occupied slots of a formation,
    deduplicates unordered pairs with a set of string keys
    ([[a, b].sort().join('-')]), keeps the pairs whose slots' default
    positions are closer than 30 and whose chemistry score is above 40,
    and draws a link between the two players' live positions (mirrored for
    the away side) in a tier colour.  [chemistryLinks] (lines 190-199)
    concatenates the home and away links by the team view, and
    [FormationStrengthOverlay] (lines 91-121) shades the occupied slots.

    The score comes from [calculateChemistryScore] of the chemistry service,
    which is not under [src/]: it is the class [ChemistryScore]; the
    completeness theorem asks it to be symmetric, as section 7 of the
    specification requires. *)

From S2P Require Import Prelude Geometry Domain.
From Stdlib Require Import Ascii Floats.

(** ** The chemistry service, as the component sees it *)

Class ChemistryScore := {
  calculateChemistryScore :
    Player -> Player -> gmap string (gmap string Z) ->
    gmap string (gmap string PlayerRelationshipType) -> list MentoringGroup -> Z
}.

(** A score that is the same for every pair (a fixture for scenarios). *)
#[export] Instance constScore (n : Z) : ChemistryScore :=
  { calculateChemistryScore _ _ _ _ _ := n }.

(** ** Keys of unordered pairs *)

(** [[a, b].sort()]: the default comparison of JavaScript strings, which on
    ASCII ids is the byte order of [String.leb]. *)
Definition sortPair (a b : string) : string * string :=
  if String.leb a b then (a, b) else (b, a).

(** [[a, b].sort().join('-')] *)
Definition pairKey (a b : string) : string :=
  let '(x, y) := sortPair a b in x +:+ "-" +:+ y.

Fixpoint noDash (s : string) : bool :=
  match s with
  | EmptyString => true
  | String c s' => negb (Ascii.eqb c "-"%char) && noDash s'
  end.

(** ** The links *)

Record ChemLink := mkLink {
  link_key : string;
  x1 : Z; y1 : Z; x2 : Z; y2 : Z;
  link_color : string;
  link_opacity : float;
  link_score : Z;
}.

Definition tierColor (score : Z) : string :=
  if 75 <=? score then "#2dd4bf" else "#facc15".

Definition tierOpacity (score : Z) : float :=
  if 75 <=? score then 0.7%float else 0.5%float.

(** The state of the two loops: [links] and [checkedPairs]. *)
Record LinkLoop := mkLoop { links : list ChemLink; checkedPairs : gset string }.

Section Links.
Context `{ChemistryScore}.
Variable players : list Player.
Variable chemistry : gmap string (gmap string Z).
Variable relationships : gmap string (gmap string PlayerRelationshipType).
Variable mentoringGroups : PerTeam (list MentoringGroup).

(** [players.find(p => p.id === slot.playerId)] *)
Definition slotPlayer (s : FormationSlot) : option Player :=
  match slot_playerId s with Some pid => findPlayer players pid | None => None end.

Definition slotsWithPlayers (f : Formation) : list FormationSlot :=
  filter (fun s => truthy (slot_playerId s) = true) (slots f).

Definition teamPosition (team : Team) (p : Position) : Position :=
  match team with away => mirrorPosition p | home => p end.

Definition pairScore (team : Team) (pA pB : Player) : Z :=
  calculateChemistryScore pA pB chemistry relationships (forTeam team mentoringGroups).

Definition linkFor (team : Team) (key : string) (pA pB : Player) : ChemLink :=
  let posA := teamPosition team (position pA) in
  let posB := teamPosition team (position pB) in
  let score := pairScore team pA pB in
  mkLink key (px posA) (py posA) (px posB) (py posB) (tierColor score) (tierOpacity score) score.

(** The body of the inner [for (const slotB of slotsWithPlayers)]. *)
Definition innerStep (team : Team) (slotA : FormationSlot) (pA : Player)
    (st : LinkLoop) (slotB : FormationSlot) : LinkLoop :=
  if String.eqb (slot_id slotA) (slot_id slotB) then st else
  let key := pairKey (slot_id slotA) (slot_id slotB) in
  if decide (key ∈ checkedPairs st) then st else
  let checked := {[key]} ∪ checkedPairs st in
  match slotPlayer slotB with
  | None => mkLoop (links st) checked
  | Some pB =>
      if slotDistanceOk (defaultPosition slotA) (defaultPosition slotB)
         && (40 <? pairScore team pA pB)
      then mkLoop (links st ++ [linkFor team key pA pB]) checked
      else mkLoop (links st) checked
  end.

(** The body of the outer loop. *)
Definition outerStep (team : Team) (sw : list FormationSlot) (st : LinkLoop)
    (slotA : FormationSlot) : LinkLoop :=
  match slotPlayer slotA with
  | None => st
  | Some pA => fold_left (innerStep team slotA pA) sw st
  end.

Definition getChemistryLinks (f : Formation) (team : Team) : list ChemLink :=
  let sw := slotsWithPlayers f in
  links (fold_left (outerStep team sw) sw (mkLoop [] ∅)).

(** The memoised [chemistryLinks]: home links, then away links, by view. *)
Definition chemistryLinks (view : TeamView) (homeF awayF : Formation) : list ChemLink :=
  (if view is view_away then [] else getChemistryLinks homeF home) ++
  (if view is view_home then [] else getChemistryLinks awayF away).

(** A pair of slots whose link the specification asks for. *)
Definition qualifies (team : Team) (sA sB : FormationSlot) : Prop :=
  exists pA pB, slotPlayer sA = Some pA /\ slotPlayer sB = Some pB /\
    slotDistanceOk (defaultPosition sA) (defaultPosition sB) = true /\
    40 < pairScore team pA pB.
End Links.

(** ** The formation-strength overlay *)

Inductive Overlay := overlay_none | overlay_points (pts : list Position) | overlay_throws.

(** [FormationStrengthOverlay]: nothing when hidden; the default positions
    of the occupied slots of the active team's formation (mirrored for the
    away side), and nothing when fewer than three; reading [slots] of a
    missing formation throws. *)
Definition formationStrengthOverlay (t : TacticsState) (u : UIState) : Overlay :=
  if negb (uiFlag u "isFormationStrengthVisible") then overlay_none else
  let team := if activeTeamContext u is view_away then away else home in
  match formations t !! forTeam team (activeFormationIds t) with
  | None => overlay_throws
  | Some f =>
      let pts := map (fun s => teamPosition team (defaultPosition s))
                   (filter (fun s => truthy (slot_playerId s) = true) (slots f)) in
      if (length pts <? 3)%nat then overlay_none else overlay_points pts
  end.

(** ** Lemmas *)

Lemma append_dash_inj a b c d :
  noDash a = true -> noDash c = true -> a +:+ "-" +:+ b = c +:+ "-" +:+ d -> a = c /\ b = d.
Proof.
  revert c. induction a as [|x a IH]; intros [|y c] Ha Hc Heq; simpl in *.
  - by injection Heq.
  - injection Heq as <- _. discriminate Hc.
  - injection Heq as -> _. discriminate Ha.
  - injection Heq as <- Heq. apply andb_prop in Ha as [_ Ha]. apply andb_prop in Hc as [_ Hc].
    destruct (IH c Ha Hc Heq) as [-> ->]. done.
Qed.

Lemma sortPair_cases a b : sortPair a b = (a, b) \/ sortPair a b = (b, a).
Proof. unfold sortPair. destruct (String.leb a b); auto. Qed.

Lemma pairKey_inj a b c d :
  noDash a = true -> noDash b = true -> noDash c = true -> noDash d = true ->
  pairKey a b = pairKey c d -> (a = c /\ b = d) \/ (a = d /\ b = c).
Proof.
  intros Ha Hb Hc Hd. unfold pairKey.
  destruct (sortPair_cases a b) as [E|E]; rewrite E;
  destruct (sortPair_cases c d) as [F|F]; rewrite F; intros Heq;
  apply append_dash_inj in Heq; naive_solver.
Qed.

Section Proofs.
Context `{ChemistryScore}.
Variable players : list Player.
Variable chemistry : gmap string (gmap string Z).
Variable relationships : gmap string (gmap string PlayerRelationshipType).
Variable groups : PerTeam (list MentoringGroup).
Variable team : Team.

Abbreviation inner := (innerStep players chemistry relationships groups team).
Abbreviation outer := (outerStep players chemistry relationships groups team).
Abbreviation score := (pairScore chemistry relationships groups team).

(** Both loops only add keys and links. *)
Lemma innerStep_mono a pA st b :
  checkedPairs st ⊆ checkedPairs (inner a pA st b) /\
  (forall l, l ∈ links st -> l ∈ links (inner a pA st b)).
Proof.
  unfold innerStep. case_match; [done|]. case_decide; [done|].
  repeat case_match; simpl; split; try set_solver; intros l Hl;
    rewrite ?elem_of_app; auto.
Qed.

Lemma outerStep_mono sw st a :
  checkedPairs st ⊆ checkedPairs (outer sw st a) /\
  (forall l, l ∈ links st -> l ∈ links (outer sw st a)).
Proof.
  unfold outerStep. case_match; [|done].
  apply (fold_left_ind (fun st' => checkedPairs st ⊆ checkedPairs st' /\
    (forall l, l ∈ links st -> l ∈ links st'))); [done|].
  intros st' b _ [Hc Hl]. destruct (innerStep_mono a p st' b) as [Hc' Hl']. split; [set_solver|auto].
Qed.

(** A pushed link is the link of a pair that qualifies. *)
Definition sound (sw : list FormationSlot) (st : LinkLoop) : Prop :=
  forall l, l ∈ links st -> exists sA sB pA pB,
    sA ∈ sw /\ sB ∈ sw /\ slot_id sA <> slot_id sB /\
    slotPlayer players sA = Some pA /\ slotPlayer players sB = Some pB /\
    slotDistanceOk (defaultPosition sA) (defaultPosition sB) = true /\
    40 < score pA pB /\
    l = linkFor chemistry relationships groups team (pairKey (slot_id sA) (slot_id sB)) pA pB.

Lemma innerStep_sound sw a pA st b :
  a ∈ sw -> b ∈ sw -> slotPlayer players a = Some pA -> sound sw st -> sound sw (inner a pA st b).
Proof.
  intros Ha Hb HpA Hs. unfold innerStep.
  destruct (String.eqb_spec (slot_id a) (slot_id b)) as [|Hne]; [done|].
  case_decide; [done|]. destruct (slotPlayer players b) as [pB|] eqn:HpB; [|done].
  destruct (slotDistanceOk _ _ && _) eqn:Hq; [|done].
  apply andb_prop in Hq as [Hd Hsc]. apply Z.ltb_lt in Hsc.
  intros l Hl. simpl in Hl. apply elem_of_app in Hl as [Hl|Hl]; [by apply Hs|].
  apply list_elem_of_singleton in Hl as ->. exists a, b, pA, pB. done.
Qed.

Lemma getChemistryLinks_sound_aux f :
  sound (slotsWithPlayers f)
    (fold_left (outer (slotsWithPlayers f)) (slotsWithPlayers f) (mkLoop [] ∅)).
Proof.
  apply fold_left_ind; [intros l Hl; by apply not_elem_of_nil in Hl|].
  intros st a Ha Hs. unfold outerStep. destruct (slotPlayer players a) as [pA|] eqn:HpA; [|done].
  apply fold_left_ind; [done|]. intros st' b Hb. by apply innerStep_sound.
Qed.

(** Every link key is checked, and keys are never pushed twice. *)
Definition keys_ok (st : LinkLoop) : Prop :=
  NoDup (map link_key (links st)) /\ Forall (fun l => link_key l ∈ checkedPairs st) (links st).

Lemma innerStep_keys a pA st b : keys_ok st -> keys_ok (inner a pA st b).
Proof.
  intros [Hnd Hin]. unfold innerStep. case_match; [done|]. case_decide as Hk; [done|].
  assert (Forall (fun l => link_key l ∈ {[pairKey (slot_id a) (slot_id b)]} ∪ checkedPairs st)
            (links st)) as Hin'.
  { eapply Forall_impl; [exact Hin|]. set_solver. }
  repeat case_match; split; simpl; try done.
  - rewrite map_app. apply NoDup_app. split; [done|]. split; [|apply NoDup_singleton].
    intros k Hk1 Hk2. simpl in Hk2. apply list_elem_of_singleton in Hk2 as ->.
    apply list_elem_of_fmap in Hk1 as (l & Hl & Hl'). rewrite Forall_forall in Hin.
    apply Hk. rewrite Hl. by apply Hin.
  - apply Forall_app. split; [done|]. apply Forall_singleton. simpl. set_solver.
Qed.

Lemma slotDistanceOk_sym a b : slotDistanceOk a b = slotDistanceOk b a.
Proof. unfold slotDistanceOk. by rewrite dist2_sym. Qed.

(** The hypotheses of completeness: a symmetric score, slot ids unique and
    free of the separator of [pairKey]. *)
Section Complete.
Hypothesis score_sym : forall a b c r g,
  calculateChemistryScore a b c r g = calculateChemistryScore b a c r g.
Variable sw : list FormationSlot.
Hypothesis sw_nodup : NoDup (map slot_id sw).
Hypothesis sw_nodash : Forall (fun s => noDash (slot_id s) = true) sw.

Lemma qualifies_sym a b :
  qualifies players chemistry relationships groups team a b ->
  qualifies players chemistry relationships groups team b a.
Proof.
  intros (pA & pB & Ha & Hb & Hd & Hs). exists pB, pA.
  rewrite slotDistanceOk_sym. unfold pairScore in *. rewrite score_sym. done.
Qed.

Lemma same_key x y a b :
  x ∈ sw -> y ∈ sw -> a ∈ sw -> b ∈ sw ->
  pairKey (slot_id x) (slot_id y) = pairKey (slot_id a) (slot_id b) ->
  (x = a /\ y = b) \/ (x = b /\ y = a).
Proof.
  intros Hx Hy Ha Hb Hk. rewrite Forall_forall in sw_nodash.
  assert (forall s t, s ∈ sw -> t ∈ sw -> slot_id s = slot_id t -> s = t) as Hinj.
  { intros s t Hs Ht Hst.
    apply list_elem_of_lookup_1 in Hs as (i & Hi). apply list_elem_of_lookup_1 in Ht as (j & Hj).
    assert (i = j) as ->; [|congruence].
    eapply NoDup_lookup; [exact sw_nodup| |]; rewrite list_lookup_fmap; [rewrite Hi|rewrite Hj]; simpl;
      [reflexivity|by rewrite Hst]. }
  apply pairKey_inj in Hk; try (apply sw_nodash; done).
  destruct Hk as [[E1 E2]|[E1 E2]]; [left|right]; split; apply Hinj; done.
Qed.

(** A checked key of a qualifying pair has its link. *)
Definition complete (st : LinkLoop) : Prop :=
  forall x y, x ∈ sw -> y ∈ sw -> slot_id x <> slot_id y ->
    pairKey (slot_id x) (slot_id y) ∈ checkedPairs st ->
    qualifies players chemistry relationships groups team x y ->
    exists l, l ∈ links st /\ link_key l = pairKey (slot_id x) (slot_id y).

Lemma innerStep_complete a pA st b :
  a ∈ sw -> b ∈ sw -> slotPlayer players a = Some pA -> complete st -> complete (inner a pA st b).
Proof.
  intros Ha Hb HpA Hc x y Hx Hy Hxy Hk Hq.
  destruct (innerStep_mono a pA st b) as [_ Hl].
  destruct (decide (pairKey (slot_id x) (slot_id y) ∈ checkedPairs st)) as [Hold|Hnew].
  { destruct (Hc x y Hx Hy Hxy Hold Hq) as (l & Hl1 & Hl2). exists l. auto. }
  unfold innerStep in *.
  destruct (String.eqb_spec (slot_id a) (slot_id b)) as [|Hab]; [done|].
  case_decide as Hin; [done|].
  assert (pairKey (slot_id x) (slot_id y) = pairKey (slot_id a) (slot_id b)) as Hkey.
  { destruct (slotPlayer players b); [case_match|]; simpl in Hk; set_solver. }
  assert (qualifies players chemistry relationships groups team a b) as (pA' & pB & Ha' & Hb' & Hd & Hs).
  { destruct (same_key x y a b Hx Hy Ha Hb Hkey) as [[-> ->]|[-> ->]]; [done|by apply qualifies_sym]. }
  rewrite HpA in Ha'. injection Ha' as <-. rewrite Hb', Hd. apply Z.ltb_lt in Hs. rewrite Hs.
  eexists. split; [simpl; apply elem_of_app; right; by left|]. simpl. by rewrite Hkey.
Qed.

Lemma outerStep_complete st a : a ∈ sw -> complete st -> complete (outer sw st a).
Proof.
  intros Ha Hc. unfold outerStep. destruct (slotPlayer players a) as [pA|] eqn:HpA; [|done].
  apply fold_left_ind; [done|]. intros st' b Hb. by apply innerStep_complete.
Qed.

(** After the inner loop of [a], the key of [a] with every other slot is checked. *)
Lemma inner_covers a pA l st b :
  b ∈ l -> slot_id a <> slot_id b ->
  pairKey (slot_id a) (slot_id b) ∈ checkedPairs (fold_left (inner a pA) l st).
Proof.
  revert st. induction l as [|c l IH]; intros st Hb Hab; [by apply not_elem_of_nil in Hb|].
  simpl. apply elem_of_cons in Hb as [<-|Hb]; [|by apply IH].
  apply (fold_left_ind (fun st' => pairKey (slot_id a) (slot_id b) ∈ checkedPairs st'));
    [|intros s' c _ Hs'; by apply innerStep_mono].
  unfold innerStep. destruct (String.eqb_spec (slot_id a) (slot_id b)); [done|].
  case_decide; [done|]. repeat case_match; simpl; set_solver.
Qed.

Lemma outer_covers l st a pA b :
  a ∈ l -> slotPlayer players a = Some pA -> b ∈ sw -> slot_id a <> slot_id b ->
  pairKey (slot_id a) (slot_id b) ∈ checkedPairs (fold_left (outer sw) l st).
Proof.
  revert st. induction l as [|c l IH]; intros st Ha HpA Hb Hab; [by apply not_elem_of_nil in Ha|].
  simpl. apply elem_of_cons in Ha as [<-|Ha]; [|by apply IH].
  apply (fold_left_ind (fun st' => pairKey (slot_id a) (slot_id b) ∈ checkedPairs st'));
    [|intros s' d _ Hs'; by apply outerStep_mono].
  unfold outerStep. rewrite HpA. by apply inner_covers.
Qed.
End Complete.
End Proofs.

Lemma slotsWithPlayers_nodup f :
  NoDup (map slot_id (slots f)) -> NoDup (map slot_id (slotsWithPlayers f)).
Proof. apply NoDup_map_filter. Qed.

Lemma slotsWithPlayers_nodash f :
  Forall (fun s => noDash (slot_id s) = true) (slots f) ->
  Forall (fun s => noDash (slot_id s) = true) (slotsWithPlayers f).
Proof.
  rewrite !Forall_forall. intros Hf s Hs. apply list_elem_of_filter in Hs as [_ Hs]. by apply Hf.
Qed.

(** ** Theorems *)

Section Theorems.
Context `{ChemistryScore}.
Variable players : list Player.
Variable chemistry : gmap string (gmap string Z).
Variable relationships : gmap string (gmap string PlayerRelationshipType).
Variable groups : PerTeam (list MentoringGroup).

(** C31: Every link drawn joins the players of two distinct occupied slots
    whose default positions are within 30 of each other and whose score is
    above 40; it is keyed by the sorted pair of slot ids, drawn between the
    players' live positions (mirrored on the away side) and coloured by
    tier. *)
Theorem getChemistryLinks_sound f team l :
  l ∈ getChemistryLinks players chemistry relationships groups f team ->
  exists sA sB pA pB,
    sA ∈ slotsWithPlayers f /\ sB ∈ slotsWithPlayers f /\ slot_id sA <> slot_id sB /\
    slotPlayer players sA = Some pA /\ slotPlayer players sB = Some pB /\
    dist2 (defaultPosition sA) (defaultPosition sB) < 900 /\
    40 < pairScore chemistry relationships groups team pA pB /\
    l = linkFor chemistry relationships groups team (pairKey (slot_id sA) (slot_id sB)) pA pB.
Proof.
  intros Hl. destruct (getChemistryLinks_sound_aux players chemistry relationships groups team f l Hl)
    as (sA & sB & pA & pB & ? & ? & ? & ? & ? & Hd & ? & ?).
  apply slotDistanceOk_iff in Hd. exists sA, sB, pA, pB. done.
Qed.

(** C10: No two links of a formation have the same key: each unordered pair
    of slots is drawn at most once. *)
Theorem getChemistryLinks_nodup f team :
  NoDup (map link_key (getChemistryLinks players chemistry relationships groups f team)).
Proof.
  unfold getChemistryLinks.
  apply (fold_left_ind keys_ok); [split; [constructor|by apply Forall_nil]|].
  intros st a _ Hk. unfold outerStep. case_match; [|done].
  apply fold_left_ind; [done|]. intros st' b _. apply innerStep_keys.
Qed.

(** C30: With a symmetric score and slot ids that are unique and contain no
    '-', every pair of occupied slots that qualifies gets its link. *)
Theorem getChemistryLinks_complete f team sA sB :
  (forall a b c r g, calculateChemistryScore a b c r g = calculateChemistryScore b a c r g) ->
  NoDup (map slot_id (slots f)) -> Forall (fun s => noDash (slot_id s) = true) (slots f) ->
  sA ∈ slotsWithPlayers f -> sB ∈ slotsWithPlayers f -> slot_id sA <> slot_id sB ->
  qualifies players chemistry relationships groups team sA sB ->
  exists l, l ∈ getChemistryLinks players chemistry relationships groups f team /\
    link_key l = pairKey (slot_id sA) (slot_id sB) /\ 40 < link_score l.
Proof.
  intros Hsym Hnd Hdash HA HB Hab Hq.
  pose proof (slotsWithPlayers_nodup f Hnd) as Hnd'.
  pose proof (slotsWithPlayers_nodash f Hdash) as Hdash'.
  assert (complete players chemistry relationships groups team (slotsWithPlayers f)
            (fold_left (outerStep players chemistry relationships groups team (slotsWithPlayers f))
               (slotsWithPlayers f) (mkLoop [] ∅))) as Hc.
  { apply fold_left_ind; [intros ? ? ? ? ? Hk; set_solver|].
    intros st a Ha Hst. by apply outerStep_complete. }
  destruct Hq as (pA & pB & HpA & HpB & Hd & Hs).
  destruct (Hc sA sB HA HB Hab) as (l & Hl & Hkey).
  - eapply outer_covers; eauto.
  - exists pA, pB. done.
  - exists l. split; [done|]. split; [done|].
    destruct (getChemistryLinks_sound_aux players chemistry relationships groups team f l Hl)
      as (? & ? & ? & ? & _ & _ & _ & _ & _ & _ & Hsc & ->). done.
Qed.
End Theorems.

(** A pair whose score is exactly 40 is not drawn: with every score
    equal to 40 a formation has no link at all (the specification puts 40
    in the weak tier). *)
Theorem score_40_not_rendered players chemistry relationships groups f team :
  getChemistryLinks (H := constScore 40) players chemistry relationships groups f team = [].
Proof.
  destruct (getChemistryLinks (H := constScore 40) players chemistry relationships groups f team)
    as [|l ls] eqn:E; [done|].
  destruct (getChemistryLinks_sound_aux (H := constScore 40) players chemistry relationships
              groups team f l) as (? & ? & ? & ? & _ & _ & _ & _ & _ & _ & Hsc & _).
  - unfold getChemistryLinks in E. rewrite E. by left.
  - unfold pairScore in Hsc. simpl in Hsc. lia.
Qed.

(** ** Witnesses *)

Lemma getChemistryLinks_sound_witness :
  exists sA sB pA pB,
    sA ∈ slotsWithPlayers formation_442 /\ sB ∈ slotsWithPlayers formation_442 /\
    slot_id sA <> slot_id sB /\
    slotPlayer defaultPlayers sA = Some pA /\ slotPlayer defaultPlayers sB = Some pB /\
    dist2 (defaultPosition sA) (defaultPosition sB) < 900 /\
    40 < pairScore (H := constScore 80) ∅ ∅ (mkPerTeam [] []) home pA pB /\
    mkLink "s1-s3" 8 50 0 0 "#2dd4bf" 0.7%float 80 =
      linkFor (H := constScore 80) ∅ ∅ (mkPerTeam [] []) home (pairKey (slot_id sA) (slot_id sB)) pA pB.
Proof.
  apply (getChemistryLinks_sound (H := constScore 80) defaultPlayers ∅ ∅ (mkPerTeam [] [])
           formation_442 home).
  vm_compute. left.
Defined.

Lemma getChemistryLinks_complete_witness :
  exists l, l ∈ getChemistryLinks (H := constScore 80) defaultPlayers ∅ ∅ (mkPerTeam [] [])
                 formation_442 home /\
    link_key l = pairKey "s1" "s3" /\ 40 < link_score l.
Proof.
  apply (getChemistryLinks_complete (H := constScore 80) defaultPlayers ∅ ∅ (mkPerTeam [] [])
           formation_442 home (seedSlot "s1" GK 8 50 (Some "p1"))
           (seedSlot "s3" DF 25 60 (Some "player4_demo"))).
  - reflexivity.
  - decide_key.
  - decide_key.
  - apply (list_elem_of_lookup_2 _ 0). reflexivity.
  - apply (list_elem_of_lookup_2 _ 2). reflexivity.
  - discriminate.
  - eexists _, _. split; [reflexivity|]. split; [reflexivity|]. split; [reflexivity|].
    unfold pairScore. simpl. lia.
Defined.
