(* ===== verification/Auth.v ===== *)
(** * Auth: the login and signup forms and the route table

    [validateForm] of [src/pages/LoginPage.tsx] (lines 36-53) and of
    [src/pages/SignupPage.tsx] (lines 40-63) check the email against the
    regular expression [/\S+@\S+\.\S+/] (a match anywhere in the string),
    the password length and, at signup, the confirmation; the pages
    themselves, which call the authentication service with a valid form,
    are the state machines of [Forms].
    [ProtectedRoute] ([src/components/ProtectedRoute.tsx]) and the route
    table of [src/App.tsx] (lines 48-78) decide which page a path shows.

    The regular expression is a term of a small [regex] syntax whose
    meaning is the inductive [re_match]; the executable matcher [matchK]
    (continuation-passing, trying every split) is proved to decide it, and
    for the email pattern the meaning is spelled out as [email_like].
    [\s] is the ASCII white space; strings are byte strings. Paths are
    given as their segments, as React Router splits them. *)

From S2P Require Import Prelude Domain.
From Stdlib Require Import Ascii.

(** ** The email pattern *)

(** [\s] on ASCII: space, tab, line feed, vertical tab, form feed, carriage return. *)
Definition isWs (c : ascii) : bool :=
  match nat_of_ascii c with 32 | 9 | 10 | 11 | 12 | 13 => true | _ => false end%nat.

Definition nonWs (c : ascii) : bool := negb (isWs c).

(** [p+] followed by the rest of the pattern [k], trying every length. *)
Fixpoint plus_then (p : ascii -> bool) (k : list ascii -> bool) (s : list ascii) : bool :=
  match s with
  | [] => false
  | c :: t => p c && (k t || plus_then p k t)
  end.

(** A literal character followed by [k]. *)
Definition lit (c : ascii) (k : list ascii -> bool) (s : list ascii) : bool :=
  match s with
  | [] => false
  | d :: t => Ascii.eqb d c && k t
  end.

(** The fragment of regular expressions the pattern uses: a literal, one
    or more characters of a class, and concatenation. *)
Inductive regex :=
| RChar (c : ascii)
| RPlus (p : ascii -> bool)
| RSeq (r1 r2 : regex).

(** The meaning of a regular expression: the words it matches. *)
Inductive re_match : regex -> list ascii -> Prop :=
| match_char c : re_match (RChar c) [c]
| match_plus p w : w <> [] -> Forall (fun c => p c = true) w -> re_match (RPlus p) w
| match_seq r1 r2 w1 w2 :
    re_match r1 w1 -> re_match r2 w2 -> re_match (RSeq r1 r2) (w1 ++ w2).

(** The matcher: [r] at the start of the input, then the rest [k]. *)
Fixpoint matchK (r : regex) (k : list ascii -> bool) : list ascii -> bool :=
  match r with
  | RChar c => lit c k
  | RPlus p => plus_then p k
  | RSeq r1 r2 => matchK r1 (matchK r2 k)
  end.

(** [RegExp.prototype.test]: a match starting anywhere. *)
Fixpoint search (m : list ascii -> bool) (s : list ascii) : bool :=
  m s || match s with [] => false | _ :: t => search m t end.

Definition regexTest (r : regex) (s : list ascii) : bool := search (matchK r (fun _ => true)) s.

(** [/\S+@\S+\.\S+/] *)
Definition emailPattern : regex :=
  RSeq (RPlus nonWs) (RSeq (RChar "@") (RSeq (RPlus nonWs) (RSeq (RChar ".") (RPlus nonWs)))).

Definition emailRegexTest (s : string) : bool :=
  regexTest emailPattern (String.list_ascii_of_string s).

(** The meaning of the pattern: some substring is [x@y.z] with [x], [y],
    [z] non-empty and free of white space. *)
Definition email_like (s : string) : Prop :=
  exists pre x y z post,
    String.list_ascii_of_string s = pre ++ x ++ ["@"%char] ++ y ++ ["."%char] ++ z ++ post /\
    x <> [] /\ y <> [] /\ z <> [] /\ Forall (fun c => nonWs c = true) (x ++ y ++ z).

(** ** The forms *)

Record FormErrors := mkErrors {
  err_email : option string;
  err_password : option string;
  err_confirm : option string;
}.

(** [Object.keys(newErrors).length === 0] *)
Definition noErrors (e : FormErrors) : bool :=
  match e with mkErrors None None None => true | _ => false end.

Definition emailError (email : string) : option string :=
  if String.eqb email "" then Some "Email is required"
  else if negb (emailRegexTest email) then Some "Email is invalid" else None.

Definition passwordError (password : string) : option string :=
  if String.eqb password "" then Some "Password is required"
  else if (String.length password <? 6)%nat
  then Some "Password must be at least 6 characters" else None.

Definition validateLogin (email password : string) : FormErrors * bool :=
  let e := mkErrors (emailError email) (passwordError password) None in
  (e, noErrors e).

Definition validateSignup (email password confirmPassword : string) : FormErrors * bool :=
  let c := if String.eqb confirmPassword "" then Some "Please confirm your password"
           else if negb (String.eqb password confirmPassword)
           then Some "Passwords do not match" else None in
  let e := mkErrors (emailError email) (passwordError password) c in
  (e, noErrors e).

(** How the authentication service's promise settles: with a user, by
    throwing an [Error] (its message), or by throwing anything else. *)
Inductive AuthResult := auth_ok (u : User) | auth_err (message : string) | auth_unknown.

(** [error instanceof Error ? error.message : 'An unknown error occurred'] *)
Definition errorMessage (r : AuthResult) : string :=
  match r with auth_err m => m | _ => "An unknown error occurred" end.

(** The account [handleAdminLogin] signs in after 300 ms, without the form
    or the authentication service. *)
Definition adminUser : User := mkUser "admin_user" "admin@astralfc.com" coach None.

(** ** Routes *)

Inductive Page :=
| LandingPage | LoginPage | SignupPage | DashboardPage | TacticsBoardPage
| FinancesPage | TransfersPage | TrainingPage | InboxPage | AnalyticsPage
| SettingsPage | YouthAcademyPage | StaffPage | StadiumPage | SponsorshipsPage
| LeagueTablePage | BoardObjectivesPage | NewsFeedPage | ClubHistoryPage
| MedicalCenterPage | JobSecurityPage | InternationalManagementPage
| OppositionAnalysisPage | PressConferencePage | PlayerProfilePage (playerId : string)
| SkillChallengesPage | MentoringPage.

(** A page on its own, a page inside [Layout], or a [Navigate]. *)
Inductive Element := el_page (p : Page) | el_layout (p : Page) | el_navigate (path : list string).

(** The children of the protected layout route, in the order of [App]. *)
Definition layoutRoutes : list (string * Page) :=
  [("dashboard", DashboardPage); ("tactics", TacticsBoardPage); ("finances", FinancesPage);
   ("transfers", TransfersPage); ("training", TrainingPage); ("inbox", InboxPage);
   ("analytics", AnalyticsPage); ("settings", SettingsPage); ("youth-academy", YouthAcademyPage);
   ("staff", StaffPage); ("stadium", StadiumPage); ("sponsorships", SponsorshipsPage);
   ("league-table", LeagueTablePage); ("board-objectives", BoardObjectivesPage);
   ("news-feed", NewsFeedPage); ("club-history", ClubHistoryPage);
   ("medical-center", MedicalCenterPage); ("job-security", JobSecurityPage);
   ("international-management", InternationalManagementPage);
   ("opposition-analysis", OppositionAnalysisPage); ("press-conference", PressConferencePage);
   ("skill-challenges", SkillChallengesPage); ("mentoring", MentoringPage)].

(** The child route matching a path: a static segment, or [player/:playerId]. *)
Definition protectedChild (path : list string) : option Page :=
  match path with
  | [seg] => snd <$> List.find (fun r => String.eqb r.1 seg) layoutRoutes
  | [seg; id] =>
      if String.eqb seg "player" && negb (String.eqb id "")
      then Some (PlayerProfilePage id) else None
  | _ => None
  end.

(** [ProtectedRoute]: to [/login] unless authenticated. *)
Definition protectedRoute (isAuthenticated : bool) (child : Element) : Element :=
  if isAuthenticated then child else el_navigate ["login"].

(** The route table of [App]: the public routes send an authenticated user
    to [/dashboard]; every other path is under the protected layout, whose
    catch-all [*] navigates to [/dashboard]. *)
Definition route (isAuthenticated : bool) (path : list string) : Element :=
  let public p := if isAuthenticated then el_navigate ["dashboard"] else el_page p in
  if decide (path = []) then public LandingPage
  else if decide (path = ["login"]) then public LoginPage
  else if decide (path = ["signup"]) then public SignupPage
  else protectedRoute isAuthenticated
         (match protectedChild path with
          | Some p => el_layout p
          | None => el_navigate ["dashboard"]
          end).

(** Following [Navigate]s, with fuel. *)
Fixpoint resolve (fuel : nat) (isAuthenticated : bool) (path : list string) : option Element :=
  match fuel with
  | O => None
  | S n =>
      match route isAuthenticated path with
      | el_navigate to => resolve n isAuthenticated to
      | e => Some e
      end
  end.

(** ** Lemmas *)

Lemma plus_then_spec p k s :
  plus_then p k s = true <->
  exists x rest, s = x ++ rest /\ x <> [] /\ Forall (fun c => p c = true) x /\ k rest = true.
Proof.
  induction s as [|c t IH]; simpl.
  - split; [done|]. intros (x & rest & Hs & Hx & _). destruct x; [done|discriminate].
  - rewrite andb_true_iff, orb_true_iff, IH. split.
    + intros [Hc [Hk | (x & rest & -> & Hx & Hall & Hk)]].
      * exists [c], t. repeat split; [done|by constructor|done].
      * exists (c :: x), rest. repeat split; [done|by constructor|done].
    + intros ([|c' x] & rest & Hs & Hx & Hall & Hk); [done|].
      injection Hs as <- ->. apply Forall_cons in Hall as [Hc Hall]. split; [done|].
      destruct x as [|c'' x]; [by left|right]. exists (c'' :: x), rest. done.
Qed.

Lemma lit_spec c k s : lit c k s = true <-> exists rest, s = c :: rest /\ k rest = true.
Proof.
  destruct s as [|d t]; simpl; [split; [done|]; intros (? & ? & _); discriminate|].
  rewrite andb_true_iff, Ascii.eqb_eq. split.
  - intros [-> Hk]. by exists t.
  - intros (rest & [= -> ->] & Hk). done.
Qed.

Lemma search_spec m s : search m s = true <-> exists pre suf, s = pre ++ suf /\ m suf = true.
Proof.
  induction s as [|c t IH]; simpl; rewrite orb_true_iff.
  - split; [intros [H|H]; [by exists [], []|done]|].
    intros ([|] & suf & Hs & Hm); [simpl in Hs; subst; by left|discriminate].
  - rewrite IH. split.
    + intros [Hm | (pre & suf & -> & Hm)]; [by exists [], (c :: t)|by exists (c :: pre), suf].
    + intros ([|c' pre] & suf & Hs & Hm); [simpl in Hs; subst; by left|].
      injection Hs as <- ->. right. by exists pre, suf.
Qed.

Lemma matchK_spec r : forall k s,
  matchK r k s = true <-> exists w rest, s = w ++ rest /\ re_match r w /\ k rest = true.
Proof.
  induction r as [c|p|r1 IH1 r2 IH2]; intros k s; simpl.
  - rewrite lit_spec. split.
    + intros (rest & -> & Hk). exists [c], rest. repeat split; [constructor|done].
    + intros (w & rest & -> & Hm & Hk). inversion Hm; subst. by exists rest.
  - rewrite plus_then_spec. split.
    + intros (x & rest & -> & Hx & Hall & Hk). exists x, rest. repeat split; [by constructor|done].
    + intros (w & rest & -> & Hm & Hk). inversion Hm; subst. by exists w, rest.
  - rewrite IH1. split.
    + intros (w1 & r & -> & Hm1 & Hk). apply IH2 in Hk as (w2 & rest & -> & Hm2 & Hk).
      exists (w1 ++ w2), rest. rewrite app_assoc. repeat split; [by constructor|done].
    + intros (w & rest & -> & Hm & Hk). inversion Hm as [| |? ? w1 w2 Hm1 Hm2]; subst.
      exists w1, (w2 ++ rest). rewrite app_assoc. repeat split; [done|].
      apply IH2. by exists w2, rest.
Qed.

Lemma regexTest_spec r s :
  regexTest r s = true <-> exists pre w post, s = pre ++ w ++ post /\ re_match r w.
Proof.
  unfold regexTest. rewrite search_spec. split.
  - intros (pre & suf & -> & Hm). apply matchK_spec in Hm as (w & post & -> & Hm & _).
    by exists pre, w, post.
  - intros (pre & w & post & -> & Hm). exists pre, (w ++ post). split; [done|].
    apply matchK_spec. by exists w, post.
Qed.

Lemma re_match_plus p w : re_match (RPlus p) w <-> w <> [] /\ Forall (fun c => p c = true) w.
Proof. split; [intros Hm; by inversion Hm|intros [? ?]; by constructor]. Qed.

Lemma re_match_email w :
  re_match emailPattern w <->
  exists x y z, w = x ++ ["@"%char] ++ y ++ ["."%char] ++ z /\
    x <> [] /\ y <> [] /\ z <> [] /\ Forall (fun c => nonWs c = true) (x ++ y ++ z).
Proof.
  unfold emailPattern. split.
  - intros Hm. inversion Hm as [| |? ? x w1 Hx Hw1]; subst.
    inversion Hw1 as [| |? ? a w2 Ha Hw2]; subst. inversion Ha; subst.
    inversion Hw2 as [| |? ? y w3 Hy Hw3]; subst.
    inversion Hw3 as [| |? ? b z Hb Hz]; subst. inversion Hb; subst.
    apply re_match_plus in Hx as [? ?], Hy as [? ?], Hz as [? ?].
    exists x, y, z. rewrite !Forall_app. done.
  - intros (x & y & z & -> & Hx & Hy & Hz & F). rewrite !Forall_app in F.
    destruct F as (Fx & Fy & Fz).
    repeat apply match_seq; try apply match_char; by apply re_match_plus.
Qed.

Lemma emailError_None e : emailError e = None <-> emailRegexTest e = true.
Proof.
  unfold emailError. destruct (String.eqb_spec e "") as [->|_];
    [split; [discriminate|vm_compute; discriminate]|].
  destruct (emailRegexTest e); simpl; split; congruence.
Qed.

Lemma passwordError_None p : passwordError p = None <-> (6 <= String.length p)%nat.
Proof.
  unfold passwordError. destruct (String.eqb_spec p "") as [->|_]; [simpl; split; [discriminate|lia]|].
  destruct (Nat.ltb_spec (String.length p) 6); split; intros; try discriminate; try done; lia.
Qed.

Lemma route_public b path p :
  route b path = el_page p -> b = false /\ p ∈ [LandingPage; LoginPage; SignupPage].
Proof.
  unfold route, protectedRoute. destruct b; repeat case_decide; try case_match; intros [= <-];
    split; set_solver.
Qed.

Lemma route_navigate b path to :
  route b path = el_navigate to -> to = if b then ["dashboard"] else ["login"].
Proof.
  unfold route, protectedRoute. destruct b; repeat case_decide; try case_match; by intros [= <-].
Qed.

Lemma route_layout b path p : route b path = el_layout p -> b = true.
Proof. unfold route, protectedRoute. destruct b; repeat case_decide; try case_match; done. Qed.

Lemma emailRegexTest_iff s : emailRegexTest s = true <-> email_like s.
Proof.
  unfold emailRegexTest, email_like. rewrite regexTest_spec. split.
  - intros (pre & w & post & Hs & Hm). apply re_match_email in Hm as (x & y & z & -> & H).
    exists pre, x, y, z, post. rewrite Hs, <- !app_assoc. done.
  - intros (pre & x & y & z & post & Hs & H).
    exists pre, (x ++ ["@"%char] ++ y ++ ["."%char] ++ z), post.
    split; [rewrite Hs, <- !app_assoc; done|]. apply re_match_email. by exists x, y, z.
Qed.

Lemma validateLogin_iff e p :
  snd (validateLogin e p) = true <-> email_like e /\ (6 <= String.length p)%nat.
Proof.
  rewrite <- emailRegexTest_iff, <- emailError_None, <- passwordError_None.
  unfold validateLogin. simpl.
  destruct (emailError e), (passwordError p); simpl; split; try done; intros [? ?]; discriminate.
Qed.

(** ** Theorems *)

(** C40: The executable matcher of [/\S+@\S+\.\S+/] accepts a string
    exactly when some substring of it is [x@y.z] with [x], [y], [z]
    non-empty and free of white space. *)
Theorem emailRegexTest_spec s : emailRegexTest s = true <-> email_like s.
Proof. apply emailRegexTest_iff. Qed.

(** A signup form that validates has matching passwords, and the same
    email and password pass the login form's validation. *)

Theorem validateSignup_login e p c :
  snd (validateSignup e p c) = true -> p = c /\ snd (validateLogin e p) = true.
Proof.
  unfold validateSignup, validateLogin. simpl.
  destruct (String.eqb_spec c ""); [destruct (emailError e), (passwordError p); discriminate|].
  destruct (String.eqb_spec p c); [|destruct (emailError e), (passwordError p); discriminate].
  done.
Qed.

(** C23: Every path settles within three route evaluations: a visitor who
    is not signed in sees only the landing, login or signup page, and a
    signed-in user always lands inside the protected layout. *)

Theorem resolve_guard path :
  (exists p, resolve 3 false path = Some (el_page p) /\ p ∈ [LandingPage; LoginPage; SignupPage]) /\
  (exists p, resolve 3 true path = Some (el_layout p)).
Proof.
  split.
  - simpl. destruct (route false path) as [p|p|to] eqn:E.
    + apply route_public in E as [_ Hp]. eauto.
    + apply route_layout in E. discriminate.
    + apply route_navigate in E as ->. exists LoginPage. split; [reflexivity|set_solver].
  - simpl. destruct (route true path) as [p|p|to] eqn:E.
    + apply route_public in E as [? _]. discriminate.
    + eauto.
    + apply route_navigate in E as ->. eexists. reflexivity.
Qed.

(** ** Witnesses *)

Lemma validateSignup_login_witness :
  "password123" = "password123" /\ snd (validateLogin "coach@astralfc.com" "password123") = true.
Proof. apply (validateSignup_login _ _ "password123"). reflexivity. Defined.

