(* ===== verification/Forms.v ===== *)
(** * Forms: the login and signup pages as components with state

    [LoginPage] ([src/pages/LoginPage.tsx]) and [SignupPage]
    ([src/pages/SignupPage.tsx]) keep the form data, the error messages and
    an [isLoading] flag in React state.  Their handlers are one step
    function [pageStep] over that state, parameterised by the page:
    typing ([handleInputChange]), the role buttons of the signup page
    ([handleRoleChange]), submitting ([handleSubmit], which awaits the
    authentication service), the admin button of the login page
    ([handleAdminLogin], which arms a 300 ms timer), and the two
    asynchronous completions (the service's promise settling, the timer
    firing).  Every input and button carries [disabled={isLoading}], so the
    browser delivers no user event while a request is in flight; the step
    function ignores them there.  [pageView] is what the JSX shows.  The
    service itself is not under [src/]: its answer is an [AuthResult]. *)

From S2P Require Import Prelude Domain Auth.

Inductive PageKind := loginPage | signupPage.

(** The [name] attribute of an input. *)
Inductive FieldName := f_email | f_password | f_confirmPassword.

(** [LoginFormData] / [SignupFormData]; the login form has no
    confirmation and no role, which keep their signup defaults there and
    are read by no operation of the login page. *)
Record FormData := mkFormData {
  fd_email : string;
  fd_password : string;
  fd_confirmPassword : string;
  fd_role : UserRole;
}.

(** The [FormErrors] of the pages: the field messages and [general]. *)
Record PageErrors := mkPageErrors {
  pe_fields : FormErrors;
  pe_general : option string;
}.

(** What is awaited: the service's promise or the admin timer. *)
Inductive Pending := pending_service | pending_admin.

Record PageState := mkPageState {
  formData : FormData;
  errors : PageErrors;
  isLoading : bool;
  pending : option Pending;
}.

Inductive PageEvent :=
| ev_input (n : FieldName) (v : string)
| ev_role (r : UserRole)
| ev_submit
| ev_settle (r : AuthResult)
| ev_admin
| ev_adminTimer.

(** The effects a step has outside the component. *)
Inductive PageOutput :=
| out_login (email password : string)
| out_signup (email password : string) (role : UserRole)
| out_dispatch (a : Action)
| out_navigate (path : string).

(** ** The handlers *)

Definition noFormErrors : FormErrors := mkErrors None None None.
Definition noPageErrors : PageErrors := mkPageErrors noFormErrors None.

(** The [useState] initial values. *)
Definition initialFormData (k : PageKind) : FormData :=
  match k with
  | loginPage => mkFormData "coach@astralfc.com" "password123" "" coach
  | signupPage => mkFormData "" "" "" coach
  end.

Definition initialPage (k : PageKind) : PageState :=
  mkPageState (initialFormData k) noPageErrors false None.

(** The inputs each page renders. *)
Definition hasInput (k : PageKind) (n : FieldName) : bool :=
  match k, n with loginPage, f_confirmPassword => false | _, _ => true end.

Definition setField (n : FieldName) (v : string) (d : FormData) : FormData :=
  match n with
  | f_email => mkFormData v (fd_password d) (fd_confirmPassword d) (fd_role d)
  | f_password => mkFormData (fd_email d) v (fd_confirmPassword d) (fd_role d)
  | f_confirmPassword => mkFormData (fd_email d) (fd_password d) v (fd_role d)
  end.

Definition fieldError (n : FieldName) (e : FormErrors) : option string :=
  match n with f_email => err_email e | f_password => err_password e | f_confirmPassword => err_confirm e end.

(** [setErrors(prev => ({ ...prev, [name]: undefined }))] *)
Definition clearField (n : FieldName) (e : FormErrors) : FormErrors :=
  match n with
  | f_email => mkErrors None (err_password e) (err_confirm e)
  | f_password => mkErrors (err_email e) None (err_confirm e)
  | f_confirmPassword => mkErrors (err_email e) (err_password e) None
  end.

(** [validateForm] of each page. *)
Definition validatePage (k : PageKind) (d : FormData) : FormErrors * bool :=
  match k with
  | loginPage => validateLogin (fd_email d) (fd_password d)
  | signupPage => validateSignup (fd_email d) (fd_password d) (fd_confirmPassword d)
  end.

(** [authService.login(email, password)] / [authService.signup(email, password, role)] *)
Definition serviceCall (k : PageKind) (d : FormData) : PageOutput :=
  match k with
  | loginPage => out_login (fd_email d) (fd_password d)
  | signupPage => out_signup (fd_email d) (fd_password d) (fd_role d)
  end.

Definition successAction (k : PageKind) (u : User) : Action :=
  match k with loginPage => LOGIN_SUCCESS u | signupPage => SIGNUP_SUCCESS u end.

Definition failureAction (k : PageKind) (m : string) : Action :=
  match k with loginPage => LOGIN_FAILURE m | signupPage => SIGNUP_FAILURE m end.

Definition pageStep (k : PageKind) (s : PageState) (ev : PageEvent) : PageState * list PageOutput :=
  match ev with
  | ev_input n v =>
      if isLoading s || negb (hasInput k n) then (s, []) else
      let e := errors s in
      let e' := if truthy (fieldError n (pe_fields e))
                then mkPageErrors (clearField n (pe_fields e)) (pe_general e) else e in
      (mkPageState (setField n v (formData s)) e' (isLoading s) (pending s), [])
  | ev_role r =>
      if isLoading s then (s, []) else
      match k with
      | signupPage =>
          let d := formData s in
          (mkPageState (mkFormData (fd_email d) (fd_password d) (fd_confirmPassword d) r)
             (errors s) (isLoading s) (pending s), [])
      | loginPage => (s, [])
      end
  | ev_submit =>
      if isLoading s then (s, []) else
      let '(e, ok) := validatePage k (formData s) in
      if ok then (mkPageState (formData s) noPageErrors true (Some pending_service),
                  [serviceCall k (formData s)])
      else (mkPageState (formData s) (mkPageErrors e None) (isLoading s) (pending s), [])
  | ev_settle r =>
      match pending s with
      | Some pending_service =>
          match r with
          | auth_ok u =>
              (mkPageState (formData s) (errors s) false None,
               [out_dispatch (successAction k u); out_navigate "/dashboard"])
          | _ =>
              (mkPageState (formData s) (mkPageErrors noFormErrors (Some (errorMessage r))) false None,
               [out_dispatch (failureAction k (errorMessage r))])
          end
      | _ => (s, [])
      end
  | ev_admin =>
      if isLoading s then (s, []) else
      match k with
      | loginPage => (mkPageState (formData s) noPageErrors true (Some pending_admin), [])
      | signupPage => (s, [])
      end
  | ev_adminTimer =>
      match pending s with
      | Some pending_admin =>
          (mkPageState (formData s) (errors s) (isLoading s) None,
           [out_dispatch (LOGIN_SUCCESS adminUser); out_navigate "/dashboard"])
      | _ => (s, [])
      end
  end.

(** The states a page reaches from its initial state. *)
Inductive page_reach (k : PageKind) : PageState -> Prop :=
| reach_init : page_reach k (initialPage k)
| reach_step s ev : page_reach k s -> page_reach k (fst (pageStep k s ev)).

(** ** What the page shows *)

(** JavaScript's [a || b] on optional strings. *)
Definition jsOr (a b : option string) : option string := if truthy a then a else b.

(** [{x && <p>{x}</p>}] *)
Definition shown (o : option string) : option string := if truthy o then o else None.

Record PageView := mkPageView {
  emailMessage : option string;      (* also turns the input's border red *)
  passwordMessage : option string;
  confirmMessage : option string;
  alertMessage : option string;      (* [errors.general || authState.error] *)
  controlsDisabled : bool;           (* every [disabled={isLoading}] *)
  buttonSpinner : bool;              (* [isLoading ? <LoadingSpinner /> : label] *)
}.

Definition pageView (k : PageKind) (authError : option string) (s : PageState) : PageView :=
  let e := errors s in
  mkPageView (shown (err_email (pe_fields e))) (shown (err_password (pe_fields e)))
    (if k is signupPage then shown (err_confirm (pe_fields e)) else None)
    (shown (jsOr (pe_general e) authError)) (isLoading s) (isLoading s).

Definition isCall (o : PageOutput) : bool :=
  match o with out_login _ _ | out_signup _ _ _ => true | _ => false end.

(** The page invariant: while loading no message is shown, and something
    is awaited only while loading. *)
Definition page_inv (s : PageState) : Prop :=
  (isLoading s = true -> errors s = noPageErrors) /\ (pending s <> None -> isLoading s = true).

(** ** Lemmas *)

Ltac page_cases s :=
  repeat match goal with
  | |- context [isLoading s] => destruct (isLoading s) eqn:?
  | |- context [hasInput ?k ?n] => destruct (hasInput k n)
  | |- context [validatePage ?k ?d] => destruct (validatePage k d) as [? []]
  | |- context [pending s] => destruct (pending s) as [[]|] eqn:?
  | |- context [match ?k with loginPage => _ | signupPage => _ end] => destruct k
  | |- context [match ?r with auth_ok _ => _ | _ => _ end] => destruct r
  end.

Lemma pageStep_inv k s ev : page_inv s -> page_inv (fst (pageStep k s ev)).
Proof.
  unfold page_inv. intros [Hl Hp].
  destruct ev; cbn [pageStep]; page_cases s; cbn; intuition congruence.
Qed.

Lemma page_reach_inv_l k s : page_reach k s -> page_inv s.
Proof. induction 1; [done|]. by apply pageStep_inv. Qed.

(** Only a submit outside loading calls the service. *)
Lemma pageStep_calls k s ev o :
  In o (snd (pageStep k s ev)) -> isCall o = true -> ev = ev_submit /\ isLoading s = false.
Proof.
  destruct ev as [n v|r| |r| |]; cbn [pageStep].
  - destruct (_ || _); done.
  - destruct (isLoading s); [done|]. by destruct k.
  - destruct (isLoading s); [done|]. by destruct (validatePage k (formData s)) as [e []].
  - destruct (pending s) as [[]|]; try done. destruct r; simpl; intuition subst; done.
  - destruct (isLoading s); [done|]. by destruct k.
  - destruct (pending s) as [[]|]; simpl; intuition subst; done.
Qed.

(** A call of the service comes from a submit of a form that validates. *)
Lemma pageStep_calls_valid k s ev o :
  In o (snd (pageStep k s ev)) -> isCall o = true -> snd (validatePage k (formData s)) = true.
Proof.
  destruct ev as [n v|r| |r| |]; cbn [pageStep].
  - destruct (_ || _); done.
  - destruct (isLoading s); [done|]. by destruct k.
  - destruct (isLoading s); [done|].
    destruct (validatePage k (formData s)) as [e []]; simpl; [done|]. intros [].
  - destruct (pending s) as [[]|]; try done. destruct r; simpl; intuition subst; done.
  - destruct (isLoading s); [done|]. by destruct k.
  - destruct (pending s) as [[]|]; simpl; intuition subst; done.
Qed.

(** ** Theorems *)

(** C12: In every state a page reaches, no error message is kept while a
    request is in flight, and a request or the admin timer is awaited only
    while the controls are disabled. *)
Theorem page_reach_inv k s : page_reach k s -> page_inv s.
Proof. apply page_reach_inv_l. Qed.

(** C14: While a request or the admin timer is awaited, no event makes the
    page call the authentication service again: at most one request is in
    flight. *)
Theorem no_concurrent_requests k s ev :
  page_reach k s -> pending s <> None ->
  Forall (fun o => isCall o = false) (snd (pageStep k s ev)).
Proof.
  intros Hr Hp. apply Forall_forall. intros o Ho.
  destruct (isCall o) eqn:Hc; [|done]. apply list_elem_of_In in Ho.
  destruct (pageStep_calls k s ev o Ho Hc) as [_ Hl].
  destruct (page_reach_inv_l k s Hr) as [_ Hinv]. rewrite Hinv in Hl by done. discriminate.
Qed.

(** C34: When the service rejects, the page dispatches the failure action
    with the error's message, enables its controls again and shows the
    message; an [Error] with an empty message shows [authState.error]
    instead. *)
Theorem failed_request_shows_error k s r a :
  pending s = Some pending_service -> (forall u, r <> auth_ok u) ->
  snd (pageStep k s (ev_settle r)) = [out_dispatch (failureAction k (errorMessage r))] /\
  controlsDisabled (pageView k a (fst (pageStep k s (ev_settle r)))) = false /\
  alertMessage (pageView k a (fst (pageStep k s (ev_settle r)))) =
    (if String.eqb (errorMessage r) "" then shown a else Some (errorMessage r)).
Proof.
  intros Hp Hr. cbn [pageStep]. rewrite Hp.
  destruct r as [u|m|]; [by destruct (Hr u)|..]; cbn; unfold shown, jsOr, truthy; [|done].
  destruct (String.eqb m "") eqn:E; simpl; by rewrite ?E.
Qed.

(** C13: The page calls the authentication service only with a form that
    passes its [validateForm]: an email in which [/\S+@\S+\.\S+/] finds some
    [x@y.z], a password of at least six characters and, on the signup page,
    a confirmation equal to the password. *)
Theorem service_call_requires_valid_form k s ev o :
  In o (snd (pageStep k s ev)) -> isCall o = true ->
  email_like (fd_email (formData s)) /\ (6 <= String.length (fd_password (formData s)))%nat /\
  (k = signupPage -> fd_confirmPassword (formData s) = fd_password (formData s)).
Proof.
  intros Ho Hc. pose proof (pageStep_calls_valid k s ev o Ho Hc) as Hv.
  destruct k; simpl in Hv.
  - apply validateLogin_iff in Hv as [He Hp]. by repeat split.
  - apply validateSignup_login in Hv as [Heq Hv]. apply validateLogin_iff in Hv as [He Hp].
    by repeat split.
Qed.

(** ** Witnesses *)

Definition submittedLogin : PageState := fst (pageStep loginPage (initialPage loginPage) ev_submit).

Lemma page_reach_inv_witness : page_inv submittedLogin.
Proof. apply (page_reach_inv loginPage). apply reach_step, reach_init. Defined.

Lemma no_concurrent_requests_witness :
  Forall (fun o => isCall o = false) (snd (pageStep loginPage submittedLogin ev_submit)).
Proof.
  apply no_concurrent_requests; [apply reach_step, reach_init|discriminate].
Defined.

Lemma failed_request_shows_error_witness :
  snd (pageStep loginPage submittedLogin (ev_settle (auth_err "Invalid credentials"))) =
    [out_dispatch (failureAction loginPage (errorMessage (auth_err "Invalid credentials")))] /\
  controlsDisabled (pageView loginPage None
    (fst (pageStep loginPage submittedLogin (ev_settle (auth_err "Invalid credentials"))))) = false /\
  alertMessage (pageView loginPage None
    (fst (pageStep loginPage submittedLogin (ev_settle (auth_err "Invalid credentials"))))) =
    (if String.eqb (errorMessage (auth_err "Invalid credentials")) "" then shown None
     else Some (errorMessage (auth_err "Invalid credentials"))).
Proof. apply failed_request_shows_error; [reflexivity|discriminate]. Defined.

Lemma service_call_requires_valid_form_witness :
  email_like "coach@astralfc.com" /\ (6 <= String.length "password123")%nat.
Proof.
  destruct (service_call_requires_valid_form loginPage (initialPage loginPage) ev_submit
              (serviceCall loginPage (formData (initialPage loginPage)))) as (He & Hp & _);
    [by left|reflexivity|].
  split; [exact He|exact Hp].
Defined.
