(* ===== verification/Navigation.v ===== *)
(** * Navigation: links, the body background and the screen a visitor sees

    [LandingPage], [LoginPage] and [SignupPage] each add the class
    [auth-bg] to [document.body] when they mount and remove it in the
    cleanup of the same effect ([src/pages/LandingPage.tsx] lines 6-11,
    [src/pages/LoginPage.tsx] lines 29-34, [src/pages/SignupPage.tsx]
    lines 33-38), and show [<Link>]s to each other.  The screen is the URL
    path, the authentication flag of [authState] and what the route table
    of [App] ([Auth.route], followed through its [Navigate]s by
    [Auth.resolve]) renders for them.  A render commits as React does:
    when the page changes, the cleanup of the page that unmounts runs
    before the effect of the page that mounts.

    The authentication flag changes with the actions of the authentication
    provider; the reducer is not under [src/] and [authReducer] is modelled
    from the specification (section 5: the provider "supplies login/logout
    outcomes as actions").  What a page's handlers emit ([Forms.pageStep])
    is applied to the screen by [applyOutput]. *)

From S2P Require Import Prelude Domain Auth Forms.
From Stdlib Require Import Ascii.

#[export] Instance Page_eq_dec : EqDecision Page.
Proof. solve_decision. Defined.

(** ** Paths *)

(** React Router's segments of a path: split at ['/'], empty segments dropped. *)
Fixpoint splitPath (s cur : string) : list string :=
  match s with
  | EmptyString => if String.eqb cur "" then [] else [cur]
  | String c r =>
      if Ascii.eqb c "/" then (if String.eqb cur "" then [] else [cur]) ++ splitPath r ""
      else splitPath r (cur ++ String c EmptyString)
  end.

Definition pathSegments (s : string) : list string := splitPath s "".

(** ** The links of the public pages *)

(** [<Link to=...>] of each page, in the order of its JSX; the pages inside
    [Layout] are not under [src/] (but [TacticsBoardPage], which has none). *)
Definition pageLinks (p : Page) : list string :=
  match p with
  | LandingPage => ["/login"; "/signup"]
  | LoginPage => ["/signup"; "/"]
  | SignupPage => ["/login"; "/"]
  | _ => []
  end.

(** The pages whose effect adds [auth-bg]. *)
Definition usesAuthBg (p : Page) : bool :=
  match p with LandingPage | LoginPage | SignupPage => true | _ => false end.

(** The page component an element mounts. *)
Definition mountedOf (e : option Element) : option Page :=
  match e with
  | Some (el_page p) | Some (el_layout p) => Some p
  | _ => None
  end.

(** The commit of a render on [document.body.classList.contains('auth-bg')]:
    nothing when the same page stays mounted; otherwise the cleanup of the
    old page ([classList.remove]), then the effect of the new one
    ([classList.add]). *)
Definition authBgCommit (old new : option Page) (cls : bool) : bool :=
  if decide (old = new) then cls else
  let cls1 := match old with Some p => if usesAuthBg p then false else cls | None => cls end in
  match new with Some p => if usesAuthBg p then true else cls1 | None => cls1 end.

(** ** The screen *)

Record Screen := mkScreen {
  sc_path : list string;
  sc_auth : bool;
  sc_shown : option Element;
  sc_authBg : bool;
}.

(** Render [path] for [auth] after the screen [old]: the route table picks
    the element, following its [Navigate]s (three evaluations settle every
    path, [Auth.resolve_guard]). *)
Definition render (path : list string) (auth : bool) (old : Screen) : Screen :=
  let shown := resolve 3 auth path in
  mkScreen path auth shown (authBgCommit (mountedOf (sc_shown old)) (mountedOf shown) (sc_authBg old)).

(** [authState.isAuthenticated] after an action of the provider. *)
Definition authReducer (a : Action) (isAuthenticated : bool) : bool :=
  match a with
  | LOGIN_SUCCESS _ | SIGNUP_SUCCESS _ => true
  | LOGOUT => false
  | _ => isAuthenticated
  end.

Inductive NavEvent :=
| nav_link (to : string)      (** a click on a [<Link>] of the page shown *)
| nav_goto (to : string)      (** [navigate(to)], or a path typed in the address bar *)
| nav_dispatch (a : Action).  (** an action reaching [authState] *)

Definition navStep (s : Screen) (e : NavEvent) : Screen :=
  match e with
  | nav_link to =>
      match sc_shown s with
      | Some (el_page p) =>
          if decide (to ∈ pageLinks p) then render (pathSegments to) (sc_auth s) s else s
      | _ => s
      end
  | nav_goto to => render (pathSegments to) (sc_auth s) s
  | nav_dispatch a => render (sc_path s) (authReducer a (sc_auth s)) s
  end.

(** The first render of the app at a path, signed out, no class on the body. *)
Definition initialScreen (path : string) : Screen :=
  render (pathSegments path) false (mkScreen (pathSegments path) false None false).

(** What a page's handlers emit, applied to the screen; the calls of the
    authentication service change nothing on screen by themselves. *)
Definition applyOutput (s : Screen) (o : PageOutput) : Screen :=
  match o with
  | out_dispatch a => navStep s (nav_dispatch a)
  | out_navigate to => navStep s (nav_goto to)
  | out_login _ _ | out_signup _ _ _ => s
  end.

Definition pageOf (k : PageKind) : Page :=
  match k with loginPage => LoginPage | signupPage => SignupPage end.

Inductive nav_reach : Screen -> Prop :=
| nav_reach_init path : nav_reach (initialScreen path)
| nav_reach_step s e : nav_reach s -> nav_reach (navStep s e).

(** Whether the shown element is a page that keeps [auth-bg] on the body. *)
Definition expectsAuthBg (e : option Element) : bool :=
  match mountedOf e with Some p => usesAuthBg p | None => false end.

(** The screen a render leaves: what the route table shows for its path
    and flag, and the body class that element expects. *)
Definition screenOk (s : Screen) : Prop :=
  sc_shown s = resolve 3 (sc_auth s) (sc_path s) /\ sc_authBg s = expectsAuthBg (sc_shown s).

(** The landing page at [/], then a click on its [Login] link. *)
Definition landingToLogin : Screen := navStep (initialScreen "/") (nav_link "/login").

(** * Lemmas *)

Lemma protectedChild_layout path p : protectedChild path = Some p -> usesAuthBg p = false.
Proof.
  unfold protectedChild. destruct path as [|seg [|id [|]]]; try discriminate.
  - destruct (List.find _ _) as [[k q]|] eqn:E; simpl; intros; simplify_eq.
    apply find_some in E as [Hin _].
    assert (Hall : Forall (fun r => usesAuthBg r.2 = false) layoutRoutes) by (repeat constructor).
    rewrite <- list_elem_of_In in Hin. rewrite Forall_forall in Hall. exact (Hall _ Hin).
  - case_match; intros; simplify_eq; done.
Qed.

Lemma route_layout_page b path p : route b path = el_layout p -> usesAuthBg p = false.
Proof.
  unfold route, protectedRoute. destruct b; repeat case_decide; try discriminate;
    destruct (protectedChild path) eqn:E; intros; simplify_eq; eauto using protectedChild_layout.
Qed.

(** What [resolve] shows: a public page only to a visitor signed out, the
    layout only around a page without [auth-bg]. *)
Lemma resolve_shown n b path e :
  resolve n b path = Some e ->
  match e with
  | el_page p => b = false /\ usesAuthBg p = true
  | el_layout p => usesAuthBg p = false
  | el_navigate _ => False
  end.
Proof.
  revert path. induction n as [|n IH]; intros path; simpl; [discriminate|].
  destruct (route b path) as [p|p|to] eqn:E; [| |apply IH]; intros; simplify_eq.
  - apply route_public in E as [-> Hp]. split; [done|]. repeat (apply elem_of_cons in Hp as [->|Hp]; [done|]).
    by apply not_elem_of_nil in Hp.
  - by apply route_layout_page in E.
Qed.

Lemma authBgCommit_tracks old new :
  authBgCommit old new (match old with Some p => usesAuthBg p | None => false end) =
  match new with Some p => usesAuthBg p | None => false end.
Proof.
  unfold authBgCommit. case_decide; [by subst|].
  destruct old as [p|], new as [q|]; try destruct (usesAuthBg p); try destruct (usesAuthBg q); done.
Qed.

Lemma render_ok path a s : sc_authBg s = expectsAuthBg (sc_shown s) -> screenOk (render path a s).
Proof.
  intros Hbg. split; [done|]. unfold render, expectsAuthBg in *; simpl.
  rewrite Hbg. apply authBgCommit_tracks.
Qed.

Lemma navStep_ok s e : screenOk s -> screenOk (navStep s e).
Proof.
  intros Hok. pose proof (fun path a => render_ok path a s (proj2 Hok)) as Hr.
  destruct e as [to|to|a]; simpl; try apply Hr.
  destruct (sc_shown s) as [[p|p|to']|]; try exact Hok. case_decide; [apply Hr|exact Hok].
Qed.

Lemma nav_reach_ok s : nav_reach s -> screenOk s.
Proof.
  induction 1 as [path|s e _ IH]; [apply render_ok; reflexivity|by apply navStep_ok].
Qed.

Lemma applyOutputs_reach s outs : nav_reach s -> nav_reach (fold_left applyOutput outs s).
Proof.
  revert s. induction outs as [|o outs IH]; intros s Hs; simpl; [done|].
  apply IH. destruct o; [exact Hs|exact Hs|apply nav_reach_step, Hs..].
Qed.

(** * Theorems *)

(** C21: Whatever sequence of link clicks, navigations and authentication
    actions a visitor goes through, [document.body] has the class [auth-bg]
    exactly when a public page is shown, and a public page is shown only to
    a visitor who is signed out: the cleanup of the page that leaves runs
    before the effect of the page that arrives. *)
Theorem nav_authBg_invariant s :
  nav_reach s ->
  (sc_authBg s = true <-> exists p, sc_shown s = Some (el_page p)) /\
  (forall p, sc_shown s = Some (el_page p) -> sc_auth s = false /\ usesAuthBg p = true).
Proof.
  intros Hr. destruct (nav_reach_ok s Hr) as [Hs Hbg].
  assert (Hsh : forall e, sc_shown s = Some e -> match e with
            | el_page p => sc_auth s = false /\ usesAuthBg p = true
            | el_layout p => usesAuthBg p = false | el_navigate _ => False end).
  { intros e He. rewrite Hs in He. by apply resolve_shown in He. }
  rewrite Hbg. unfold expectsAuthBg. split.
  - destruct (sc_shown s) as [e|] eqn:E; [|split; [discriminate|intros [? [=]]]].
    specialize (Hsh e eq_refl). destruct e as [p|p|to]; simpl.
    + destruct Hsh as [_ ->]. split; [eauto|done].
    + rewrite Hsh. split; [discriminate|intros [? [=]]].
    + done.
  - intros p Hp. exact (Hsh _ Hp).
Qed.

(** C22: When the authentication service accepts the login or signup request
    of the page, the success action and [navigate('/dashboard')] it emits
    take any screen the app can be in to the dashboard inside the layout,
    signed in, with [auth-bg] removed from the body. *)
Theorem auth_success_lands_on_dashboard k sc s u :
  nav_reach sc -> pending s = Some pending_service ->
  let sc' := fold_left applyOutput (snd (pageStep k s (ev_settle (auth_ok u)))) sc in
  sc_auth sc' = true /\ sc_shown sc' = Some (el_layout DashboardPage) /\ sc_authBg sc' = false.
Proof.
  intros Hr Hp sc'.
  assert (Hok : screenOk sc') by (apply nav_reach_ok, applyOutputs_reach, Hr).
  assert (Hout : snd (pageStep k s (ev_settle (auth_ok u))) =
                 [out_dispatch (successAction k u); out_navigate "/dashboard"])
    by (simpl; by rewrite Hp).
  assert (Ha : authReducer (successAction k u) (sc_auth sc) = true) by (by destruct k).
  destruct Hok as [_ Hbg]. unfold sc' in *. rewrite Hout in *.
  cbn [fold_left applyOutput navStep] in *. rewrite Hbg.
  cbn [render sc_auth sc_shown]. rewrite Ha. by split.
Qed.

(** ** Witnesses *)

Lemma nav_authBg_invariant_witness :
  sc_shown landingToLogin = Some (el_page LoginPage) /\ sc_authBg landingToLogin = true.
Proof.
  assert (Hr : nav_reach landingToLogin) by apply nav_reach_step, nav_reach_init.
  split; [reflexivity|]. apply (proj1 (nav_authBg_invariant landingToLogin Hr)).
  exists LoginPage. reflexivity.
Defined.

Lemma auth_success_lands_on_dashboard_witness :
  sc_shown (fold_left applyOutput
              (snd (pageStep loginPage submittedLogin (ev_settle (auth_ok adminUser))))
              (initialScreen "/login")) = Some (el_layout DashboardPage).
Proof.
  pose proof (auth_success_lands_on_dashboard loginPage (initialScreen "/login")
                submittedLogin adminUser (nav_reach_init "/login") eq_refl) as H.
  cbv zeta in H. destruct H as (_ & H & _). exact H.
Defined.
