(* ===== verification/Views.v ===== *)
(** * Views: keyboard shortcuts and the player token

    The keyboard handler of [Layout] ([src/components/Layout.tsx], lines
    73-103): Ctrl/Cmd+R dispatches [SOFT_RESET_APP], the letters
    v/a/l/r/p/t choose a drawing tool unless the presentation mode is on,
    and keys typed into a form field are ignored.  [PlayerToken]
    ([src/components/PlayerToken.tsx], lines 50-109): a token can be dragged
    only with the select tool outside presentation mode, and the drag
    carries the player's id to the drop handlers of [SlotAction]. *)

From S2P Require Import Prelude Geometry Domain SlotAction.
From Stdlib Require Import Ascii.

(** ** Keyboard shortcuts *)

Record KeyEvent := mkKey {
  key : string;
  ctrlKey : bool;
  metaKey : bool;
  inFormField : bool;  (* [target.closest('input, textarea, select')] *)
}.

Record KeyOutcome := mkKeyOutcome {
  prevented : bool;
  key_dispatch : option Action;
}.

(** [toLowerCase] on ASCII. *)
Definition lowerChar (c : ascii) : ascii :=
  let n := nat_of_ascii c in
  if (65 <=? n)%nat && (n <=? 90)%nat then ascii_of_nat (n + 32) else c.

Fixpoint toLowerCase (s : string) : string :=
  match s with
  | EmptyString => EmptyString
  | String c s' => String (lowerChar c) (toLowerCase s')
  end.

(** [keyMap] *)
Definition keyMap (k : string) : option DrawingTool :=
  if String.eqb k "v" then Some select
  else if String.eqb k "a" then Some arrow
  else if String.eqb k "l" then Some line
  else if String.eqb k "r" then Some zone
  else if String.eqb k "p" then Some pen
  else if String.eqb k "t" then Some text
  else None.

Definition handleKeyDown (isPresentationMode : bool) (e : KeyEvent) : KeyOutcome :=
  if inFormField e then mkKeyOutcome false None
  else if (ctrlKey e || metaKey e) && String.eqb (toLowerCase (key e)) "r"
  then mkKeyOutcome true (Some SOFT_RESET_APP)
  else match keyMap (toLowerCase (key e)) with
       | Some tool =>
           if negb isPresentationMode then mkKeyOutcome true (Some (SET_DRAWING_TOOL tool))
           else mkKeyOutcome false None
       | None => mkKeyOutcome false None
       end.

(** The key that selects each tool. *)
Definition toolKey (t : DrawingTool) : string :=
  match t with
  | select => "v" | arrow => "a" | line => "l" | zone => "r" | pen => "p" | text => "t"
  end.

(** ** The player token *)

Definition isDraggable (u : UIState) : bool :=
  bool_decide (drawingTool u = select) && negb (isPresentationMode u).

Definition isCaptain (t : TacticsState) (p : Player) : bool :=
  bool_decide (Some (player_id p) = at_home (captainIds t)) ||
  bool_decide (Some (player_id p) = at_away (captainIds t)).

(** [handleDragStart]: the drag data ([text/plain]) is the player's id; a
    token that cannot be dragged cancels the drag, and the drop then reads
    the empty string. *)
Definition dragData (u : UIState) (p : Player) : string :=
  if isDraggable u then player_id p else "".

(** [handleSelect] *)
Definition handleSelect (p : Player) : Action := SELECT_PLAYER (Some (player_id p)).

Inductive AvailabilityIcon := icon_minor_injury | icon_major_injury | icon_suspended.

Definition availabilityIcon (p : Player) : option AvailabilityIcon :=
  match availability p with
  | MinorInjury => Some icon_minor_injury
  | MajorInjury => Some icon_major_injury
  | Suspended => Some icon_suspended
  | _ => None
  end.

Definition moraleColor (p : Player) : string :=
  match morale p with
  | Excellent => "text-green-400" | Good => "text-green-500" | Okay => "text-yellow-400"
  | Poor => "text-orange-500" | VeryPoor => "text-red-500"
  end.

Definition staminaColor (p : Player) : string :=
  if 70 <? stamina p then "bg-green-500"
  else if 40 <? stamina p then "bg-yellow-500" else "bg-red-500".

(** ** Scenarios *)

(** The seed UI with the arrow tool chosen. *)
Definition arrowToolUI : UIState :=
  mkUI view_both None None None arrow snap None None false false None false None INITIAL_ui_rest.

(** The first player of the seed roster. *)
Definition goalkeeper : Player :=
  nth 0 defaultPlayers (mkPlayer "" 0 "" home (mkPos 0 0) Available Good 0).

(** ** Theorems *)

(** In presentation mode no key changes the drawing tool; the only
    action a key can dispatch is the soft reset. *)
Theorem presentation_mode_keeps_tool e :
  key_dispatch (handleKeyDown true e) = None \/
  key_dispatch (handleKeyDown true e) = Some SOFT_RESET_APP.
Proof.
  unfold handleKeyDown. destruct (inFormField e); [by left|].
  destruct (_ && _); [by right|]. destruct (keyMap _); by left.
Qed.

(** Outside a form field, Ctrl+R or Cmd+R (with or without Shift)
    dispatches the soft reset and cancels the browser reload, whatever the
    mode; the letter alone selects the zone tool. *)
Theorem ctrl_r_soft_reset pm k ctrl meta :
  ctrl || meta = true -> toLowerCase k = "r" ->
  handleKeyDown pm (mkKey k ctrl meta false) = mkKeyOutcome true (Some SOFT_RESET_APP) /\
  handleKeyDown false (mkKey k false false false) = mkKeyOutcome true (Some (SET_DRAWING_TOOL zone)).
Proof.
  intros Hcm Hk. unfold handleKeyDown. simpl. rewrite Hcm, Hk. done.
Qed.

(** Every drawing tool has its shortcut key. *)
Theorem toolKey_selects t :
  handleKeyDown false (mkKey (toolKey t) false false false) =
  mkKeyOutcome true (Some (SET_DRAWING_TOOL t)).
Proof. by destruct t. Qed.

(** A token that cannot be dragged (a drawing tool other than select,
    or presentation mode) carries no id, and dropping it on a slot
    dispatches nothing. *)
Theorem undraggable_token_drop_noop u p mode x y z slot tm :
  isDraggable u = false ->
  handleSlotDrop mode (mkDrop (dragData u p) x y z) slot tm = NoDispatch.
Proof. intros Hd. unfold dragData. rewrite Hd. reflexivity. Qed.


(** ** Witnesses *)

Lemma ctrl_r_soft_reset_witness :
  handleKeyDown true (mkKey "R" true false false) = mkKeyOutcome true (Some SOFT_RESET_APP) /\
  handleKeyDown false (mkKey "R" false false false) =
    mkKeyOutcome true (Some (SET_DRAWING_TOOL zone)).
Proof. apply ctrl_r_soft_reset; reflexivity. Defined.

Lemma undraggable_token_drop_noop_witness :
  handleSlotDrop snap (mkDrop (dragData arrowToolUI goalkeeper) 600 400 false)
    (seedSlot "s2" DF 30 85 None) home = NoDispatch.
Proof. apply undraggable_token_drop_noop. reflexivity. Defined.

