(* ===== verification/Contexts.v ===== *)
(** * Contexts: the providers of [AppProvider] and the context hooks

    [AppProvider] ([src/context/AppContext.tsx], lines 113-124) nests four
    providers whose values are the slices [auth], [tactics], [franchise]
    and [ui] of the one reducer state, each with the same [dispatch].  The
    hooks of [src/hooks/] read the nearest provider and throw when there is
    none (the context's default is [undefined]).

    What a component sees of the contexts is a [Scope]: for each context
    the nearest provided value, if any.  [dispatch] is the same function in
    every value and is left out. *)

From S2P Require Import Prelude Domain.

(** A hook either returns or throws. *)
Inductive result (A : Type) := Success (a : A) | Failure (error : string).
Arguments Success {A} _.
Arguments Failure {A} _.

Record Scope := mkScope {
  authCtx : option AuthState;
  tacticsCtx : option TacticsState;
  franchiseCtx : option FranchiseState;
  uiCtx : option UIState;
}.

(** Outside every provider: [createContext(undefined)] everywhere. *)
Definition rootScope : Scope := mkScope None None None None.

(** The four nested providers of [AppProvider], around [children]. *)
Definition appProvider (s : RootState) (_ : Scope) : Scope :=
  mkScope (Some (auth s)) (Some (tactics s)) (Some (franchise s)) (Some (ui s)).

(** [useContext] followed by the [undefined] check. *)
Definition useContextOr {A} (name : string) (v : option A) : result A :=
  match v with
  | Some a => Success a
  | None => Failure (name +:+ " must be used within an AppProvider")
  end.

Definition useAuthContext (sc : Scope) : result AuthState :=
  useContextOr "useAuthContext" (authCtx sc).
Definition useTacticsContext (sc : Scope) : result TacticsState :=
  useContextOr "useTacticsContext" (tacticsCtx sc).
Definition useFranchiseContext (sc : Scope) : result FranchiseState :=
  useContextOr "useFranchiseContext" (franchiseCtx sc).
Definition useUIContext (sc : Scope) : result UIState :=
  useContextOr "useUIContext" (uiCtx sc).

(** ** Theorems *)

(** Under [AppProvider] every hook returns, and the four slices are those
    of one and the same reducer state, whatever the enclosing scope. *)
Theorem hooks_under_provider s sc :
  useAuthContext (appProvider s sc) = Success (auth s) /\
  useTacticsContext (appProvider s sc) = Success (tactics s) /\
  useFranchiseContext (appProvider s sc) = Success (franchise s) /\
  useUIContext (appProvider s sc) = Success (ui s).
Proof. done. Qed.

(** Outside [AppProvider] each hook throws its own message. *)
Theorem hooks_outside_provider :
  useAuthContext rootScope = Failure "useAuthContext must be used within an AppProvider" /\
  useTacticsContext rootScope = Failure "useTacticsContext must be used within an AppProvider" /\
  useFranchiseContext rootScope = Failure "useFranchiseContext must be used within an AppProvider" /\
  useUIContext rootScope = Failure "useUIContext must be used within an AppProvider".
Proof. done. Qed.
