(* ===== verification/Field.v ===== *)
(** * Field: what the pitch renders and where its drops go

    [renderTeam] of [src/components/SoccerField.tsx] (lines 276-351)
    draws a token for every player of a team, with the slot that holds
    the player (if any) and the live position, mirrored on the away side;
    in snap mode it also draws a drop zone for every free slot, at the
    (mirrored) default position.  A drop on a token goes to
    [handleSlotDrop] only in snap mode and when the player holds a slot,
    and its propagation to the pitch is stopped in every case; a drop on a
    zone goes to [handleSlotDrop].  The body of [SoccerField] (lines
    134-137 and 402-403) shows "Loading Formation..." without both
    formations and renders the teams of the team view.

    The drag-over highlight ([dragOverSlotId], lines 132 and 264-268) is
    modelled with React's event bubbling: a drag event runs the handler of
    its target, then those of the enclosing pitch unless one stopped the
    propagation, and the state updates of one event are batched, the last
    one winning ([eventPath], [dragStep]).  [fieldLayers] is which layers
    the pitch draws: set-piece markings, grid, timeline, action bubbles,
    chemistry overlay and the cursor of the active tool. *)

From S2P Require Import Prelude Geometry Domain SlotAction Chemistry.

(** One rendered player: the token, its slot, its position, its stacking
    order, and whether the action bubble is shown. *)
Record TokenView := mkToken {
  tv_player : Player;
  tv_slot : option FormationSlot;
  tv_position : Position;
  tv_zIndex : Z;
  tv_bubble : bool;
}.

(** [teamPlayers]: every player of the team, benched ones included. *)
Definition renderTokens (ps : list Player) (f : Formation) (tm : Team)
    (selectedPlayerId : option string) (isPresentationMode : bool) : list TokenView :=
  map (fun p =>
         mkToken p (slotOfPlayer f (player_id p)) (teamPosition tm (position p))
           (if bool_decide (Some (player_id p) = selectedPlayerId) then 15 else 5)
           (negb isPresentationMode))
      (filter (fun p => team p = tm) ps).

(** [teamSlots], with the mirrored default positions. *)
Definition teamSlots (f : Formation) (tm : Team) : list FormationSlot :=
  map (fun s => mkSlot (slot_id s) (slot_role s) (teamPosition tm (defaultPosition s))
                  (slot_playerId s)) (slots f).

(** The drop zones: the free slots, in snap mode only. *)
Definition slotZones (mode : PositioningMode) (f : Formation) (tm : Team) : list FormationSlot :=
  match mode with
  | snap => filter (fun s => truthy (slot_playerId s) = false) (teamSlots f tm)
  | free => []
  end.

(** [onDrop] of a token. *)
Definition dropOnToken (mode : PositioningMode) (tm : Team) (tv : TokenView)
    (e : DropEvent) : HandlerOutcome :=
  match mode, tv_slot tv with
  | snap, Some s => handleSlotDrop snap e s tm
  | _, _ => NoDispatch
  end.

(** [onDrop] of a zone. *)
Definition dropOnZone (mode : PositioningMode) (tm : Team) (zone : FormationSlot)
    (e : DropEvent) : HandlerOutcome :=
  handleSlotDrop mode e zone tm.

(** [onClick] of a token's action bubble, when it is shown. *)
Definition clickBubble (tv : TokenView) (anchor : Position) : HandlerOutcome :=
  if tv_bubble tv then handleActionBubbleClick (tv_player tv) (tv_slot tv) anchor
  else NoDispatch.

(** The teams drawn for a team view (lines 402-403). *)
Definition renderedTeams (view : TeamView) : list Team :=
  (if view is view_away then [] else [home]) ++ (if view is view_home then [] else [away]).

Inductive FieldView :=
| loadingFormation
| pitch (tokens : list TokenView) (zones : list (Team * FormationSlot)).

(** [SoccerField]: both formations are needed, then each team of the view
    is rendered. *)
Definition soccerField (s : RootState) : FieldView :=
  let t := tactics s in
  let u := ui s in
  match formations t !! at_home (activeFormationIds t),
        formations t !! at_away (activeFormationIds t) with
  | Some hf, Some af =>
      let fFor tm := match tm with home => hf | away => af end in
      let teams := renderedTeams (activeTeamContext u) in
      pitch (flat_map (fun tm => renderTokens (players t) (fFor tm) tm
                                   (selectedPlayerId u) (isPresentationMode u)) teams)
            (flat_map (fun tm => map (pair tm) (slotZones (positioningMode u) (fFor tm) tm)) teams)
  | _, _ => loadingFormation
  end.

(** ** Drag-over highlighting

    [dragOverSlotId] (line 132) is the slot whose token or zone is drawn
    highlighted (lines 312 and 345).  A drag event reaches the element
    under the pointer and bubbles up to the pitch's root element; React
    runs the handlers along the way until one calls [stopPropagation],
    and applies the [setDragOverSlotId] calls they made in order, so the
    last one wins. *)

Inductive DragTarget :=
| on_token (tv : TokenView)
| on_zone (z : FormationSlot)
| on_pitch.

(** What one element's handler does: its [setDragOverSlotId] calls, in
    order, and whether it stops propagation. *)
Record HandlerEffect := mkEffect { he_updates : list (option string); he_stops : bool }.

(** [handleDragOver(e, slotId = null)] (lines 264-268) *)
Definition handleDragOver (slotId : option string) : HandlerEffect := mkEffect [slotId] false.

(** [onDragOver] of a token (lines 306-311), of a zone (343) and of the
    pitch (358). *)
Definition tokenDragOver (mode : PositioningMode) (tv : TokenView) : HandlerEffect :=
  match mode, tv_slot tv with
  | snap, Some s => handleDragOver (Some (slot_id s))
  | _, _ => mkEffect [] false
  end.

Definition zoneDragOver (z : FormationSlot) : HandlerEffect := handleDragOver (Some (slot_id z)).

Definition pitchDragOver : HandlerEffect := handleDragOver None.

(** [onDragLeave] of a zone (344) and of the pitch (359); tokens have none. *)
Definition leaveHandler (t : DragTarget) : HandlerEffect :=
  match t with on_token _ => mkEffect [] false | _ => mkEffect [None] false end.

(** [onDrop]: a token's handler stops propagation and resets the highlight
    only through [handleSlotDrop] (snap mode and a slot); a zone's calls
    [handleSlotDrop] and the pitch's [handleFieldDrop], which both reset it
    and stop propagation. *)
Definition dropHandler (mode : PositioningMode) (t : DragTarget) : HandlerEffect :=
  match t with
  | on_token tv => mkEffect (match mode, tv_slot tv with snap, Some _ => [None] | _, _ => [] end) true
  | _ => mkEffect [None] true
  end.

Inductive DragEventKind := drag_over | drag_leave | drag_drop.

(** The handlers a drag event meets, from the target up to the pitch. *)
Definition eventPath (mode : PositioningMode) (k : DragEventKind) (t : DragTarget) : list HandlerEffect :=
  let here := match k with
              | drag_over => match t with
                             | on_token tv => tokenDragOver mode tv
                             | on_zone z => zoneDragOver z
                             | on_pitch => pitchDragOver
                             end
              | drag_leave => leaveHandler t
              | drag_drop => dropHandler mode t
              end in
  let root := match k with
              | drag_over => pitchDragOver
              | drag_leave => leaveHandler on_pitch
              | drag_drop => dropHandler mode on_pitch
              end in
  match t with on_pitch => [here] | _ => [here; root] end.

(** Bubbling: the updates of each handler until one stops propagation. *)
Fixpoint bubble (path : list HandlerEffect) : list (option string) :=
  match path with
  | [] => []
  | h :: rest => he_updates h ++ (if he_stops h then [] else bubble rest)
  end.

(** The batched updates, applied in order. *)
Definition applyUpdates (cur : option string) (us : list (option string)) : option string :=
  (last us) ?? cur.

Definition dragStep (mode : PositioningMode) (cur : option string)
    (e : DragEventKind * DragTarget) : option string :=
  applyUpdates cur (bubble (eventPath mode e.1 e.2)).

(** The ring of a token (line 312) and the highlight of a zone (line 345). *)
Definition tokenRing (mode : PositioningMode) (dragOver : option string) (tv : TokenView) : bool :=
  match tv_slot tv with
  | Some s => bool_decide (dragOver = Some (slot_id s)) && bool_decide (mode = snap)
  | None => false
  end.

Definition zoneHighlight (dragOver : option string) (z : FormationSlot) : bool :=
  bool_decide (dragOver = Some (slot_id z)).

(** ** The layers of the pitch *)

(** [SetPieceContext] (lines 31-70): the markings drawn for the category
    of the active playbook item; [contexts[category]] is undefined for
    [General], which draws nothing. *)
Inductive ContextMarking :=
| corner_arcs_attacking     (* the two corner arcs at x = 1050 *)
| corner_arcs_defending     (* the two corner arcs at x = 0 *)
| free_kick_circle (cx : Z) (* dashed circle of radius 91.5 at (cx, 340) *)
| touchline_bands.          (* the rectangles at y = 0 and y = 640 *)

Definition setPieceContext (c : PlayCategory) : option ContextMarking :=
  match c with
  | AttackingCorner => Some corner_arcs_attacking
  | DefendingCorner => Some corner_arcs_defending
  | AttackingFreeKick => Some (free_kick_circle 800)
  | DefendingFreeKick => Some (free_kick_circle 250)
  | ThrowIn => Some touchline_bands
  | General => None
  end.

(** [FieldGrid] (lines 72-87): the vertical and the horizontal lines at
    [i * 10] for [i = 1 .. 9]. *)
Definition gridLines : list (bool * Z) :=
  map (fun i => (true, i * 10)) (zseq 1 9) ++ map (fun i => (false, i * 10)) (zseq 1 9).

(** [getCursorStyle] (lines 270-274) *)
Definition cursorStyle (u : UIState) : string :=
  if isPresentationMode u then "default"
  else if bool_decide (drawingTool u = select) then "default" else "crosshair".

(** What the pitch draws besides the tokens (lines 139 and 353-408). *)
Record FieldLayers := mkLayers {
  layer_context : option ContextMarking;
  layer_grid : list (bool * Z);
  layer_timeline : bool;
  layer_cursor : string;
}.

Definition fieldLayers (s : RootState) : FieldLayers :=
  let u := ui s in
  let item := match activePlaybookItemId u with
              | Some id => if truthy (Some id) then playbook (tactics s) !! id else None
              | None => None
              end in
  mkLayers (item ≫= fun it => setPieceContext (category it))
    (if uiFlag u "isGridVisible" then gridLines else []) (negb (isPresentationMode u)) (cursorStyle u).

(** ** The hooks a render calls

    React identifies the hooks of a component by the order of their calls
    and throws when a render calls another sequence than the render before
    ("Rendered fewer hooks than expected", "Rendered more hooks than during
    the previous render").  [SoccerField] calls three context hooks,
    [useRef] and [useState] (lines 124-132), returns early at line 137
    without both formations, and only then calls [useMemo] (lines 141 and
    190) and [useCallback] (line 202). *)
Inductive Hook := hook_context | hook_ref | hook_state | hook_memo | hook_callback.

#[export] Instance Hook_eq_dec : EqDecision Hook.
Proof. solve_decision. Defined.

Definition fieldLoading (v : FieldView) : bool :=
  if v is loadingFormation then true else false.

Definition soccerFieldHooks (s : RootState) : list Hook :=
  [hook_context; hook_context; hook_context; hook_ref; hook_state] ++
  (if fieldLoading (soccerField s) then [] else [hook_memo; hook_memo; hook_callback]).

(** The renders of one mounted component after its first: each must call
    the hooks the first one recorded, or React throws. *)
Fixpoint rerenderOk (recorded : list Hook) (renders : list (list Hook)) : bool :=
  match renders with
  | [] => true
  | h :: rest => if decide (h = recorded) then rerenderOk recorded rest else false
  end.

(** A component mounted with the first state and rendered again with each
    of the others, in order. *)
Definition rendersOk (hooks : list (list Hook)) : bool :=
  match hooks with [] => true | h :: rest => rerenderOk h rest end.

(** The seed state with the away formation gone from [formations]. *)
Definition awayFormationMissing : RootState :=
  with_tactics (fun t => set_formations (delete "4-3-3" (formations t)) t) INITIAL_STATE.

(** ** Lemmas *)

Lemma teamPosition_in_pitch tm p : in_pitch p = true -> in_pitch (teamPosition tm p) = true.
Proof.
  destruct tm; [done|]. unfold in_pitch, teamPosition, mirrorPosition. simpl.
  rewrite !andb_true_iff, !Z.leb_le. lia.
Qed.

(** Whatever the target, a drag-over ends with the pitch's handler, which
    resets the highlight. *)
Lemma dragStep_over mode cur t : dragStep mode cur (drag_over, t) = None.
Proof.
  unfold dragStep, applyUpdates. destruct t as [tv|z|]; [|reflexivity..].
  cbn. unfold tokenDragOver. destruct mode; [reflexivity|]. by destruct (tv_slot tv).
Qed.

Lemma dragStep_from_none mode e : dragStep mode None e = None.
Proof.
  destruct e as [[] [tv|z|]]; [apply dragStep_over..| | | | | |]; try reflexivity.
  unfold dragStep, applyUpdates. cbn. destruct mode; [reflexivity|]. by destruct (tv_slot tv).
Qed.

(** The grid is nine vertical and nine horizontal lines strictly inside the
    pitch. *)
Lemma gridLines_inside : length gridLines = 18%nat /\ Forall (fun l => 0 < l.2 < 100) gridLines.
Proof. split; [reflexivity|]. repeat constructor; simpl; lia. Qed.


Lemma soccerFieldHooks_eq s1 s2 :
  soccerFieldHooks s1 = soccerFieldHooks s2 <-> fieldLoading (soccerField s1) = fieldLoading (soccerField s2).
Proof.
  unfold soccerFieldHooks.
  destruct (fieldLoading (soccerField s1)), (fieldLoading (soccerField s2)); naive_solver.
Qed.

Lemma rerenderOk_Forall h l : rerenderOk h l = true <-> Forall (fun x => x = h) l.
Proof.
  induction l as [|x l IH]; simpl; [split; [constructor|done]|].
  rewrite Forall_cons. case_decide; naive_solver.
Qed.

(** What a drawn token carries: the slot [formation.slots.find] gives for its
    player in some formation, and the bubble unless in presentation mode. *)
Lemma soccerField_tokens s tokens zones tv :
  soccerField s = pitch tokens zones -> tv ∈ tokens ->
  exists f, tv_slot tv = slotOfPlayer f (player_id (tv_player tv)) /\
            tv_bubble tv = negb (isPresentationMode (ui s)).
Proof.
  unfold soccerField.
  destruct (formations (tactics s) !! at_home (activeFormationIds (tactics s))) as [hf|],
    (formations (tactics s) !! at_away (activeFormationIds (tactics s))) as [af|];
    intros Hs; try discriminate.
  injection Hs as <- _. intros Htv. apply list_elem_of_In, in_flat_map in Htv as (tm & _ & Htv).
  unfold renderTokens in Htv. apply in_map_iff in Htv as (p & <- & _). simpl. eauto.
Qed.

(** ** Theorems *)

(** C16: The drop-target highlight of [SoccerField] is never shown: every
    drag-over bubbles from the token or zone to the pitch, whose handler
    sets [dragOverSlotId] back to [null] after the target's handler set it,
    so from the initial [null] no sequence of drag events highlights a
    token or a free slot. *)
Theorem drag_highlight_never_shown mode evs :
  fold_left (dragStep mode) evs None = None /\
  (forall tv, tokenRing mode (fold_left (dragStep mode) evs None) tv = false) /\
  (forall z, zoneHighlight (fold_left (dragStep mode) evs None) z = false).
Proof.
  assert (fold_left (dragStep mode) evs None = None) as Hn.
  { induction evs as [|e evs IH] using rev_ind; [done|].
    rewrite fold_left_app. cbn [fold_left]. rewrite IH. apply dragStep_from_none. }
  rewrite Hn. split; [done|]. split.
  - intros tv. unfold tokenRing. by destruct (tv_slot tv).
  - done.
Qed.


(** C37: In every state the pitch is drawn in, outside presentation mode,
    clicking the action bubble of a token opens the slot-action menu for
    the slot that holds its player, and throws a [TypeError] for every
    token whose player holds no slot of the team's formation: [renderTeam]
    draws all players of the team, benched ones included, with [slot]
    undefined (line 256). *)
Theorem pitch_bubble_click s tokens zones tv anchor :
  soccerField s = pitch tokens zones -> tv ∈ tokens -> isPresentationMode (ui s) = false ->
  match tv_slot tv with
  | None => exists msg, clickBubble tv anchor = Throws msg
  | Some sl =>
      slot_playerId sl = Some (player_id (tv_player tv)) /\
      clickBubble tv anchor =
        Dispatch (OPEN_SLOT_ACTION_MENU (mkMenu (player_id (tv_player tv)) (slot_id sl)
                    (Some (player_id (tv_player tv))) click anchor))
  end.
Proof.
  intros Hs Htv Hp. destruct (soccerField_tokens s tokens zones tv Hs Htv) as (f & Hsl & Hb).
  unfold clickBubble. rewrite Hb, Hp. simpl. rewrite Hsl.
  destruct (slotOfPlayer f (player_id (tv_player tv))) as [sl|] eqn:E; [|by eexists].
  split; [|done]. unfold slotOfPlayer in E. apply find_some in E as [_ E].
  by apply bool_decide_eq_true in E.
Qed.

(** In free mode a drop on a player token dispatches nothing: the
    token's handler ignores it and stops it reaching the pitch's handler. *)
Theorem free_mode_token_drop_swallowed tm tv e :
  dropOnToken free tm tv e = NoDispatch.
Proof. done. Qed.

(** Every drop zone is a free slot of the formation, drawn at its
    default position (mirrored on the away side), which is on the pitch
    when the default position is. *)
Theorem slotZones_free mode f tm z :
  z ∈ slotZones mode f tm ->
  mode = snap /\ truthy (slot_playerId z) = false /\
  exists s, s ∈ slots f /\ slot_id z = slot_id s /\ slot_playerId z = slot_playerId s /\
    defaultPosition z = teamPosition tm (defaultPosition s) /\
    (in_pitch (defaultPosition s) = true -> in_pitch (defaultPosition z) = true).
Proof.
  destruct mode; [simpl; intros Hz; by apply not_elem_of_nil in Hz|].
  simpl. intros Hz. apply list_elem_of_filter in Hz as [Hfree Hz].
  unfold teamSlots in Hz. apply list_elem_of_fmap in Hz as (s & -> & Hs).
  split; [done|]. split; [done|]. exists s. do 4 (split; [done|]).
  apply teamPosition_in_pitch.
Qed.

(** C20: [SoccerField] returns early, before its [useMemo] and [useCallback]
    calls, while a formation is missing: a mounted pitch renders a sequence
    of states without React throwing exactly when the two active formations
    are present in all of them or missing in all of them. *)
Theorem soccerField_hooks_consistent s ss :
  rendersOk (map soccerFieldHooks (s :: ss)) = true <->
  Forall (fun s' => fieldLoading (soccerField s') = fieldLoading (soccerField s)) ss.
Proof.
  simpl. rewrite rerenderOk_Forall, Forall_fmap.
  apply Forall_iff. intros s'. apply soccerFieldHooks_eq.
Qed.

(** ** Witnesses *)

(** The pitch of the seed state, and its token of the away player [p12],
    who holds no slot of the 4-3-3. *)
Definition seedPitchTokens : list TokenView :=
  match soccerField INITIAL_STATE with pitch t _ => t | loadingFormation => [] end.
Definition seedPitchZones : list (Team * FormationSlot) :=
  match soccerField INITIAL_STATE with pitch _ z => z | loadingFormation => [] end.
Definition seedAwayToken : TokenView :=
  mkToken (nth 11 defaultPlayers (mkPlayer "" 0 "" home (mkPos 0 0) Available Good 0))
    None (mkPos 200 200) 5 true.

Lemma pitch_bubble_click_witness : exists msg, clickBubble seedAwayToken (mkPos 0 0) = Throws msg.
Proof.
  apply (pitch_bubble_click INITIAL_STATE seedPitchTokens seedPitchZones seedAwayToken (mkPos 0 0));
    [reflexivity| |reflexivity].
  vm_compute. repeat (first [left; reflexivity | right]).
Defined.

Lemma slotZones_free_witness :
  snap = snap /\ truthy (slot_playerId (seedSlot "s1" GK 92 50 None)) = false /\
  exists s, s ∈ slots formation_433 /\ slot_id (seedSlot "s1" GK 92 50 None) = slot_id s /\
    slot_playerId (seedSlot "s1" GK 92 50 None) = slot_playerId s /\
    defaultPosition (seedSlot "s1" GK 92 50 None) = teamPosition away (defaultPosition s) /\
    (in_pitch (defaultPosition s) = true ->
     in_pitch (defaultPosition (seedSlot "s1" GK 92 50 None)) = true).
Proof.
  apply (slotZones_free snap formation_433 away). vm_compute. left.
Defined.

(** The pitch mounted on the seed state throws when it renders again after
    its away formation has gone. *)
Example soccerField_throws_when_formation_goes :
  rendersOk (map soccerFieldHooks [INITIAL_STATE; awayFormationMissing]) = false.
Proof. vm_compute. reflexivity. Qed.
