(* ===== verification/Screen.v ===== *)
(** * Screen: the layout, the tactics board and the lineup export

    [Layout] ([src/components/Layout.tsx]) toggles the theme classes of the
    document root (lines 66-70), exports the lineup as a PNG when
    [isExportingLineup] is set (lines 106-133), picks the popup of the
    active modal from [MODAL_MAP] (lines 29-48, 135) and hides the header
    in presentation mode.  [TacticsBoardPage]
    ([src/pages/TacticsBoardPage.tsx]) lays out the sidebars, the pitch,
    the toolbar, the dugout and the chat button, most of them only outside
    presentation mode.  [PlayerToken] ([src/components/PlayerToken.tsx],
    lines 50-149) draws a player's face from [PLAYER_ROLES] of
    [src/constants.ts].

    The export effect runs after a commit whose dependencies changed and
    awaits [toPng] (an external image library): its runtime [exportStep]
    keeps the state, the image jobs in flight and what was downloaded and
    notified.  The reducer is not under [src/]; the runtime is
    parameterised by one satisfying the laws of [ExportReducer], which
    [reduceLayout] (from section 6 of the specification: the export is
    "triggered by a boolean flag/action pair") meets. *)

From S2P Require Import Prelude Geometry Domain Formation Views Field.

(** ** [MODAL_MAP] *)

Inductive ModalComponent :=
| PlayerEditPopup | PlayerComparePopup | SlotActionMenuPopup | AIChatPopup
| CustomFormationEditorPopup | LoadProjectPopup | MatchSimulatorPopup
| PostMatchReportPopup | ContractNegotiationPopup | PressConferencePopup
| AISubstitutionSuggestionPopup | PlayerConversationPopup | InteractiveTutorialPopup
| ScoutingPopup | SponsorshipsPageModal | TeamTalkPopup | SeasonEndSummaryPopup
| PlaybookLibraryPopup.

Definition MODAL_MAP (m : ModalType) : ModalComponent :=
  match m with
  | editPlayer => PlayerEditPopup | comparePlayer => PlayerComparePopup
  | slotActionMenu => SlotActionMenuPopup | chat => AIChatPopup
  | customFormationEditor => CustomFormationEditorPopup | loadProject => LoadProjectPopup
  | matchSimulator => MatchSimulatorPopup | postMatchReport => PostMatchReportPopup
  | contractNegotiation => ContractNegotiationPopup | pressConference => PressConferencePopup
  | aiSubSuggestion => AISubstitutionSuggestionPopup | playerConversation => PlayerConversationPopup
  | interactiveTutorial => InteractiveTutorialPopup | scouting => ScoutingPopup
  | sponsorships => SponsorshipsPageModal | teamTalk => TeamTalkPopup
  | seasonEndSummary => SeasonEndSummaryPopup | playbookLibrary => PlaybookLibraryPopup
  end.

(** ** The theme *)

(** [uiState.theme] *)
Definition themeOf (u : UIState) : string :=
  match ui_rest u !! "theme" with Some (JStr t) => t | _ => "" end.

(** [classList.toggle(c, force)] *)
Definition toggleClass (c : string) (force : bool) (cls : gset string) : gset string :=
  if force then {[c]} ∪ cls else cls ∖ {[c]}.

Definition themeEffect (theme : string) (cls : gset string) : gset string :=
  toggleClass "dark" (String.eqb theme "dark") (toggleClass "light" (String.eqb theme "light") cls).

(** ** The lineup export *)

(** The dependency list of the effect (line 133); [dispatch] never changes. *)
Definition exportDeps (s : RootState) :=
  (uiFlag (ui s) "isExportingLineup", themeOf (ui s), players (tactics s),
   formations (tactics s), activeFormationIds (tactics s), captainIds (tactics s)).

(** The effect body up to [await toPng]: with the flag set (the hidden
    [PrintableLineup] is then rendered and holds the ref), an image job with
    the theme's background colour starts. *)
Definition exportEffect (s : RootState) : option string :=
  if uiFlag (ui s) "isExportingLineup"
  then Some (if String.eqb (themeOf (ui s)) "light" then "#f1f5f9" else "#1e293b")
  else None.

Inductive PngResult := png_ok (dataUrl : string) | png_error.

Record ExportRT := mkExportRT {
  ex_state : RootState;
  ex_jobs : list string;           (* the [toPng] calls in flight, oldest first *)
  ex_downloads : list string;      (* the data URLs [link.click()] downloaded *)
  ex_notices : list string;        (* the [type] of each notification dispatched *)
}.

Inductive ExportEvent := ex_dispatch (a : Action) | ex_settle (r : PngResult).

(** [{ message, type }] of the two notifications (lines 118-127). *)
Definition exportNotice (r : PngResult) : jval :=
  match r with
  | png_ok _ => JObj [("message", JStr "Tactic Sheet exported successfully!"); ("type", JStr "success")]
  | png_error => JObj [("message", JStr "An error occurred while exporting."); ("type", JStr "error")]
  end.

Definition noticeType (r : PngResult) : string :=
  match r with png_ok _ => "success" | png_error => "error" end.

Section ExportRuntime.
Variable reduce : Action -> RootState -> RootState.

(** A dispatch: the reducer runs, and the effect runs again when its
    dependencies changed. *)
Definition exportCommit (rt : ExportRT) (a : Action) : ExportRT :=
  let s := ex_state rt in
  let s' := reduce a s in
  let jobs := if decide (exportDeps s' = exportDeps s) then ex_jobs rt
              else match exportEffect s' with
                   | Some bg => ex_jobs rt ++ [bg]
                   | None => ex_jobs rt
                   end in
  mkExportRT s' jobs (ex_downloads rt) (ex_notices rt).

(** The oldest image job settles: the download (on success), the
    notification, and [EXPORT_LINEUP_FINISH] from [finally]. *)
Definition exportStep (rt : ExportRT) (e : ExportEvent) : ExportRT :=
  match e with
  | ex_dispatch a => exportCommit rt a
  | ex_settle r =>
      match ex_jobs rt with
      | [] => rt
      | _ :: jobs =>
          let rt1 := mkExportRT (ex_state rt) jobs
                       (ex_downloads rt ++ match r with png_ok url => [url] | png_error => [] end)
                       (ex_notices rt ++ [noticeType r]) in
          exportCommit (exportCommit rt1 (ADD_NOTIFICATION (exportNotice r))) EXPORT_LINEUP_FINISH
      end
  end.

End ExportRuntime.

Definition exportRun (reduce : Action -> RootState -> RootState) (rt : ExportRT)
    (evs : list ExportEvent) : ExportRT :=
  fold_left (exportStep reduce) evs rt.

(** What the reducer does with the actions the export uses. *)
Class ExportReducer (reduce : Action -> RootState -> RootState) := {
  export_start s : exportDeps (reduce EXPORT_LINEUP_START s) =
    (true, themeOf (ui s), players (tactics s), formations (tactics s),
     activeFormationIds (tactics s), captainIds (tactics s));
  export_finish s : exportDeps (reduce EXPORT_LINEUP_FINISH s) =
    (false, themeOf (ui s), players (tactics s), formations (tactics s),
     activeFormationIds (tactics s), captainIds (tactics s));
  export_notify p s : exportDeps (reduce (ADD_NOTIFICATION p) s) = exportDeps s;
}.

(** A reducer for these actions and for free moves: the flag pair of the
    export, a notification queued in [ui.notifications], and
    [UPDATE_PLAYER_POSITION] of section 4.1. *)
Definition setUIRest (k : string) (v : jval) (u : UIState) : UIState :=
  mkUI (activeTeamContext u) (activeModal u) (slotActionMenuData u) (selectedPlayerId u)
    (drawingTool u) (positioningMode u) (activePlaybookItemId u) (activeStepIndex u)
    (isAnimating u) (isPaused u) (animationTrails u) (isPresentationMode u)
    (activeSaveSlotId u) (<[k := v]> (ui_rest u)).

Definition reduceLayout (a : Action) (s : RootState) : RootState :=
  match a with
  | EXPORT_LINEUP_START => with_ui (setUIRest "isExportingLineup" (JBool true)) s
  | EXPORT_LINEUP_FINISH => with_ui (setUIRest "isExportingLineup" (JBool false)) s
  | ADD_NOTIFICATION p =>
      let q := match ui_rest (ui s) !! "notifications" with Some (JArr l) => l | _ => [] end in
      with_ui (setUIRest "notifications" (JArr (q ++ [p]))) s
  | UPDATE_PLAYER_POSITION pid pos => with_tactics (updatePlayerPosition pid pos) s
  | _ => s
  end.

(** ** What [Layout] and [TacticsBoardPage] show *)

Inductive Widget :=
| w_header | w_outlet | w_modal (c : ModalComponent) | w_notifications | w_tutorial
| w_printableLineup | w_leftSidebar | w_soccerField | w_tacticalToolbar | w_dugout
| w_presentationControls | w_rightSidebar | w_chatButton.

(** [Layout]'s body (lines 137-180); [uiState.tutorial?.isActive]. *)
Definition layoutWidgets (u : UIState) (page : list Widget) : list Widget :=
  (if isPresentationMode u then [] else [w_header]) ++ page ++
  (match activeModal u with Some m => [w_modal (MODAL_MAP m)] | None => [] end) ++
  [w_notifications] ++
  (match ui_rest u !! "tutorial" with
   | Some (JObj l) => if jlookup "isActive" l is Some (JBool true) then [w_tutorial] else []
   | _ => []
   end) ++
  (if uiFlag u "isExportingLineup" then [w_printableLineup] else []).

(** [TacticsBoardPage] (lines 18-62); a sidebar collapsed to width 0 with
    [overflow-hidden] shows nothing. *)
Definition tacticsBoardWidgets (u : UIState) : list Widget :=
  let pm := isPresentationMode u in
  (if pm then [] else [w_leftSidebar]) ++ [w_soccerField] ++
  (if pm then [] else [w_tacticalToolbar; w_dugout]) ++
  (if pm then [w_presentationControls] else []) ++
  (if pm then [] else [w_rightSidebar; w_chatButton]).

(** ** The player token's face *)

(** [PlayerRole] of [types.ts] and [PLAYER_ROLES] of [constants.ts]. *)
Record PlayerRole := mkRole { role_id : string; role_name : string; abbreviation : string;
                               role_category : PositionRole }.

Definition PLAYER_ROLES : list PlayerRole := [
  mkRole "gk" "Goalkeeper" "GK" GK; mkRole "sk" "Sweeper Keeper" "SK" GK;
  mkRole "cb" "Central Defender" "CB" DF; mkRole "bpd" "Ball-Playing Defender" "BPD" DF;
  mkRole "ncb" "No-Nonsense Centre-Back" "NCB" DF; mkRole "fb" "Full-Back" "FB" DF;
  mkRole "wb" "Wing-Back" "WB" DF;
  mkRole "dm" "Defensive Midfielder" "DM" MF; mkRole "dlp" "Deep-Lying Playmaker" "DLP" MF;
  mkRole "cm" "Central Midfielder" "CM" MF; mkRole "b2b" "Box-to-Box Midfielder" "B2B" MF;
  mkRole "ap" "Advanced Playmaker" "AP" MF; mkRole "wm" "Wide Midfielder" "WM" MF;
  mkRole "w" "Winger" "W" FW; mkRole "iw" "Inverted Winger" "IW" FW; mkRole "p" "Poacher" "P" FW;
  mkRole "tf" "Target Forward" "TF" FW; mkRole "cf" "Complete Forward" "CF" FW].

(** [PLAYER_ROLES.find(r => r.id === player.roleId)] *)
Definition playerRole (p : Player) : option PlayerRole :=
  List.find (fun r => String.eqb (role_id r) (roleId p)) PLAYER_ROLES.

(** [KitPattern] (lines 13-48): the token's background, from
    [uiState.teamKits[player.team]]; nothing without a kit ([teamKits]
    itself missing would throw, which the UI state's type excludes). *)
Inductive KitView :=
| kit_none
| kit_stripes (primary secondary : string)
| kit_hoops (primary secondary : string)
| kit_solid (primary : string).

Definition teamName (t : Team) : string := match t with home => "home" | away => "away" end.

Definition kitPattern (u : UIState) (p : Player) : KitView :=
  match ui_rest u !! "teamKits" with
  | Some (JObj kits) =>
      match jlookup (teamName (team p)) kits with
      | Some (JObj kit) =>
          let col k := match jlookup k kit with Some (JStr c) => c | _ => "" end in
          let pat := match jlookup "pattern" kit with Some (JStr c) => c | _ => "" end in
          if String.eqb pat "stripes" then kit_stripes (col "primaryColor") (col "secondaryColor")
          else if String.eqb pat "hoops" then kit_hoops (col "primaryColor") (col "secondaryColor")
          else kit_solid (col "primaryColor")
      | _ => kit_none
      end
  | _ => kit_none
  end.

Record TokenFace := mkFace {
  face_kit : KitView;
  face_draggable : bool;
  face_cursor : string;
  face_aiHighlight : bool;
  face_selectedRing : bool;
  face_title : string;              (* [playerRole?.name || 'Player'] *)
  face_label : string;              (* [playerRole?.abbreviation || '??'] *)
  face_captain : bool;
  face_icon : option AvailabilityIcon;
  face_stamina : string;
  face_morale : string;
}.

Definition tokenFace (u : UIState) (t : TacticsState) (p : Player)
    (isSelected isHighlightedByAI : bool) : TokenFace :=
  let r := playerRole p in
  mkFace (kitPattern u p) (isDraggable u) (if isDraggable u then "cursor-grab" else "cursor-default")
    isHighlightedByAI isSelected
    (match r with Some r => if String.eqb (role_name r) "" then "Player" else role_name r
                | None => "Player" end)
    (match r with Some r => if String.eqb (abbreviation r) "" then "??" else abbreviation r
                | None => "??" end)
    (isCaptain t p) (availabilityIcon p) (staminaColor p) (moraleColor p).

(** ** Scenarios *)

(** The seed state in presentation mode. *)
Definition presentationState : RootState :=
  with_ui (fun u => mkUI (activeTeamContext u) (activeModal u) (slotActionMenuData u)
                      (selectedPlayerId u) (drawingTool u) (positioningMode u)
                      (activePlaybookItemId u) (activeStepIndex u) (isAnimating u) (isPaused u)
                      (animationTrails u) true (activeSaveSlotId u) (ui_rest u)) INITIAL_STATE.

(** Moving the goalkeeper while the sheet is being exported. *)
Definition moveKeeper : Action := UPDATE_PLAYER_POSITION "p1" (mkPos 10 50).

(** ** Lemmas *)

Lemma setUIRest_flag k v u : uiFlag (setUIRest k v u) k = match v with JBool true => true | _ => false end.
Proof. unfold uiFlag, setUIRest. cbn [ui_rest]. by rewrite lookup_insert_eq. Qed.

Lemma setUIRest_other k k' v u : k <> k' -> ui_rest (setUIRest k v u) !! k' = ui_rest u !! k'.
Proof. intros Hk. unfold setUIRest. cbn [ui_rest]. by rewrite lookup_insert_ne. Qed.

Lemma exportDeps_setUIRest k v s :
  k <> "theme" ->
  exportDeps (with_ui (setUIRest k v) s) =
  (uiFlag (setUIRest k v (ui s)) "isExportingLineup", themeOf (ui s), players (tactics s),
   formations (tactics s), activeFormationIds (tactics s), captainIds (tactics s)).
Proof. intros Hk. unfold exportDeps, themeOf. cbn [ui tactics with_ui]. by rewrite setUIRest_other. Qed.

#[export] Instance reduceLayout_export : ExportReducer reduceLayout.
Proof.
  split.
  - intros s. cbn [reduceLayout]. rewrite exportDeps_setUIRest by discriminate.
    by rewrite setUIRest_flag.
  - intros s. cbn [reduceLayout]. rewrite exportDeps_setUIRest by discriminate.
    by rewrite setUIRest_flag.
  - intros p s. cbn [reduceLayout]. rewrite exportDeps_setUIRest by discriminate.
    unfold exportDeps, uiFlag. by rewrite setUIRest_other.
Qed.

(** [exportEffect] reads only the flag and the theme among the dependencies. *)
Lemma exportEffect_flag s :
  exportEffect s = if (exportDeps s).1.1.1.1.1
                   then Some (if String.eqb (exportDeps s).1.1.1.1.2 "light" then "#f1f5f9" else "#1e293b")
                   else None.
Proof. done. Qed.

Section ExportLaws.
Context (reduce : Action -> RootState -> RootState) `{!ExportReducer reduce}.

(** A dispatch that changes the dependencies and leaves the flag on starts
    one more image job. *)
Lemma commit_change rt a :
  uiFlag (ui (reduce a (ex_state rt))) "isExportingLineup" = true ->
  exportDeps (reduce a (ex_state rt)) <> exportDeps (ex_state rt) ->
  exists bg, exportCommit reduce rt a =
    mkExportRT (reduce a (ex_state rt)) (ex_jobs rt ++ [bg]) (ex_downloads rt) (ex_notices rt).
Proof.
  intros Hon Hch. unfold exportCommit. rewrite decide_False by done.
  unfold exportEffect. rewrite Hon. by eexists.
Qed.

Lemma commit_start rt :
  uiFlag (ui (ex_state rt)) "isExportingLineup" = false ->
  exists bg, exportCommit reduce rt EXPORT_LINEUP_START =
    mkExportRT (reduce EXPORT_LINEUP_START (ex_state rt)) (ex_jobs rt ++ [bg])
      (ex_downloads rt) (ex_notices rt).
Proof.
  intros Hoff. pose proof (export_start (ex_state rt)) as H.
  apply commit_change; [unfold exportDeps in H; congruence|].
  rewrite H. unfold exportDeps. rewrite Hoff. congruence.
Qed.

Lemma exportStep_dispatch rt a : exportStep reduce rt (ex_dispatch a) = exportCommit reduce rt a.
Proof. done. Qed.

Lemma commit_notify rt p :
  exportCommit reduce rt (ADD_NOTIFICATION p) =
  mkExportRT (reduce (ADD_NOTIFICATION p) (ex_state rt)) (ex_jobs rt) (ex_downloads rt) (ex_notices rt).
Proof. unfold exportCommit. by rewrite decide_True by apply export_notify. Qed.

(** [EXPORT_LINEUP_FINISH] never starts a job: either nothing changed, or
    the flag went off. *)
Lemma commit_finish rt :
  exportCommit reduce rt EXPORT_LINEUP_FINISH =
  mkExportRT (reduce EXPORT_LINEUP_FINISH (ex_state rt)) (ex_jobs rt) (ex_downloads rt) (ex_notices rt).
Proof. unfold exportCommit. rewrite exportEffect_flag, export_finish. by case_decide. Qed.

Lemma flag_after_finish s : uiFlag (ui (reduce EXPORT_LINEUP_FINISH s)) "isExportingLineup" = false.
Proof. pose proof (export_finish s) as H. unfold exportDeps in H. congruence. Qed.

Lemma settle_step rt bg jobs r :
  ex_jobs rt = bg :: jobs ->
  exportStep reduce rt (ex_settle r) =
  mkExportRT (reduce EXPORT_LINEUP_FINISH (reduce (ADD_NOTIFICATION (exportNotice r)) (ex_state rt)))
    jobs (ex_downloads rt ++ match r with png_ok url => [url] | png_error => [] end)
    (ex_notices rt ++ [noticeType r]).
Proof. intros Hj. cbn [exportStep]. rewrite Hj, commit_notify, commit_finish. done. Qed.

End ExportLaws.

Lemma renderTokens_bubble ps f tm sel pm tv :
  In tv (renderTokens ps f tm sel pm) -> tv_bubble tv = negb pm.
Proof. unfold renderTokens. intros (p & <- & _)%in_map_iff. done. Qed.

(** ** Theorems *)

(** C33: An export that nothing disturbs ends: after [EXPORT_LINEUP_START]
    and the settling of its image job, the flag is off, no job is in
    flight, one file was downloaded when the image was made, and one
    notification was dispatched. *)
Theorem export_once (reduce : Action -> RootState -> RootState) `{!ExportReducer reduce} s d n r :
  uiFlag (ui s) "isExportingLineup" = false ->
  let rt := exportRun reduce (mkExportRT s [] d n) [ex_dispatch EXPORT_LINEUP_START; ex_settle r] in
  ex_jobs rt = [] /\ uiFlag (ui (ex_state rt)) "isExportingLineup" = false /\
  ex_downloads rt = d ++ match r with png_ok url => [url] | png_error => [] end /\
  ex_notices rt = n ++ [noticeType r].
Proof.
  intros Hoff. unfold exportRun. cbn [fold_left]. rewrite !exportStep_dispatch.
  destruct (commit_start reduce (mkExportRT s [] d n) Hoff) as [bg ->].
  rewrite (settle_step reduce _ bg []) by done. cbn [ex_jobs ex_state ex_downloads ex_notices].
  split; [done|]. split; [apply flag_after_finish|done].
  all: exact _.
Qed.

(** C15: The export effect has no cleanup and depends on the lineup: a
    dispatch that changes the lineup (or the theme) while an image is being
    made starts a second export, and the single request downloads two
    files and shows two notifications. *)
Theorem export_twice_on_change (reduce : Action -> RootState -> RootState) `{!ExportReducer reduce}
    s d n a u1 u2 :
  uiFlag (ui s) "isExportingLineup" = false ->
  uiFlag (ui (reduce a (reduce EXPORT_LINEUP_START s))) "isExportingLineup" = true ->
  exportDeps (reduce a (reduce EXPORT_LINEUP_START s)) <> exportDeps (reduce EXPORT_LINEUP_START s) ->
  let rt := exportRun reduce (mkExportRT s [] d n)
              [ex_dispatch EXPORT_LINEUP_START; ex_dispatch a; ex_settle (png_ok u1);
               ex_settle (png_ok u2)] in
  ex_downloads rt = d ++ [u1; u2] /\ ex_notices rt = n ++ ["success"; "success"] /\ ex_jobs rt = [].
Proof.
  intros Hoff Hon Hch. unfold exportRun. cbn [fold_left].
  rewrite !exportStep_dispatch.
  destruct (commit_start reduce (mkExportRT s [] d n) Hoff) as [bg1 ->].
  cbn [ex_jobs ex_state ex_downloads ex_notices app].
  destruct (commit_change reduce (mkExportRT (reduce EXPORT_LINEUP_START s) [bg1] d n) a
              Hon Hch) as [bg2 ->].
  cbn [ex_jobs ex_state ex_downloads ex_notices app].
  rewrite (settle_step reduce (mkExportRT _ [bg1; bg2] d n) bg1 [bg2] _ eq_refl).
  rewrite (settle_step reduce _ bg2 []) by done.
  cbn [ex_downloads ex_notices ex_jobs]. rewrite <- !app_assoc. done.
  all: exact _.
Qed.

(** C11: In presentation mode the screen is the pitch and the presentation
    controls (with at most a popup, the notifications, the tutorial and the
    hidden export sheet): no header, sidebars, toolbar, dugout or chat
    button; the pitch hides the timeline and every token's action bubble,
    no token can be dragged, and no key changes the drawing tool. *)
Theorem presentation_mode_screen s :
  isPresentationMode (ui s) = true ->
  (exists extra, layoutWidgets (ui s) (tacticsBoardWidgets (ui s)) =
                   w_soccerField :: w_presentationControls :: extra /\
     Forall (fun w => w = w_notifications \/ w = w_tutorial \/ w = w_printableLineup \/
                      exists c, w = w_modal c) extra) /\
  layer_timeline (fieldLayers s) = false /\
  (forall tokens zones, soccerField s = pitch tokens zones -> Forall (fun tv => tv_bubble tv = false) tokens) /\
  isDraggable (ui s) = false /\
  (forall e, key_dispatch (handleKeyDown (isPresentationMode (ui s)) e) = None \/
             key_dispatch (handleKeyDown (isPresentationMode (ui s)) e) = Some SOFT_RESET_APP).
Proof.
  intros Hpm. split; [|split; [|split; [|split]]].
  - unfold layoutWidgets, tacticsBoardWidgets. rewrite Hpm. cbn. eexists. split; [reflexivity|].
    repeat apply Forall_app_2; repeat case_match;
      repeat (apply Forall_cons_2;
              [first [by left | by right; left | by right; right; left
                     | by right; right; right; eexists] |]);
      apply Forall_nil_2.
  - unfold fieldLayers. by rewrite Hpm.
  - intros tokens zones. unfold soccerField. repeat case_match; intros Hf; inversion Hf; subst.
    apply Forall_forall. intros tv Htv. apply list_elem_of_In, in_flat_map in Htv as (tm & _ & Htv).
    rewrite (renderTokens_bubble _ _ _ _ _ _ Htv), Hpm. done.
  - unfold isDraggable. by rewrite Hpm, andb_false_r.
  - rewrite Hpm. apply presentation_mode_keeps_tool.
Qed.

(** Every player of the seed roster has a role of [PLAYER_ROLES]: no
    token of the seed shows the fallback label ['??']. *)
Theorem seed_tokens_labelled :
  Forall (fun p => face_label (tokenFace INITIAL_ui INITIAL_tactics p false false) <> "??")
    defaultPlayers.
Proof. vm_compute. repeat (constructor; [discriminate|]). constructor. Qed.

(** ** Witnesses *)

Lemma export_once_witness :
  let rt := exportRun reduceLayout (mkExportRT INITIAL_STATE [] [] [])
              [ex_dispatch EXPORT_LINEUP_START; ex_settle (png_ok "data:image/png")] in
  ex_jobs rt = [] /\ uiFlag (ui (ex_state rt)) "isExportingLineup" = false /\
  ex_downloads rt = [] ++ ["data:image/png"] /\ ex_notices rt = [] ++ [noticeType (png_ok "data:image/png")].
Proof. apply (export_once reduceLayout). vm_compute. reflexivity. Defined.

Lemma export_twice_on_change_witness :
  let rt := exportRun reduceLayout (mkExportRT INITIAL_STATE [] [] [])
              [ex_dispatch EXPORT_LINEUP_START; ex_dispatch moveKeeper; ex_settle (png_ok "a");
               ex_settle (png_ok "b")] in
  ex_downloads rt = [] ++ ["a"; "b"] /\ ex_notices rt = [] ++ ["success"; "success"] /\ ex_jobs rt = [].
Proof.
  apply (export_twice_on_change reduceLayout).
  - vm_compute. reflexivity.
  - vm_compute. reflexivity.
  - decide_key.
Defined.

Lemma presentation_mode_screen_witness :
  (exists extra, layoutWidgets (ui presentationState) (tacticsBoardWidgets (ui presentationState)) =
                   w_soccerField :: w_presentationControls :: extra /\
     Forall (fun w => w = w_notifications \/ w = w_tutorial \/ w = w_printableLineup \/
                      exists c, w = w_modal c) extra) /\
  layer_timeline (fieldLayers presentationState) = false /\
  (forall tokens zones, soccerField presentationState = pitch tokens zones ->
     Forall (fun tv => tv_bubble tv = false) tokens) /\
  isDraggable (ui presentationState) = false /\
  (forall e, key_dispatch (handleKeyDown (isPresentationMode (ui presentationState)) e) = None \/
             key_dispatch (handleKeyDown (isPresentationMode (ui presentationState)) e) =
               Some SOFT_RESET_APP).
Proof. apply presentation_mode_screen. reflexivity. Defined.
